(** * Salesforce-Analyser-Py: the rule-based analysis engine

    A shallow embedding of [models/naming_convention_analyzer.py],
    [models/bypass_pattern_analyzer.py] and [utils/report_generator.py],
    and the properties of the engine proved over it.

    Conventions of the embedding.
    - A Python [str] is a [string] whose characters are the code points
      0..255; the character classes of [re] are given on that range.
    - A Python [int] is a [Z]; a Python [float] is a binary64 value of
      [SpecFloat] ([prec = 53], [emax = 1024]) and the arithmetic is the
      IEEE one, rounding to nearest, ties to even.
    - A call that can raise returns a [result]; the exception is data.
    - A dict with a fixed set of keys is a record; a key that may be
      absent is an [option] field; a dict that is filled in order is an
      association list.
    - The functions of [Naming] and [Bypass] take the instance as an
      argument; in [NamingMethods] and [BypassMethods] the same methods
      are written with the instance threaded through every read of an
      attribute and every call on [self].  *)

From Stdlib Require Import ZArith List String Ascii Bool Lia Permutation Sorted.
From Stdlib Require Import Floats.SpecFloat DecimalString.
Import ListNotations.

Local Open Scope string_scope.
Local Open Scope Z_scope.

(** ** Exceptions and fallible computations *)

Inductive exception : Type :=
| ValueError (msg : string)
| IndexError
| KeyError (key : string)
| OverflowError
| ZeroDivisionError.

Inductive result (A : Type) : Type :=
| Ok (a : A)
| Raise (e : exception).

Arguments Ok {A} a.
Arguments Raise {A} e.

Definition bind {A B : Type} (m : result A) (f : A -> result B) : result B :=
  match m with
  | Ok a => f a
  | Raise e => Raise e
  end.

Notation "x <- m ;; k" := (bind m (fun x => k))
  (at level 61, m at next level, right associativity).

Definition raises {A : Type} (m : result A) : Prop :=
  exists e, m = Raise e.

(** ** Python numbers *)

Module Num.

Definition prec : Z := 53.
Definition emax : Z := 1024.

Inductive num : Type :=
| Int (z : Z)
| Float (f : spec_float).

(** The integer [z] as the mantissa of an unrounded float. *)
Definition exact_of_Z (z : Z) : spec_float :=
  match z with
  | Z0 => S754_zero false
  | Zpos p => S754_finite false p 0
  | Zneg p => S754_finite true p 0
  end.

Definition finite_or_overflow (f : spec_float) : result spec_float :=
  match f with
  | S754_infinity _ => Raise OverflowError
  | _ => Ok f
  end.

(** [float(z)]: the nearest binary64, or [OverflowError]. *)
Definition float_of_int (z : Z) : result spec_float :=
  finite_or_overflow (binary_normalize prec emax z 0 false).

Definition to_float (x : num) : result spec_float :=
  match x with
  | Int z => float_of_int z
  | Float f => Ok f
  end.

Definition is_zero (f : spec_float) : bool :=
  match f with
  | S754_zero _ => true
  | _ => false
  end.

(** [a / b] on two ints is the correctly rounded quotient. *)
Definition int_truediv (a b : Z) : result spec_float :=
  if b =? 0 then Raise ZeroDivisionError
  else finite_or_overflow (SFdiv prec emax (exact_of_Z a) (exact_of_Z b)).

Definition truediv (x y : num) : result num :=
  match x, y with
  | Int a, Int b => f <- int_truediv a b ;; Ok (Float f)
  | _, _ =>
      a <- to_float x ;;
      b <- to_float y ;;
      if is_zero b then Raise ZeroDivisionError
      else Ok (Float (SFdiv prec emax a b))
  end.

Definition mul (x y : num) : result num :=
  match x, y with
  | Int a, Int b => Ok (Int (a * b))
  | _, _ =>
      a <- to_float x ;;
      b <- to_float y ;;
      Ok (Float (SFmul prec emax a b))
  end.

Definition add (x y : num) : result num :=
  match x, y with
  | Int a, Int b => Ok (Int (a + b))
  | _, _ =>
      a <- to_float x ;;
      b <- to_float y ;;
      Ok (Float (SFadd prec emax a b))
  end.

Definition sub (x y : num) : result num :=
  match x, y with
  | Int a, Int b => Ok (Int (a - b))
  | _, _ =>
      a <- to_float x ;;
      b <- to_float y ;;
      Ok (Float (SFsub prec emax a b))
  end.

(** The integer nearest to [m * 2^e], ties to the even one. *)
Definition round_half_even (m : positive) (e : Z) : Z :=
  match e with
  | Zneg p =>
      let d := Z.pow_pos 2 p in
      let q := Zpos m / d in
      let r := Zpos m mod d in
      match 2 * r ?= d with
      | Lt => q
      | Gt => q + 1
      | Eq => if Z.even q then q else q + 1
      end
  | _ => Zpos m * 2 ^ e
  end.

(** [round(x)] with one argument. *)
Definition round (x : num) : result Z :=
  match x with
  | Int z => Ok z
  | Float (S754_zero _) => Ok 0
  | Float (S754_finite s m e) =>
      Ok (if s then - round_half_even m e else round_half_even m e)
  | Float (S754_infinity _) => Raise OverflowError
  | Float S754_nan => Raise (ValueError "cannot convert float NaN to integer")
  end.

(** The literals of the source. *)
Definition lit_0_3 : spec_float := S754_finite false 5404319552844595 (-54).
Definition lit_1_5 : spec_float := S754_finite false 6755399441055744 (-52).

(** [sys.maxsize]: no list is longer. *)
Definition maxsize : Z := 2 ^ 63 - 1.

(** The order of a float and an int, compared exactly as Python does;
    a NaN is not ordered. *)
Definition float_compare_int (f : spec_float) (z : Z) : option comparison :=
  match f with
  | S754_nan => None
  | S754_infinity s => Some (if s then Lt else Gt)
  | S754_zero _ => Some (0 ?= z)
  | S754_finite s m e =>
      let v := if s then Zneg m else Zpos m in
      Some (match e with
            | Zneg p => v ?= z * Z.pow_pos 2 p
            | _ => v * 2 ^ e ?= z
            end)
  end.

(** [x > z] for an int [z]. *)
Definition gt_int (x : num) (z : Z) : bool :=
  match x with
  | Int a => a >? z
  | Float f =>
      match float_compare_int f z with
      | Some Gt => true
      | _ => false
      end
  end.

End Num.

(** ** Python strings *)

Module Str.

Definition code (c : ascii) : N := N_of_ascii c.

Definition between (lo hi : N) (c : ascii) : bool :=
  (N.leb lo (code c) && N.leb (code c) hi)%bool.

(** [sub in s] *)
Fixpoint contains (sub s : string) : bool :=
  (prefix sub s ||
   match s with
   | EmptyString => false
   | String _ s' => contains sub s'
   end)%bool.

Definition startswith (s pre : string) : bool := prefix pre s.

Fixpoint drop (n : nat) (s : string) : string :=
  match n, s with
  | O, _ => s
  | S n', String _ s' => drop n' s'
  | S _, EmptyString => EmptyString
  end.

Definition endswith (s suf : string) : bool :=
  (Nat.leb (length suf) (length s) &&
   String.eqb (drop (length s - length suf) s) suf)%bool.

(** [s.replace(old, new)] for a non-empty [old]: the occurrences are
    taken from the left and do not overlap; [skip] characters of an
    occurrence already replaced are still to be passed over. *)
Fixpoint replace_from (old new : string) (skip : nat) (s : string) : string :=
  match s with
  | EmptyString => EmptyString
  | String c s' =>
      match skip with
      | S k => replace_from old new k s'
      | O =>
          if prefix old s
          then new ++ replace_from old new (length old - 1) s'
          else String c (replace_from old new O s')
      end
  end.

Definition replace (s old new : string) : string := replace_from old new O s.

(** [c.upper()] for one character; the only characters it is applied
    to are those of [[a-z]]. *)
Definition upper (c : ascii) : ascii :=
  if between 97 122 c then ascii_of_N (code c - 32) else c.

Definition lower (c : ascii) : ascii :=
  if between 65 90 c then ascii_of_N (code c + 32) else c.

Definition quote (s : string) : string := "'" ++ s ++ "'".

End Str.

(** ** Regular expressions: the fragment of [re] the catalogs use *)

Module Re.

Inductive cset : Type :=
| One (c : ascii)
| Range (lo hi : ascii)
| Space                      (* \s *)
| Word                       (* \w *)
| Dot                        (* .  *)
| Union (a b : cset)
| Compl (a : cset).          (* [^...] *)

Inductive regex : Type :=
| Lit (s : string)
| Set_ (cs : cset)
| Cat (r1 r2 : regex)
| Alt (r1 r2 : regex)
| Star (r : regex)
| Bol                        (* ^ *)
| Eol.                       (* $ *)

Definition is_space (c : ascii) : bool :=
  (Str.between 9 13 c || Str.between 28 32 c ||
   N.eqb (Str.code c) 133 || N.eqb (Str.code c) 160)%bool.

Definition is_word (c : ascii) : bool :=
  (Str.between 48 57 c || Str.between 65 90 c || N.eqb (Str.code c) 95 ||
   Str.between 97 122 c || N.eqb (Str.code c) 170 || Str.between 178 179 c ||
   N.eqb (Str.code c) 181 || Str.between 185 186 c || Str.between 188 190 c ||
   Str.between 192 214 c || Str.between 216 246 c || Str.between 248 255 c)%bool.

Fixpoint mem (cs : cset) (c : ascii) : bool :=
  match cs with
  | One a => Ascii.eqb a c
  | Range lo hi => Str.between (Str.code lo) (Str.code hi) c
  | Space => is_space c
  | Word => is_word c
  | Dot => negb (N.eqb (Str.code c) 10)
  | Union a b => (mem a c || mem b c)%bool
  | Compl a => negb (mem a c)
  end.

Definition char_eq (ignorecase : bool) (a c : ascii) : bool :=
  if ignorecase then Ascii.eqb (Str.lower a) (Str.lower c) else Ascii.eqb a c.

(** The rest of [s] after the literal [l], if [s] starts with it. *)
Fixpoint strip (ignorecase : bool) (l s : string) : option string :=
  match l, s with
  | EmptyString, _ => Some s
  | String a l', String c s' =>
      if char_eq ignorecase a c then strip ignorecase l' s' else None
  | String _ _, EmptyString => None
  end.

Definition at_end (s : string) : bool :=
  match s with
  | EmptyString => true
  | String c EmptyString => N.eqb (Str.code c) 10
  | _ => false
  end.

Section Matcher.
Variable ignorecase : bool.

(** One more round of [r*]: [step] matches [r] once; a round that
    consumes nothing is not taken, so [n = length s] rounds suffice. *)
Fixpoint star (step : bool -> string -> (bool -> string -> bool) -> bool)
    (n : nat) (bol : bool) (s : string) (k : bool -> string -> bool) : bool :=
  (k bol s ||
   match n with
   | O => false
   | S n' =>
       step bol s (fun b s' =>
         if Nat.ltb (length s') (length s) then star step n' b s' k else false)
   end)%bool.

(** [matches r bol s k]: [r] matches a prefix of [s] and [k] accepts
    what follows; [bol] tells whether [s] starts the subject. *)
Fixpoint matches (r : regex) (bol : bool) (s : string)
    (k : bool -> string -> bool) : bool :=
  match r with
  | Lit l =>
      match strip ignorecase l s with
      | Some s' => k (bol && Nat.eqb (length l) 0)%bool s'
      | None => false
      end
  | Set_ cs =>
      match s with
      | String c s' => (mem cs c && k false s')%bool
      | EmptyString => false
      end
  | Cat r1 r2 => matches r1 bol s (fun b s' => matches r2 b s' k)
  | Alt r1 r2 => (matches r1 bol s k || matches r2 bol s k)%bool
  | Star r' => star (matches r') (length s) bol s k
  | Bol => (bol && k bol s)%bool
  | Eol => (at_end s && k bol s)%bool
  end.

Fixpoint search_from (r : regex) (bol : bool) (s : string) : bool :=
  (matches r bol s (fun _ _ => true) ||
   match s with
   | EmptyString => false
   | String _ s' => search_from r false s'
   end)%bool.
End Matcher.

(** A compiled pattern: [re.compile(source, flags)]. *)
Record pattern : Type := compile {
  source : string;
  ast : regex;
  IGNORECASE : bool
}.

(** [p.search(s) is not None] *)
Definition search (p : pattern) (s : string) : bool :=
  search_from (IGNORECASE p) (ast p) true s.

(** Derived forms. *)
Definition Plus (r : regex) : regex := Cat r (Star r).

Fixpoint Times (n : nat) (r : regex) : regex :=
  match n with
  | O => Lit EmptyString
  | S n' => Cat r (Times n' r)
  end.

Fixpoint UpTo (n : nat) (r : regex) : regex :=
  match n with
  | O => Lit EmptyString
  | S n' => Alt (Cat r (UpTo n' r)) (Lit EmptyString)
  end.

(** [r{lo,hi}] *)
Definition Repeat (lo hi : nat) (r : regex) : regex :=
  Cat (Times lo r) (UpTo (hi - lo) r).

Fixpoint Seq (rs : list regex) : regex :=
  match rs with
  | [] => Lit EmptyString
  | [r] => r
  | r :: rs' => Cat r (Seq rs')
  end.

End Re.

(** ** Python values at the boundary *)

Module Py.

(** The argument of an analyzer as the caller passes it: [None], a
    list, or an object of another type with its truth value. *)
Inductive obj (A : Type) : Type :=
| None_
| List_ (l : list A)
| Other (truth : bool).

Arguments None_ {A}.
Arguments List_ {A} l.
Arguments Other {A} truth.

Definition truth {A : Type} (x : obj A) : bool :=
  match x with
  | None_ => false
  | List_ [] => false
  | List_ (_ :: _) => true
  | Other b => b
  end.

Definition isinstance_list {A : Type} (x : obj A) : bool :=
  match x with
  | List_ _ => true
  | _ => false
  end.

Definition items {A : Type} (x : obj A) : list A :=
  match x with
  | List_ l => l
  | _ => []
  end.

Definition len {A : Type} (l : list A) : Z := Z.of_nat (List.length l).

(** [a or b] on an optional string: an absent key and the empty string
    are both false. *)
Definition str_or (a : option string) (b : string) : string :=
  match a with
  | Some (String c s) => String c s
  | _ => b
  end.

(** [d.get(key, default)] *)
Definition get {A : Type} (a : option A) (default : A) : A :=
  match a with
  | Some v => v
  | None => default
  end.

(** [for x in xs: acc = body(acc, x)], stopping at the first raise. *)
Fixpoint for_each {A S : Type} (body : S -> A -> result S) (xs : list A)
    (acc : S) : result S :=
  match xs with
  | [] => Ok acc
  | x :: xs' => acc' <- body acc x ;; for_each body xs' acc'
  end.

(** Dicts that are filled in order, keyed by strings. *)
Definition dict (V : Type) : Type := list (string * V).

Fixpoint dict_get {V : Type} (d : dict V) (k : string) : result V :=
  match d with
  | [] => Raise (KeyError k)
  | (k', v) :: d' => if String.eqb k' k then Ok v else dict_get d' k
  end.

(** [d[k] = v]: a key already there keeps its place. *)
Fixpoint dict_set {V : Type} (d : dict V) (k : string) (v : V) : dict V :=
  match d with
  | [] => [(k, v)]
  | (k', v') :: d' =>
      if String.eqb k' k then (k', v) :: d' else (k', v') :: dict_set d' k v
  end.

(** [d[k].append(x)] *)
Definition dict_append {V : Type} (d : dict (list V)) (k : string) (x : V)
    : result (dict (list V)) :=
  l <- dict_get d k ;; Ok (dict_set d k (l ++ [x])%list).

(** [k in d] *)
Definition dict_has {V : Type} (d : dict V) (k : string) : bool :=
  existsb (fun kv => String.eqb (fst kv) k) d.

(** [d.get(k, default)] on a dict that is filled in order. *)
Definition dict_get_or {V : Type} (d : dict V) (k : string) (default : V) : V :=
  match dict_get d k with
  | Ok v => v
  | Raise _ => default
  end.

(** [sorted(xs, key=..., reverse=True)] on an int key: stable, so an
    element stays before the later ones whose key is equal. *)
Fixpoint insert_desc {A : Type} (key : A -> Z) (x : A) (l : list A) : list A :=
  match l with
  | [] => [x]
  | y :: l' =>
      if key y <=? key x then x :: y :: l' else y :: insert_desc key x l'
  end.

Definition sorted_desc {A : Type} (key : A -> Z) (l : list A) : list A :=
  fold_right (insert_desc key) [] l.

(** [list(dict.fromkeys(xs))]: each string once, at its first place. *)
Definition fromkeys (xs : list string) : dict unit :=
  fold_left (fun d x => dict_set d x tt) xs [].

Definition unique (xs : list string) : list string := map fst (fromkeys xs).

(** [str(z)] *)
Definition str_of_int (z : Z) : string := NilZero.string_of_int (Z.to_int z).

End Py.

(** ** models/naming_convention_analyzer.py *)

Module Naming.

Import Re.

Record convention_rule : Type := {
  pattern : Re.pattern;
  description : string;
  expected : bool
}.

Record loan_conventions : Type := {
  standard_patterns : list Re.pattern;
  custom_patterns : list Re.pattern;
  invalid_patterns : list Re.pattern
}.

(** The instance state. *)
Record NamingConventionAnalyzer : Type := {
  convention_rules : list convention_rule;
  loan_object_conventions : loan_conventions
}.

Definition any_char : regex := Set_ Dot.

(** [__init__] *)
Definition init : NamingConventionAnalyzer := {|
  convention_rules := [
    {| pattern := compile "^LLC_BI__" (Seq [Bol; Lit "LLC_BI__"]) false;
       description := "Managed package fields from nCino";
       expected := true |};
    {| pattern := compile "^nc_" (Seq [Bol; Lit "nc_"]) false;
       description := "Custom project-specific fields";
       expected := true |};
    {| pattern := compile "^[a-z]" (Seq [Bol; Set_ (Range "a" "z")]) false;
       description := "Fields should not start with lowercase letters";
       expected := false |}
  ];
  loan_object_conventions := {|
    standard_patterns := [
      compile "^LLC_BI__Loan__c$" (Seq [Bol; Lit "LLC_BI__Loan__c"; Eol]) false;
      compile "^LLC_BI__.*__c$"
        (Seq [Bol; Lit "LLC_BI__"; Star any_char; Lit "__c"; Eol]) false
    ];
    custom_patterns := [
      compile "^nc_Loan_.*__c$"
        (Seq [Bol; Lit "nc_Loan_"; Star any_char; Lit "__c"; Eol]) false;
      compile "^nc_.*__c$"
        (Seq [Bol; Lit "nc_"; Star any_char; Lit "__c"; Eol]) false
    ];
    invalid_patterns := [
      compile "^Loan_" (Seq [Bol; Lit "Loan_"]) false;
      compile "^loan_" (Seq [Bol; Lit "loan_"]) false;
      compile "__X$" (Seq [Lit "__X"; Eol]) false
    ]
  |}
|}.

(** A field record: a dict whose keys may be absent. *)
Record field : Type := {
  field_apiName : option string;
  field_fullName : option string;
  field_label : option string;
  field_type : option string
}.

(** A violation is one of two dict shapes. *)
Inductive violation : Type :=
| RuleViolation (rule : string) (pattern_source : string) (expected_ : bool)
| LoanViolation (rule : string) (severity : string).

(** [v.get("rule", "")] *)
Definition rule_of (v : violation) : string :=
  match v with
  | RuleViolation r _ _ => r
  | LoanViolation r _ => r
  end.

(** [v.get("severity")] *)
Definition severity_of (v : violation) : option string :=
  match v with
  | RuleViolation _ _ _ => None
  | LoanViolation _ s => Some s
  end.

Record field_violation : Type := {
  apiName : string;
  label : string;
  type_ : string;
  violations_of : list violation;
  recommended_fix : string
}.

Record results : Type := {
  violations : list field_violation;
  compliant_field_count : Z;
  total_field_count : Z;
  by_severity : Py.dict (list field_violation);
  compliance_percentage : option Z
}.

Definition any_violation (p : violation -> bool) (vs : list violation) : bool :=
  existsb p vs.

Definition determine_severity (vs : list violation) : string :=
  if any_violation (fun v =>
       match severity_of v with
       | Some s => String.eqb s "critical"
       | None => false
       end) vs
  then "critical"
  else if any_violation (fun v =>
       (Str.contains "Loan" (rule_of v) ||
        Str.contains "standard patterns" (rule_of v))%bool) vs
  then "critical"
  else if any_violation (fun v =>
       Str.contains "custom project-specific" (rule_of v)) vs
  then "medium"
  else "low".

Definition generate_recommendation (api_name : string) (vs : list violation)
    : result string :=
  recommendation <-
    (if any_violation (fun v => Str.contains "lowercase" (rule_of v)) vs then
       match api_name with
       | EmptyString => Raise IndexError
       | String first_char rest =>
           Ok ("Change first character " ++ Str.quote (String first_char EmptyString)
               ++ " to uppercase: " ++ Str.quote (String (Str.upper first_char) rest))
       end
     else if any_violation (fun v =>
          (Str.contains "Managed package" (rule_of v) ||
           Str.contains "Custom project-specific" (rule_of v))%bool) vs then
       Ok (if (Str.contains "Loan" api_name &&
               negb (Str.startswith api_name "LLC_BI__") &&
               negb (Str.startswith api_name "nc_"))%bool
           then "Add 'nc_' prefix: " ++ Str.quote ("nc_" ++ api_name)
           else "Add appropriate prefix ('LLC_BI__' for managed package fields or 'nc_' for custom fields)")
     else if any_violation (fun v => Str.contains "invalid" (rule_of v)) vs then
       Ok (if Str.endswith api_name "__X"
           then "Remove '__X' suffix: " ++ Str.quote (Str.replace api_name "__X" "__c")
           else if Str.startswith api_name "loan_"
           then "Change to " ++ Str.quote ("nc_Loan_" ++ Str.drop 5 api_name)
           else "Rename to follow standard pattern (LLC_BI__*__c) or custom pattern (nc_*__c)")
     else Ok EmptyString) ;;
  Ok (match recommendation with
      | EmptyString => "Review field naming and apply appropriate convention"
      | _ => recommendation
      end).

Section Methods.
Variable self : NamingConventionAnalyzer.

(** The loop over [self.convention_rules] for one name. *)
Definition rule_violations (api_name : string) : list violation :=
  flat_map (fun rule =>
    let matches := search (pattern rule) api_name in
    if ((expected rule && negb matches) || (negb (expected rule) && matches))%bool
    then [RuleViolation (description rule) (source (pattern rule)) (expected rule)]
    else []) (convention_rules self).

(** The checks for names that mention a loan. *)
Definition loan_violations (api_name : string) : list violation :=
  if (Str.contains "Loan" api_name || Str.contains "loan" api_name)%bool then
    let conv := loan_object_conventions self in
    let is_standard := existsb (fun p => search p api_name) (standard_patterns conv) in
    let is_custom := existsb (fun p => search p api_name) (custom_patterns conv) in
    let has_invalid_pattern :=
      existsb (fun p => search p api_name) (invalid_patterns conv) in
    ((if (negb is_standard && negb is_custom && Str.contains "Loan" api_name)%bool
     then [LoanViolation "Loan-related fields must follow standard or custom patterns"
             "critical"]
     else [])
    ++ (if has_invalid_pattern
        then [LoanViolation "Field uses an invalid naming pattern" "critical"]
        else []))%list
  else [].

Definition api_name_of (f : field) : string :=
  Py.str_or (field_apiName f) (Py.str_or (field_fullName f) EmptyString).

(** The body of the loop over the fields. *)
Definition analyze_field (res : results) (f : field) : result results :=
  let api_name := api_name_of f in
  let vs := (rule_violations api_name ++ loan_violations api_name)%list in
  match vs with
  | _ :: _ =>
      fix_ <- generate_recommendation api_name vs ;;
      let field_violation_ := {|
        apiName := api_name;
        label := Py.get (field_label f) EmptyString;
        type_ := Py.get (field_type f) EmptyString;
        violations_of := vs;
        recommended_fix := fix_ |} in
      let severity := determine_severity vs in
      buckets <- Py.dict_append (by_severity res) severity field_violation_ ;;
      Ok {| violations := (violations res ++ [field_violation_])%list;
            compliant_field_count := compliant_field_count res;
            total_field_count := total_field_count res;
            by_severity := buckets;
            compliance_percentage := compliance_percentage res |}
  | [] =>
      Ok {| violations := violations res;
            compliant_field_count := compliant_field_count res + 1;
            total_field_count := total_field_count res;
            by_severity := by_severity res;
            compliance_percentage := compliance_percentage res |}
  end.

Definition analyze_fields (fields : Py.obj field) : result results :=
  if (negb (Py.truth fields) || negb (Py.isinstance_list fields))%bool then
    Raise (ValueError "Field data must be provided as a list")
  else
    let res := {|
      violations := [];
      compliant_field_count := 0;
      total_field_count := Py.len (Py.items fields);
      by_severity := [("critical", []); ("medium", []); ("low", [])];
      compliance_percentage := None |} in
    res <- Py.for_each analyze_field (Py.items fields) res ;;
    ratio <- Num.truediv (Num.Int (compliant_field_count res))
                         (Num.Int (total_field_count res)) ;;
    scaled <- Num.mul ratio (Num.Int 100) ;;
    percentage <- Num.round scaled ;;
    Ok {| violations := violations res;
          compliant_field_count := compliant_field_count res;
          total_field_count := total_field_count res;
          by_severity := by_severity res;
          compliance_percentage := Some percentage |}.
End Methods.

(** An entry of [top_issues]. *)
Record top_issue : Type := {
  issue_rule : string;
  issue_count : Z
}.

(** The body of the inner loop of [identify_top_issues]. *)
Definition count_issue (issue_types : Py.dict Z) (issue : violation)
    : result (Py.dict Z) :=
  let rule_desc := rule_of issue in
  let issue_types :=
    if Py.dict_has issue_types rule_desc then issue_types
    else Py.dict_set issue_types rule_desc 0 in
  n <- Py.dict_get issue_types rule_desc ;;
  Ok (Py.dict_set issue_types rule_desc (n + 1)).

Definition identify_top_issues (violations_ : list field_violation)
    : result (list top_issue) :=
  issue_types <-
    Py.for_each (fun issue_types v =>
      Py.for_each count_issue (violations_of v) issue_types) violations_ [] ;;
  Ok (map (fun item => {| issue_rule := fst item; issue_count := snd item |})
        (firstn 5 (Py.sorted_desc snd issue_types))).

(** [results["compliance_percentage"]] *)
Definition percentage_key (res : results) : result Z :=
  match compliance_percentage res with
  | Some p => Ok p
  | None => Raise (KeyError "compliance_percentage")
  end.

Definition generate_general_recommendations (res : results) : result (list string) :=
  let recommendations := [] in
  critical <- Py.dict_get (by_severity res) "critical" ;;
  let recommendations :=
    if Py.len critical >? 0 then
      (recommendations ++
       ["Immediately address critical naming violations to prevent potential conflicts and maintenance issues"])%list
    else recommendations in
  percentage <- percentage_key res ;;
  let recommendations :=
    if percentage <? 70 then
      (recommendations ++
       ["Create and document clear naming conventions and socialize with team";
        "Consider implementing automated validation for field naming during development"])%list
    else recommendations in
  critical <- Py.dict_get (by_severity res) "critical" ;;
  recommendations <-
    (if Py.len critical =? 0 then
       medium <- Py.dict_get (by_severity res) "medium" ;;
       Ok (if Py.len medium >? 0 then
             (recommendations ++
              ["Address medium-severity naming issues in next planned refactoring cycle"])%list
           else recommendations)
     else Ok recommendations) ;;
  Ok (recommendations ++
      ["Regularly review and audit field naming as part of maintenance practices"])%list.

(** The summary dict. *)
Record summary : Type := {
  total_fields : Z;
  compliant_fields : Z;
  summary_compliance_percentage : Z;
  violation_count : Z;
  critical_violations : Z;
  medium_violations : Z;
  low_violations : Z;
  top_issues : list top_issue;
  recommendations : list string
}.

Definition generate_summary_report (res : results) : result summary :=
  percentage <- percentage_key res ;;
  critical <- Py.dict_get (by_severity res) "critical" ;;
  medium <- Py.dict_get (by_severity res) "medium" ;;
  low <- Py.dict_get (by_severity res) "low" ;;
  top <- identify_top_issues (violations res) ;;
  recs <- generate_general_recommendations res ;;
  Ok {| total_fields := total_field_count res;
        compliant_fields := compliant_field_count res;
        summary_compliance_percentage := percentage;
        violation_count := Py.len (violations res);
        critical_violations := Py.len critical;
        medium_violations := Py.len medium;
        low_violations := Py.len low;
        top_issues := top;
        recommendations := recs |}.

End Naming.

(** ** models/bypass_pattern_analyzer.py *)

Module Bypass.

Import Re.

Record bypass_pattern : Type := {
  name : string;
  regex_ : Re.pattern;
  severity : string;
  description : string;
  recommended_approach : string
}.

Record flow_pattern : Type := {
  flow_name : string;
  location_pattern : Re.pattern;
  condition_pattern : Re.pattern;
  flow_severity : string;
  flow_description : string;
  flow_recommended_approach : string
}.

(** The instance state. *)
Record BypassPatternAnalyzer : Type := {
  validation_rule_patterns : list bypass_pattern;
  apex_trigger_patterns : list bypass_pattern;
  flow_patterns : list flow_pattern
}.

Definition dq : string := String (ascii_of_nat 34) EmptyString.

Definition spaces : regex := Star (Set_ Space).
Definition any_chars : regex := Star (Set_ Dot).
(** a single or a double quote *)
Definition a_quote : regex := Set_ (Union (One "'") (One (ascii_of_nat 34))).
(** a word character or an underscore *)
Definition word_char : regex := Set_ (Union Word (One "_")).
(** an ASCII letter or digit *)
Definition alnum : regex :=
  Set_ (Union (Range "A" "Z") (Union (Range "a" "z") (Range "0" "9"))).
(** the second character of the comparison *)
Definition eq_or_bang : regex := Set_ (Union (One "=") (One "!")).

Definition start_or_decision : Re.pattern :=
  compile "Start|Decision" (Alt (Lit "Start") (Lit "Decision")) false.

(** [__init__] *)
Definition init : BypassPatternAnalyzer := {|
  validation_rule_patterns := [
    {| name := "Profile-based bypass";
       regex_ := compile "\$Profile\.Name\s*=[=!]=|\$Profile\.Name.*CONTAINS"
         (Alt (Seq [Lit "$Profile.Name"; spaces; Lit "="; eq_or_bang; Lit "="])
              (Seq [Lit "$Profile.Name"; any_chars; Lit "CONTAINS"])) false;
       severity := "Medium";
       description := "Using Profile.Name to bypass validation rules creates maintenance challenges when profiles change and makes rules difficult to manage at scale.";
       recommended_approach := "Use custom permissions instead, which are more maintainable and explicit." |};
    {| name := "Custom permission bypass";
       regex_ := compile "NOT\(\$Permission\.[^)]+\)"
         (Seq [Lit "NOT($Permission."; Plus (Set_ (Compl (One ")"))); Lit ")"]) false;
       severity := "Low";
       description := "Using NOT with permissions is generally acceptable but should be documented and consistently implemented.";
       recommended_approach := "Ensure permission names are consistently structured with prefixes like 'Bypass_' for clarity." |};
    {| name := "User ID bypass";
       regex_ := compile "\$User\.Id\s*=[=!]=|\$User\.Id.*CONTAINS"
         (Alt (Seq [Lit "$User.Id"; spaces; Lit "="; eq_or_bang; Lit "="])
              (Seq [Lit "$User.Id"; any_chars; Lit "CONTAINS"])) false;
       severity := "High";
       description := "Hardcoding specific User IDs creates significant maintenance issues and security risks.";
       recommended_approach := "Use permission sets, custom permissions, or roles instead of specific User IDs." |};
    {| name := "Record Type bypass";
       regex_ := compile "RecordType\.Name\s*!=|RecordType\.Name\s*<>"
         (Alt (Seq [Lit "RecordType.Name"; spaces; Lit "!="])
              (Seq [Lit "RecordType.Name"; spaces; Lit "<>"])) false;
       severity := "Medium";
       description := "Explicitly excluding certain record types can create maintenance challenges.";
       recommended_approach := "Use explicit inclusion rather than exclusion when possible." |};
    {| name := "Owner ID bypass";
       regex_ := compile "OwnerId\s*=[=!]=\s*\$User\.Id"
         (Seq [Lit "OwnerId"; spaces; Lit "="; eq_or_bang; Lit "="; spaces;
               Lit "$User.Id"]) false;
       severity := "Medium";
       description := "Bypassing validation for record owners may create inconsistent data validation.";
       recommended_approach := "Consider permission-based approaches that don't depend on record ownership." |}
  ];
  apex_trigger_patterns := [
    {| name := "Feature management permission check";
       regex_ := compile
         ("FeatureManagement\.checkPermission\s*\(\s*['\" ++ dq ++ "]([\w_]+)['\"
            ++ dq ++ "]")
         (Seq [Lit "FeatureManagement.checkPermission"; spaces; Lit "("; spaces;
               a_quote; Plus word_char; a_quote]) false;
       severity := "Low";
       description := "Using FeatureManagement to check permissions is recommended, but should be implemented consistently.";
       recommended_approach := "Use a consistent pattern like return !FeatureManagement.checkPermission('Bypass_Trigger');" |};
    {| name := "Custom setting bypass";
       regex_ := compile "([\w_]+__c)\.([\w_]+__c)"
         (Seq [Plus word_char; Lit "__c"; Lit "."; Plus word_char; Lit "__c"]) false;
       severity := "Medium";
       description := "Using custom settings to control trigger execution can create maintenance challenges.";
       recommended_approach := "Document the custom setting usage and ensure consistent implementation." |};
    {| name := "Hardcoded User ID check";
       regex_ := compile
         ("Id\s*==\s*['\" ++ dq ++ "]005[A-Za-z0-9]{12,15}['\" ++ dq ++ "]")
         (Seq [Lit "Id"; spaces; Lit "=="; spaces; a_quote; Lit "005";
               Repeat 12 15 alnum; a_quote]) false;
       severity := "High";
       description := "Hardcoding User IDs creates significant maintenance issues and security risks.";
       recommended_approach := "Use permission sets, custom permissions, or roles instead of specific User IDs." |};
    {| name := "Profile name check";
       regex_ := compile
         ("profile\.name\s*==\s*['\" ++ dq ++ "]|userinfo\.getprofileid\(\)\s*==\s*['\"
            ++ dq ++ "]")
         (Alt (Seq [Lit "profile.name"; spaces; Lit "=="; spaces; a_quote])
              (Seq [Lit "userinfo.getprofileid()"; spaces; Lit "=="; spaces; a_quote]))
         true;
       severity := "Medium";
       description := "Using profile names or IDs to bypass logic creates maintenance challenges.";
       recommended_approach := "Use custom permissions instead of relying on profiles." |}
  ];
  flow_patterns := [
    {| flow_name := "Permission-based bypass";
       location_pattern := start_or_decision;
       condition_pattern := compile "\$Permission\." (Lit "$Permission.") false;
       flow_severity := "Low";
       flow_description := "Using permissions to control flow execution is a recommended pattern when implemented consistently.";
       flow_recommended_approach := "Use a consistent naming convention for bypass permissions." |};
    {| flow_name := "Profile-based bypass";
       location_pattern := start_or_decision;
       condition_pattern := compile "\$Profile\." (Lit "$Profile.") false;
       flow_severity := "Medium";
       flow_description := "Using profiles to control flow execution creates maintenance challenges.";
       flow_recommended_approach := "Use custom permissions instead of relying on profiles." |};
    {| flow_name := "User ID bypass";
       location_pattern := start_or_decision;
       condition_pattern := compile "\$User\.Id" (Lit "$User.Id") false;
       flow_severity := "High";
       flow_description := "Hardcoding User IDs creates significant maintenance issues and security risks.";
       flow_recommended_approach := "Use permission sets, custom permissions, or roles instead of specific User IDs." |}
  ]
|}.

(** A validation-rule record. *)
Record validation_rule : Type := {
  rule_apiName : option string;
  rule_fullName : option string;
  rule_errorConditionFormula : option string;
  rule_formula : option string;
  rule_active : option bool;
  rule_description : option string
}.

(** A trigger record. *)
Record trigger : Type := {
  trigger_name : option string;
  trigger_content : option string;
  trigger_code : option string;
  trigger_active : option bool
}.

(** A finding: the dict appended to [found_patterns]. *)
Record finding : Type := {
  finding_name : string;
  finding_severity : string;
  finding_description : string;
  finding_recommended_approach : string
}.

(** [rule_with_patterns] and [trigger_with_patterns]: the first has the
    keys [apiName] and [description], the second the key [name]. *)
Record item : Type := {
  item_apiName : option string;
  item_name : option string;
  item_active : bool;
  item_description : option string;
  patterns : list finding;
  highest_severity : string
}.

(** The key names a result dict carries: [rules_by_pattern],
    [total_rules], ... or [triggers_by_pattern], [total_triggers], ... *)
Inductive keys : Type := rules_keys | triggers_keys.

Record results : Type := {
  keys_of : keys;
  bypass_patterns : list item;
  by_pattern : Py.dict (list string);
  by_severity : Py.dict (list string);
  total : Z;
  with_bypass : Z;
  bypass_percentage : option Z;
  security_score : option Z
}.

Definition any_finding (p : finding -> bool) (fs : list finding) : bool :=
  existsb p fs.

Definition determine_highest_severity (fs : list finding) : string :=
  if any_finding (fun p => String.eqb (finding_severity p) "High") fs then "High"
  else if any_finding (fun p => String.eqb (finding_severity p) "Medium") fs
  then "Medium"
  else "Low".

(** [len(results[...]["High"])] and the like, after the choice of the
    key names by [component_type]. *)
Definition counts_for (res : results) (component_type : string)
    : result (Z * Z * Z * Z) :=
  let wanted :=
    if String.eqb component_type "trigger" then triggers_keys else rules_keys in
  match wanted, keys_of res with
  | triggers_keys, rules_keys => Raise (KeyError "triggers_with_bypass")
  | rules_keys, triggers_keys => Raise (KeyError "rules_with_bypass")
  | _, _ =>
      high <- Py.dict_get (by_severity res) "High" ;;
      medium <- Py.dict_get (by_severity res) "Medium" ;;
      Ok (with_bypass res, total res, Py.len high, Py.len medium)
  end.

Definition calculate_security_score (res : results) (component_type : string)
    : result Z :=
  let score := Num.Int 100 in
  c <- counts_for res component_type ;;
  let '(components_with_bypass, total_components,
        high_severity_components, medium_severity_components) := c in
  score <-
    (if total_components >? 0 then
       ratio <- Num.truediv (Num.Int components_with_bypass)
                            (Num.Int total_components) ;;
       bypass_percentage_ <- Num.mul ratio (Num.Int 100) ;;
       deduction <- Num.mul bypass_percentage_ (Num.Float Num.lit_0_3) ;;
       Num.sub score deduction
     else Ok score) ;;
  score <- Num.sub score (Num.Int (high_severity_components * 5)) ;;
  score <- Num.sub score (Num.Int (medium_severity_components * 2)) ;;
  rounded <- Num.round score ;;
  Ok (Z.max 0 (Z.min 100 rounded)).

Definition finding_of (p : bypass_pattern) : finding := {|
  finding_name := name p;
  finding_severity := severity p;
  finding_description := description p;
  finding_recommended_approach := recommended_approach p |}.

(** One round of the loop over a catalog for one text: a match adds a
    finding and files the identifier under the name of the pattern. *)
Definition scan_step (text ident : string)
    (acc : list finding * Py.dict (list string)) (pattern_ : bypass_pattern)
    : result (list finding * Py.dict (list string)) :=
  let '(found_patterns, index) := acc in
  if search (regex_ pattern_) text then
    index <- Py.dict_append index (name pattern_) ident ;;
    Ok ((found_patterns ++ [finding_of pattern_])%list, index)
  else Ok acc.

(** The loop: the findings and the per-pattern index, both extended in
    catalog order. *)
Definition scan (catalog : list bypass_pattern) (text ident : string)
    (index : Py.dict (list string))
    : result (list finding * Py.dict (list string)) :=
  Py.for_each (scan_step text ident) catalog ([], index).

(** The tail shared by the two loop bodies. *)
Definition record_item (res : results) (index : Py.dict (list string))
    (ident : string) (it : item) : result results :=
  buckets <- Py.dict_append (by_severity res) (highest_severity it) ident ;;
  Ok {| keys_of := keys_of res;
        bypass_patterns := (bypass_patterns res ++ [it])%list;
        by_pattern := index;
        by_severity := buckets;
        total := total res;
        with_bypass := with_bypass res + 1;
        bypass_percentage := bypass_percentage res;
        security_score := security_score res |}.

Definition with_index (res : results) (index : Py.dict (list string)) : results :=
  {| keys_of := keys_of res;
     bypass_patterns := bypass_patterns res;
     by_pattern := index;
     by_severity := by_severity res;
     total := total res;
     with_bypass := with_bypass res;
     bypass_percentage := bypass_percentage res;
     security_score := security_score res |}.

Definition initial (k : keys) (catalog : list bypass_pattern) (n : Z) : results :=
  {| keys_of := k;
     bypass_patterns := [];
     by_pattern :=
       fold_left (fun d pattern_ => Py.dict_set d (name pattern_) []) catalog [];
     by_severity := [("High", []); ("Medium", []); ("Low", [])];
     total := n;
     with_bypass := 0;
     bypass_percentage := None;
     security_score := None |}.

(** The percentage and the score, set after the loop. *)
Definition finish (res : results) (component_type : string) : result results :=
  percentage <-
    (if total res >? 0 then
       ratio <- Num.truediv (Num.Int (with_bypass res)) (Num.Int (total res)) ;;
       scaled <- Num.mul ratio (Num.Int 100) ;;
       Num.round scaled
     else Ok 0) ;;
  let res := {|
    keys_of := keys_of res;
    bypass_patterns := bypass_patterns res;
    by_pattern := by_pattern res;
    by_severity := by_severity res;
    total := total res;
    with_bypass := with_bypass res;
    bypass_percentage := Some percentage;
    security_score := security_score res |} in
  score <- calculate_security_score res component_type ;;
  Ok {| keys_of := keys_of res;
        bypass_patterns := bypass_patterns res;
        by_pattern := by_pattern res;
        by_severity := by_severity res;
        total := total res;
        with_bypass := with_bypass res;
        bypass_percentage := bypass_percentage res;
        security_score := Some score |}.

Section Methods.
Variable self : BypassPatternAnalyzer.

Definition rule_api_name (r : validation_rule) : string :=
  Py.str_or (rule_apiName r) (Py.str_or (rule_fullName r) EmptyString).

Definition rule_formula_text (r : validation_rule) : string :=
  Py.str_or (rule_errorConditionFormula r) (Py.str_or (rule_formula r) EmptyString).

(** The body of the loop over the validation rules. *)
Definition analyze_rule (res : results) (r : validation_rule) : result results :=
  let api_name := rule_api_name r in
  let formula := rule_formula_text r in
  found <- scan (validation_rule_patterns self) formula api_name (by_pattern res) ;;
  let '(found_patterns, index) := found in
  match found_patterns with
  | _ :: _ =>
      record_item res index api_name {|
        item_apiName := Some api_name;
        item_name := None;
        item_active := Py.get (rule_active r) false;
        item_description := Some (Py.get (rule_description r) EmptyString);
        patterns := found_patterns;
        highest_severity := determine_highest_severity found_patterns |}
  | [] => Ok (with_index res index)
  end.

Definition analyze_validation_rules (validation_rules : Py.obj validation_rule)
    : result results :=
  if (negb (Py.truth validation_rules) ||
      negb (Py.isinstance_list validation_rules))%bool then
    Raise (ValueError "Validation rule data must be provided as a list")
  else
    let res := initial rules_keys (validation_rule_patterns self)
                 (Py.len (Py.items validation_rules)) in
    res <- Py.for_each analyze_rule (Py.items validation_rules) res ;;
    finish res "validation".

Definition trigger_name_text (t : trigger) : string :=
  Py.str_or (trigger_name t) EmptyString.

Definition trigger_content_text (t : trigger) : string :=
  Py.str_or (trigger_content t) (Py.str_or (trigger_code t) EmptyString).

(** The body of the loop over the triggers. *)
Definition analyze_trigger (res : results) (t : trigger) : result results :=
  let name_ := trigger_name_text t in
  let content := trigger_content_text t in
  found <- scan (apex_trigger_patterns self) content name_ (by_pattern res) ;;
  let '(found_patterns, index) := found in
  match found_patterns with
  | _ :: _ =>
      record_item res index name_ {|
        item_apiName := None;
        item_name := Some name_;
        item_active := Py.get (trigger_active t) false;
        item_description := None;
        patterns := found_patterns;
        highest_severity := determine_highest_severity found_patterns |}
  | [] => Ok (with_index res index)
  end.

Definition analyze_apex_triggers (triggers : Py.obj trigger) : result results :=
  if (negb (Py.truth triggers) || negb (Py.isinstance_list triggers))%bool then
    Raise (ValueError "Trigger data must be provided as a list")
  else
    let res := initial triggers_keys (apex_trigger_patterns self)
                 (Py.len (Py.items triggers)) in
    res <- Py.for_each analyze_trigger (Py.items triggers) res ;;
    finish res "trigger".
End Methods.

(** [severity_order], the sort key: a pair compared as Python compares
    tuples. *)
Definition severity_rank (s : string) : Z :=
  if String.eqb s "High" then 0
  else if String.eqb s "Medium" then 1
  else if String.eqb s "Low" then 2
  else 3.

Definition identifier (it : item) : string :=
  match item_apiName it with
  | Some a => a
  | None => Py.get (item_name it) EmptyString
  end.

Definition severity_order (it : item) : Z * string :=
  (severity_rank (highest_severity it), identifier it).

Definition key_lt (a b : Z * string) : bool :=
  if fst a =? fst b then (snd a <? snd b)%string else fst a <? fst b.

(** [sorted(xs, key=...)]: stable, so an element goes before the first
    one whose key is not smaller than its own. *)
Fixpoint insert_by {A : Type} (key : A -> Z * string) (x : A) (l : list A) : list A :=
  match l with
  | [] => [x]
  | y :: l' =>
      if key_lt (key y) (key x) then y :: insert_by key x l' else x :: y :: l'
  end.

Definition sorted {A : Type} (key : A -> Z * string) (l : list A) : list A :=
  fold_right (insert_by key) [] l.

Definition generate_refactoring_priorities (res : results) (component_type : string)
    : list item :=
  sorted severity_order (bypass_patterns res).

Definition generate_general_recommendations (res : results) (component_type : string)
    : result (list string) :=
  let recommendations := [
    "Implement a consistent approach to bypass logic across all components";
    "Use custom permissions instead of profiles or user IDs for bypass logic";
    "Document all bypass mechanisms in a central location for security review"] in
  if String.eqb component_type "validation" then
    match keys_of res with
    | triggers_keys => Raise (KeyError "rules_by_severity")
    | rules_keys =>
        high <- Py.dict_get (by_severity res) "High" ;;
        let recommendations :=
          if Py.len high >? 0 then
            (recommendations ++
             ["Immediately refactor validation rules with hardcoded User IDs"])%list
          else recommendations in
        Ok (if Py.get (bypass_percentage res) 0 >? 50 then
              (recommendations ++
               ["Review overall validation strategy to reduce reliance on bypass patterns"])%list
            else recommendations)
    end
  else if String.eqb component_type "trigger" then
    match keys_of res with
    | rules_keys => Raise (KeyError "triggers_by_severity")
    | triggers_keys =>
        high <- Py.dict_get (by_severity res) "High" ;;
        let recommendations :=
          if Py.len high >? 0 then
            (recommendations ++
             ["Immediately refactor triggers with hardcoded User IDs or Profile checks"])%list
          else recommendations in
        Ok (recommendations ++
            ["Implement a centralized trigger handler framework with consistent bypass logic"])%list
    end
  else Ok recommendations.

End Bypass.

(** ** utils/report_generator.py *)

Module Report.

(** The [analyses] dict: each analysis may be absent. *)
Record analyses : Type := {
  naming_conventions : option Naming.results;
  validation_rules : option Bypass.results;
  triggers : option Bypass.results
}.

Record component_scores : Type := {
  naming_conventions_score : Z;
  validation_rules_score : Z;
  triggers_score : Z
}.

(** The returned dict; [component_scores] is absent when no analysis
    was given. *)
Record overall_score : Type := {
  score : Z;
  rating : string;
  components : option component_scores
}.

(** [sum(xs)]: from the left, starting at the int 0. On the scores the
    analyzers return every partial sum is exact. *)
Definition sum (xs : list Num.num) : result Num.num :=
  Py.for_each Num.add xs (Num.Int 0).

(** [sum(a * b for a, b in zip(xs, ys))] *)
Definition sum_products (xs ys : list Num.num) : result Num.num :=
  Py.for_each (fun acc p => x <- Num.mul (fst p) (snd p) ;; Num.add acc x)
    (combine xs ys) (Num.Int 0).

Definition present {A B : Type} (a : option A) (x : B) : list B :=
  match a with
  | Some _ => [x]
  | None => []
  end.

Definition naming_score (a : analyses) : Z :=
  match naming_conventions a with
  | Some r => Py.get (Naming.compliance_percentage r) 0
  | None => 0
  end.

Definition validation_score (a : analyses) : Z :=
  match validation_rules a with
  | Some r => Py.get (Bypass.security_score r) 0
  | None => 0
  end.

Definition triggers_score_of (a : analyses) : Z :=
  match triggers a with
  | Some r => Py.get (Bypass.security_score r) 0
  | None => 0
  end.

Definition rating_of (weighted_average : Z) : string :=
  if weighted_average >=? 90 then "Excellent"
  else if weighted_average >=? 75 then "Good"
  else if weighted_average >=? 60 then "Fair"
  else if weighted_average >=? 40 then "Poor"
  else "Critical".

Definition calculate_overall_score (a : analyses) : result overall_score :=
  let scores :=
    (present (naming_conventions a) (Num.Int (naming_score a)) ++
     present (validation_rules a) (Num.Int (validation_score a)) ++
     present (triggers a) (Num.Int (triggers_score_of a)))%list in
  let weights :=
    (present (naming_conventions a) (Num.Int 1) ++
     present (validation_rules a) (Num.Float Num.lit_1_5) ++
     present (triggers a) (Num.Float Num.lit_1_5))%list in
  match scores with
  | [] => Ok {| score := 0; rating := "N/A"; components := None |}
  | _ :: _ =>
      total_weight <- sum weights ;;
      weighted_sum <- sum_products scores weights ;;
      average <- Num.truediv weighted_sum total_weight ;;
      weighted_average <- Num.round average ;;
      Ok {| score := weighted_average;
            rating := rating_of weighted_average;
            components := Some {|
              naming_conventions_score := naming_score a;
              validation_rules_score := validation_score a;
              triggers_score := triggers_score_of a |} |}
  end.

(** The [naming_conventions_summary] dict as the report reads it. *)
Record naming_summary : Type := {
  summary_recommendations : option (list string);
  summary_top_issues : option (list Naming.top_issue)
}.

(** The [analyses] dict with the further keys the report reads. *)
Record report_analyses : Type := {
  results_of : analyses;
  naming_conventions_summary : option naming_summary;
  validation_rules_refactoring_priorities : option (list Bypass.item);
  validation_rules_recommendations : option (list string);
  triggers_refactoring_priorities : option (list Bypass.item);
  triggers_recommendations : option (list string)
}.

Record risks : Type := {
  critical : Z;
  medium : Z;
  low : Z
}.

Record executive_summary : Type := {
  overall_assessment : string;
  key_findings : list string;
  risks_identified : risks
}.

(** The three [+=] of one analysis; an absent bucket counts as empty. *)
Definition count_risks {V : Type} (r : risks) (by_severity : Py.dict (list V))
    (critical_key medium_key low_key : string) : risks := {|
  critical := critical r + Py.len (Py.dict_get_or by_severity critical_key []);
  medium := medium r + Py.len (Py.dict_get_or by_severity medium_key []);
  low := low r + Py.len (Py.dict_get_or by_severity low_key []) |}.

Definition bypass_percentage_of (r : Bypass.results) : Z :=
  Py.get (Bypass.bypass_percentage r) 0.

(** The index read with [get] under the key [rules_by_severity] or
    [triggers_by_severity] and the default [{}]: the severity index when
    the result carries the key asked for, the empty dict otherwise. *)
Definition severity_index (wanted : Bypass.keys) (r : Bypass.results)
    : Py.dict (list string) :=
  match wanted, Bypass.keys_of r with
  | Bypass.rules_keys, Bypass.rules_keys => Bypass.by_severity r
  | Bypass.triggers_keys, Bypass.triggers_keys => Bypass.by_severity r
  | _, _ => []
  end.

(** The first part of [generate_executive_summary]: the risks counted
    by severity over the analyses given. *)
Definition count_all_risks (found : analyses) : risks :=
  let r := {| critical := 0; medium := 0; low := 0 |} in
  let r :=
    match naming_conventions found with
    | Some n => count_risks r (Naming.by_severity n) "critical" "medium" "low"
    | None => r
    end in
  let r :=
    match validation_rules found with
    | Some v =>
        count_risks r (severity_index Bypass.rules_keys v) "High" "Medium" "Low"
    | None => r
    end in
  match triggers found with
  | Some t =>
      count_risks r (severity_index Bypass.triggers_keys t) "High" "Medium" "Low"
  | None => r
  end.

(** The second part: the overall assessment. *)
Definition assess (r : risks) : result string :=
  let total_issues := critical r + medium r + low r in
  critical_percent <-
    (if total_issues >? 0 then
       ratio <- Num.truediv (Num.Int (critical r)) (Num.Int total_issues) ;;
       Num.mul ratio (Num.Int 100)
     else Ok (Num.Int 0)) ;;
  Ok (if ((critical r >? 5) || Num.gt_int critical_percent 20)%bool then
        "Critical attention required. The configuration contains significant risk factors that should be addressed immediately."
      else if ((critical r >? 0) || (medium r >? 10))%bool then
        "Moderate risk identified. The configuration has several issues that should be addressed in the near term."
      else
        "Low risk identified. The configuration is generally sound with minor improvements recommended.").

(** The third part: the key findings. *)
Definition add_key_findings (found : analyses) : list string :=
  (match naming_conventions found with
   | Some n =>
       [(Py.str_of_int (Py.get (Naming.compliance_percentage n) 0) ++
         "% of fields comply with naming conventions.")%string]
   | None => []
   end ++
   match validation_rules found with
   | Some v =>
       [(Py.str_of_int (bypass_percentage_of v) ++
         "% of validation rules contain bypass patterns.")%string]
   | None => []
   end ++
   match triggers found with
   | Some t =>
       [(Py.str_of_int (bypass_percentage_of t) ++
         "% of Apex triggers contain bypass patterns.")%string]
   | None => []
   end)%list.

Definition generate_executive_summary (a : report_analyses) : result executive_summary :=
  let found := results_of a in
  let r := count_all_risks found in
  assessment <- assess r ;;
  Ok {| overall_assessment := assessment;
        key_findings := add_key_findings found;
        risks_identified := r |}.

(** [recommendations.extend(d[k])] under the test [k in d]. *)
Definition extend (recommendations : list string) (more : option (list string))
    : list string :=
  match more with
  | Some l => (recommendations ++ l)%list
  | None => recommendations
  end.

Definition generate_recommendations (a : report_analyses) : list string :=
  let recommendations := [] in
  let recommendations :=
    match naming_conventions_summary a with
    | Some s => extend recommendations (summary_recommendations s)
    | None => recommendations
    end in
  let recommendations := extend recommendations (validation_rules_recommendations a) in
  let recommendations := extend recommendations (triggers_recommendations a) in
  let recommendations :=
    (recommendations ++
     ["Implement a governance process to regularly review and audit configuration changes.";
      "Document all configuration standards and patterns in a central location.";
      "Provide training to developers on secure and maintainable configuration practices."])%list in
  Py.unique recommendations.

(** A row of [violations] in the detailed findings. *)
Record violation_row : Type := {
  row_field : string;
  row_issues : list string;
  row_recommendation : string
}.

Record naming_findings : Type := {
  findings_compliance_percentage : Z;
  findings_violations : list violation_row;
  findings_top_issues : list Naming.top_issue
}.

(** A row of [patterns]: the first key is [rule] for a validation rule
    and [trigger] for a trigger. *)
Record pattern_row : Type := {
  row_component : string;
  row_patterns : list string;
  row_severity : string
}.

Record bypass_findings : Type := {
  findings_security_score : Z;
  findings_bypass_percentage : Z;
  findings_patterns : list pattern_row;
  findings_refactoring_priorities : list Bypass.item
}.

Record detailed_findings : Type := {
  naming_conventions_findings : option naming_findings;
  validation_rules_findings : option bypass_findings;
  triggers_findings : option bypass_findings
}.

Record report : Type := {
  report_executive_summary : executive_summary;
  report_detailed_findings : detailed_findings;
  report_recommendations : list string;
  report_overall_score : overall_score
}.

Definition violation_row_of (v : Naming.field_violation) : violation_row := {|
  row_field := Naming.apiName v;
  row_issues := map Naming.rule_of (Naming.violations_of v);
  row_recommendation := Naming.recommended_fix v |}.

Definition pattern_row_of (name_of : Bypass.item -> option string) (p : Bypass.item)
    : pattern_row := {|
  row_component := Py.get (name_of p) EmptyString;
  row_patterns := map Bypass.finding_name (Bypass.patterns p);
  row_severity := Bypass.highest_severity p |}.

Definition bypass_findings_of (name_of : Bypass.item -> option string)
    (r : Bypass.results) (priorities : option (list Bypass.item)) : bypass_findings := {|
  findings_security_score := Py.get (Bypass.security_score r) 0;
  findings_bypass_percentage := bypass_percentage_of r;
  findings_patterns := map (pattern_row_of name_of) (Bypass.bypass_patterns r);
  findings_refactoring_priorities := firstn 5 (Py.get priorities []) |}.

Definition generate_comprehensive_report (a : report_analyses) : result report :=
  let found := results_of a in
  summary <- generate_executive_summary a ;;
  let recommendations := generate_recommendations a in
  overall <- calculate_overall_score found ;;
  Ok {| report_executive_summary := summary;
        report_detailed_findings := {|
          naming_conventions_findings :=
            match naming_conventions found with
            | Some n => Some {|
                findings_compliance_percentage := Py.get (Naming.compliance_percentage n) 0;
                findings_violations := map violation_row_of (Naming.violations n);
                findings_top_issues :=
                  match naming_conventions_summary a with
                  | Some s => Py.get (summary_top_issues s) []
                  | None => []
                  end |}
            | None => None
            end;
          validation_rules_findings :=
            match validation_rules found with
            | Some v =>
                Some (bypass_findings_of Bypass.item_apiName v
                        (validation_rules_refactoring_priorities a))
            | None => None
            end;
          triggers_findings :=
            match triggers found with
            | Some t =>
                Some (bypass_findings_of Bypass.item_name t
                        (triggers_refactoring_priorities a))
            | None => None
            end |};
        report_recommendations := recommendations;
        report_overall_score := overall |}.

End Report.

(** ** Methods on an instance *)

(** A method runs on an instance: it returns a value or raises, and
    leaves the instance in the state its body brought it to. *)
Module Method.

Definition method (S A : Type) : Type := S -> result A * S.

Definition ret {S A : Type} (a : A) : method S A := fun self => (Ok a, self).

Definition raise_ {S A : Type} (e : exception) : method S A :=
  fun self => (Raise e, self).

(** A computation that does not touch the instance. *)
Definition lift {S A : Type} (r : result A) : method S A := fun self => (r, self).

Definition bind {S A B : Type} (m : method S A) (f : A -> method S B) : method S B :=
  fun self =>
    match m self with
    | (Ok a, self') => f a self'
    | (Raise e, self') => (Raise e, self')
    end.

(** [self.attribute] *)
Definition read {S A : Type} (attribute : S -> A) : method S A :=
  fun self => (Ok (attribute self), self).

(** [self.attribute = ...]: the instance after the assignment. *)
Definition assign {S : Type} (update : S -> S) : method S unit :=
  fun self => (Ok tt, update self).

(** [for x in xs: acc = body(acc, x)] in a method, stopping at the
    first raise. *)
Fixpoint for_each {S A Acc : Type} (body : Acc -> A -> method S Acc) (xs : list A)
    (acc : Acc) : method S Acc :=
  match xs with
  | [] => ret acc
  | x :: xs' => bind (body acc x) (fun acc' => for_each body xs' acc')
  end.

End Method.

Notation "x <~ m ;; k" := (Method.bind m (fun x => k))
  (at level 61, m at next level, right associativity).

(** ** The methods of [NamingConventionAnalyzer], with [self] threaded *)

Module NamingMethods.

Import Re Method.

Definition determine_severity (vs : list Naming.violation)
    : method Naming.NamingConventionAnalyzer string :=
  ret (Naming.determine_severity vs).

Definition generate_recommendation (api_name : string) (vs : list Naming.violation)
    : method Naming.NamingConventionAnalyzer string :=
  lift (Naming.generate_recommendation api_name vs).

(** The body of the loop over the fields. *)
Definition analyze_field (res : Naming.results) (f : Naming.field)
    : method Naming.NamingConventionAnalyzer Naming.results :=
  let api_name := Naming.api_name_of f in
  convention_rules <~ read Naming.convention_rules ;;
  let violations :=
    flat_map (fun rule =>
      let matches := search (Naming.pattern rule) api_name in
      if ((Naming.expected rule && negb matches) ||
          (negb (Naming.expected rule) && matches))%bool
      then [Naming.RuleViolation (Naming.description rule)
              (source (Naming.pattern rule)) (Naming.expected rule)]
      else []) convention_rules in
  violations <~
    (if (Str.contains "Loan" api_name || Str.contains "loan" api_name)%bool then
       standard <~ read (fun self =>
         Naming.standard_patterns (Naming.loan_object_conventions self)) ;;
       let is_standard := existsb (fun p => search p api_name) standard in
       custom <~ read (fun self =>
         Naming.custom_patterns (Naming.loan_object_conventions self)) ;;
       let is_custom := existsb (fun p => search p api_name) custom in
       invalid <~ read (fun self =>
         Naming.invalid_patterns (Naming.loan_object_conventions self)) ;;
       let has_invalid_pattern := existsb (fun p => search p api_name) invalid in
       ret (violations ++
            (if (negb is_standard && negb is_custom &&
                 Str.contains "Loan" api_name)%bool
             then [Naming.LoanViolation
                     "Loan-related fields must follow standard or custom patterns"
                     "critical"]
             else []) ++
            (if has_invalid_pattern
             then [Naming.LoanViolation "Field uses an invalid naming pattern"
                     "critical"]
             else []))%list
     else ret violations) ;;
  match violations with
  | _ :: _ =>
      fix_ <~ generate_recommendation api_name violations ;;
      let field_violation_ := {|
        Naming.apiName := api_name;
        Naming.label := Py.get (Naming.field_label f) EmptyString;
        Naming.type_ := Py.get (Naming.field_type f) EmptyString;
        Naming.violations_of := violations;
        Naming.recommended_fix := fix_ |} in
      severity <~ determine_severity violations ;;
      buckets <~ lift (Py.dict_append (Naming.by_severity res) severity
                         field_violation_) ;;
      ret {| Naming.violations := (Naming.violations res ++ [field_violation_])%list;
             Naming.compliant_field_count := Naming.compliant_field_count res;
             Naming.total_field_count := Naming.total_field_count res;
             Naming.by_severity := buckets;
             Naming.compliance_percentage := Naming.compliance_percentage res |}
  | [] =>
      ret {| Naming.violations := Naming.violations res;
             Naming.compliant_field_count := Naming.compliant_field_count res + 1;
             Naming.total_field_count := Naming.total_field_count res;
             Naming.by_severity := Naming.by_severity res;
             Naming.compliance_percentage := Naming.compliance_percentage res |}
  end.

Definition analyze_fields (fields : Py.obj Naming.field)
    : method Naming.NamingConventionAnalyzer Naming.results :=
  if (negb (Py.truth fields) || negb (Py.isinstance_list fields))%bool then
    raise_ (ValueError "Field data must be provided as a list")
  else
    let res := {|
      Naming.violations := [];
      Naming.compliant_field_count := 0;
      Naming.total_field_count := Py.len (Py.items fields);
      Naming.by_severity := [("critical", []); ("medium", []); ("low", [])];
      Naming.compliance_percentage := None |} in
    res <~ for_each analyze_field (Py.items fields) res ;;
    percentage <~ lift (
      ratio <- Num.truediv (Num.Int (Naming.compliant_field_count res))
                           (Num.Int (Naming.total_field_count res)) ;;
      scaled <- Num.mul ratio (Num.Int 100) ;;
      Num.round scaled) ;;
    ret {| Naming.violations := Naming.violations res;
           Naming.compliant_field_count := Naming.compliant_field_count res;
           Naming.total_field_count := Naming.total_field_count res;
           Naming.by_severity := Naming.by_severity res;
           Naming.compliance_percentage := Some percentage |}.

End NamingMethods.

(** ** The methods of [BypassPatternAnalyzer], with [self] threaded *)

Module BypassMethods.

Import Re Method.

Definition determine_highest_severity (fs : list Bypass.finding)
    : method Bypass.BypassPatternAnalyzer string :=
  ret (Bypass.determine_highest_severity fs).

Definition calculate_security_score (res : Bypass.results) (component_type : string)
    : method Bypass.BypassPatternAnalyzer Z :=
  lift (Bypass.calculate_security_score res component_type).

(** The result dict before the loop, with the pattern index set up from
    the catalog read from the instance. *)
Definition initial (k : Bypass.keys)
    (catalog_of : Bypass.BypassPatternAnalyzer -> list Bypass.bypass_pattern) (n : Z)
    : method Bypass.BypassPatternAnalyzer Bypass.results :=
  catalog <~ read catalog_of ;;
  ret (Bypass.initial k catalog n).

(** The percentage and the score, set after the loop. *)
Definition finish (res : Bypass.results) (component_type : string)
    : method Bypass.BypassPatternAnalyzer Bypass.results :=
  percentage <~ lift (
    if Bypass.total res >? 0 then
      ratio <- Num.truediv (Num.Int (Bypass.with_bypass res))
                           (Num.Int (Bypass.total res)) ;;
      scaled <- Num.mul ratio (Num.Int 100) ;;
      Num.round scaled
    else Ok 0) ;;
  let res := {|
    Bypass.keys_of := Bypass.keys_of res;
    Bypass.bypass_patterns := Bypass.bypass_patterns res;
    Bypass.by_pattern := Bypass.by_pattern res;
    Bypass.by_severity := Bypass.by_severity res;
    Bypass.total := Bypass.total res;
    Bypass.with_bypass := Bypass.with_bypass res;
    Bypass.bypass_percentage := Some percentage;
    Bypass.security_score := Bypass.security_score res |} in
  score <~ calculate_security_score res component_type ;;
  ret {| Bypass.keys_of := Bypass.keys_of res;
         Bypass.bypass_patterns := Bypass.bypass_patterns res;
         Bypass.by_pattern := Bypass.by_pattern res;
         Bypass.by_severity := Bypass.by_severity res;
         Bypass.total := Bypass.total res;
         Bypass.with_bypass := Bypass.with_bypass res;
         Bypass.bypass_percentage := Bypass.bypass_percentage res;
         Bypass.security_score := Some score |}.

(** The body of the loop over the validation rules. *)
Definition analyze_rule (res : Bypass.results) (r : Bypass.validation_rule)
    : method Bypass.BypassPatternAnalyzer Bypass.results :=
  let api_name := Bypass.rule_api_name r in
  let formula := Bypass.rule_formula_text r in
  catalog <~ read Bypass.validation_rule_patterns ;;
  found <~ lift (Bypass.scan catalog formula api_name (Bypass.by_pattern res)) ;;
  let '(found_patterns, index) := found in
  match found_patterns with
  | _ :: _ =>
      highest <~ determine_highest_severity found_patterns ;;
      lift (Bypass.record_item res index api_name {|
        Bypass.item_apiName := Some api_name;
        Bypass.item_name := None;
        Bypass.item_active := Py.get (Bypass.rule_active r) false;
        Bypass.item_description :=
          Some (Py.get (Bypass.rule_description r) EmptyString);
        Bypass.patterns := found_patterns;
        Bypass.highest_severity := highest |})
  | [] => ret (Bypass.with_index res index)
  end.

Definition analyze_validation_rules (validation_rules : Py.obj Bypass.validation_rule)
    : method Bypass.BypassPatternAnalyzer Bypass.results :=
  if (negb (Py.truth validation_rules) ||
      negb (Py.isinstance_list validation_rules))%bool then
    raise_ (ValueError "Validation rule data must be provided as a list")
  else
    res <~ initial Bypass.rules_keys Bypass.validation_rule_patterns
             (Py.len (Py.items validation_rules)) ;;
    res <~ for_each analyze_rule (Py.items validation_rules) res ;;
    finish res "validation".

(** The body of the loop over the triggers. *)
Definition analyze_trigger (res : Bypass.results) (t : Bypass.trigger)
    : method Bypass.BypassPatternAnalyzer Bypass.results :=
  let name_ := Bypass.trigger_name_text t in
  let content := Bypass.trigger_content_text t in
  catalog <~ read Bypass.apex_trigger_patterns ;;
  found <~ lift (Bypass.scan catalog content name_ (Bypass.by_pattern res)) ;;
  let '(found_patterns, index) := found in
  match found_patterns with
  | _ :: _ =>
      highest <~ determine_highest_severity found_patterns ;;
      lift (Bypass.record_item res index name_ {|
        Bypass.item_apiName := None;
        Bypass.item_name := Some name_;
        Bypass.item_active := Py.get (Bypass.trigger_active t) false;
        Bypass.item_description := None;
        Bypass.patterns := found_patterns;
        Bypass.highest_severity := highest |})
  | [] => ret (Bypass.with_index res index)
  end.

Definition analyze_apex_triggers (triggers : Py.obj Bypass.trigger)
    : method Bypass.BypassPatternAnalyzer Bypass.results :=
  if (negb (Py.truth triggers) || negb (Py.isinstance_list triggers))%bool then
    raise_ (ValueError "Trigger data must be provided as a list")
  else
    res <~ initial Bypass.triggers_keys Bypass.apex_trigger_patterns
             (Py.len (Py.items triggers)) ;;
    res <~ for_each analyze_trigger (Py.items triggers) res ;;
    finish res "trigger".

End BypassMethods.

(** * Specifications *)

(** ** The naming analysis: definitions *)

Section NamingSpec.
Import Naming.

(** [s] starts with the literal [l]. *)
Definition starts (l s : string) : bool :=
  match Re.strip false l s with
  | Some _ => true
  | None => false
  end.

(** The violations the loop body collects for one name. *)
Definition found (self : NamingConventionAnalyzer) (api : string) : list violation :=
  (rule_violations self api ++ loan_violations self api)%list.

(** The keys of [by_severity]. *)
Definition severity_keys : list string := ["critical"; "medium"; "low"].

(** [round(100 * c / t)], the expression of the specification. *)
Definition percentage_of (c t : Z) : result Z :=
  ratio <- Num.truediv (Num.Int (100 * c)) (Num.Int t) ;;
  Num.round ratio.

(** The entry of [violations] that the loop body files for the field
    [f]: its name, label and type, the violations found for the name and
    the fix recommended for them. *)
Definition reports (self : NamingConventionAnalyzer) (f : field) (e : field_violation)
    : Prop :=
  apiName e = api_name_of f /\
  label e = Py.get (field_label f) EmptyString /\
  type_ e = Py.get (field_type f) EmptyString /\
  violations_of e = found self (api_name_of f) /\
  generate_recommendation (api_name_of f) (violations_of e) = Ok (recommended_fix e).

(** Some rule of the analyzer is violated by the name of the field. *)
Definition violates (self : NamingConventionAnalyzer) (f : field) : bool :=
  match found self (api_name_of f) with
  | [] => false
  | _ :: _ => true
  end.

(** The field has a first character for [generate_recommendation] to
    read when a rule about lowercase is violated. *)
Definition recommendable (self : NamingConventionAnalyzer) (f : field) : Prop :=
  api_name_of f = EmptyString ->
  any_violation (fun v => Str.contains "lowercase" (rule_of v))
    (found self (api_name_of f)) = false.

End NamingSpec.

(** ** Magnitudes of binary64 results: definitions *)

(** A float that is zero, or finite with exponent at most [E] and
    magnitude below [2 ^ M]. *)
Definition bounded_by (E M : Z) (x : spec_float) : Prop :=
  match x with
  | S754_zero _ => True
  | S754_finite _ m e => e <= E /\ Zdigits2 (Zpos m) + e <= M
  | _ => False
  end.

(** [float(100)] *)
Definition float_100 : spec_float := S754_finite false 7036874417766400 (-46).

(** ** The bypass analysis: definitions *)

Section BypassSpec.
Import Bypass.

(** The pattern matches the text. *)
Definition is_hit (text : string) (p : bypass_pattern) : bool :=
  Re.search (regex_ p) text.

(** Some pattern of the catalog matches the text. *)
Definition is_flagged (catalog : list bypass_pattern) (text : string) : bool :=
  existsb (is_hit text) catalog.

(** Some matching pattern has the severity [sev]. *)
Definition hit_with (catalog : list bypass_pattern) (sev text : string) : bool :=
  existsb (fun p => is_hit text p && String.eqb (severity p) sev)%bool catalog.

(** The worst severity among the matching patterns is High. *)
Definition is_high (catalog : list bypass_pattern) (text : string) : bool :=
  hit_with catalog "High" text.

(** The worst severity among the matching patterns is Medium. *)
Definition is_medium (catalog : list bypass_pattern) (text : string) : bool :=
  (negb (is_high catalog text) && hit_with catalog "Medium" text)%bool.

(** The number of elements that satisfy [p]. *)
Definition count {A : Type} (p : A -> bool) (l : list A) : Z :=
  Py.len (filter p l).

(** [len(d[k])], and 0 when the key is absent. *)
Definition bucket_len (d : Py.dict (list string)) (k : string) : Z :=
  match Py.dict_get d k with
  | Ok l => Py.len l
  | Raise _ => 0
  end.

(** The keys of the severity index. *)
Definition bypass_keys : list string := ["High"; "Medium"; "Low"].

(** The shape shared by the two loop bodies. *)
Definition loop_body {A : Type} (catalog : list bypass_pattern)
    (text_of ident_of : A -> string) (item_of : A -> list finding -> item)
    (res : results) (a : A) : result results :=
  found <- scan catalog (text_of a) (ident_of a) (by_pattern res) ;;
  let '(found_patterns, index) := found in
  match found_patterns with
  | _ :: _ => record_item res index (ident_of a) (item_of a found_patterns)
  | [] => Ok (with_index res index)
  end.

(** What the loops keep true of the result under construction. *)
Definition well_keyed (catalog : list bypass_pattern) (res : results) : Prop :=
  (forall p, In p catalog -> In (name p) (map fst (by_pattern res))) /\
  map fst (by_severity res) = bypass_keys.

(** One more, or none. *)
Definition one_if (b : bool) : Z := if b then 1 else 0.

(** The score as the specification words it: 100, minus 0.3 times the
    percentage of flagged records, minus 5 for each record of high
    severity, minus 2 for each of medium severity, rounded and clamped
    to [0, 100]. *)
Definition security_score_formula (flagged total_ high medium : Z) : result Z :=
  ratio <- Num.truediv (Num.Int flagged) (Num.Int total_) ;;
  percentage <- Num.mul ratio (Num.Int 100) ;;
  deduction <- Num.mul percentage (Num.Float Num.lit_0_3) ;;
  score <- Num.sub (Num.Int 100) deduction ;;
  score <- Num.sub score (Num.Int (high * 5)) ;;
  score <- Num.sub score (Num.Int (medium * 2)) ;;
  rounded <- Num.round score ;;
  Ok (Z.max 0 (Z.min 100 rounded)).

(** The [component_type] that goes with the key names. *)
Definition component_of (k : keys) : string :=
  match k with
  | rules_keys => "validation"
  | triggers_keys => "trigger"
  end.

(** What an analysis of a non-empty list returns, for either entry. *)
Record analysed {A : Type} (catalog : list bypass_pattern) (text_of : A -> string)
    (l : list A) (res : results) (s : Z) : Prop := {
  analysed_score : security_score res = Some s;
  analysed_range : 0 <= s <= 100;
  analysed_formula :
    security_score_formula
      (count (fun a => is_flagged catalog (text_of a)) l) (Py.len l)
      (count (fun a => is_high catalog (text_of a)) l)
      (count (fun a => is_medium catalog (text_of a)) l) = Ok s;
  analysed_total : total res = Py.len l;
  analysed_flagged :
    with_bypass res = count (fun a => is_flagged catalog (text_of a)) l;
  analysed_items :
    Py.len (bypass_patterns res) = count (fun a => is_flagged catalog (text_of a)) l;
  analysed_high :
    bucket_len (by_severity res) "High" =
      count (fun a => is_high catalog (text_of a)) l;
  analysed_medium :
    bucket_len (by_severity res) "Medium" =
      count (fun a => is_medium catalog (text_of a)) l;
  analysed_percentage : exists p, bypass_percentage res = Some p
}.

(** The items the two loop bodies build. *)
Definition rule_item (r : validation_rule) (fs : list finding) : item := {|
  item_apiName := Some (rule_api_name r);
  item_name := None;
  item_active := Py.get (rule_active r) false;
  item_description := Some (Py.get (rule_description r) EmptyString);
  patterns := fs;
  highest_severity := determine_highest_severity fs |}.

Definition trigger_item (t : trigger) (fs : list finding) : item := {|
  item_apiName := None;
  item_name := Some (trigger_name_text t);
  item_active := Py.get (trigger_active t) false;
  item_description := None;
  patterns := fs;
  highest_severity := determine_highest_severity fs |}.

End BypassSpec.

(** ** The overall score: definitions *)

Section ReportSpec.
Import Report.

(** The float [k / 2]. *)
Definition half (k : Z) : spec_float := binary_normalize Num.prec Num.emax k (-1) false.

(** Equality of floats as data. *)
Definition float_same (x y : spec_float) : bool :=
  match x, y with
  | S754_zero a, S754_zero b => Bool.eqb a b
  | S754_infinity a, S754_infinity b => Bool.eqb a b
  | S754_nan, S754_nan => true
  | S754_finite a m e, S754_finite b m' e' =>
      (Bool.eqb a b && Pos.eqb m m' && Z.eqb e e')%bool
  | _, _ => false
  end.

(** The computation returned the float [f]. *)
Definition is_float (r : result Num.num) (f : spec_float) : bool :=
  match r with
  | Ok (Num.Float g) => float_same g f
  | _ => false
  end.

(** The computation returned the int [z]. *)
Definition is_int (r : result Z) (z : Z) : bool :=
  match r with
  | Ok y => Z.eqb y z
  | _ => false
  end.

(** The integers from 0 to [n]. *)
Definition upto (n : nat) : list Z := map Z.of_nat (seq 0 (S n)).

(** The integer nearest to [a / b], ties to the even one. *)
Definition round_ratio (a b : Z) : Z :=
  let q := a / b in
  let r := a mod b in
  match 2 * r ?= b with
  | Lt => q
  | Gt => q + 1
  | Eq => if Z.even q then q else q + 1
  end.

(** [round(weighted / weight)] where the weighted sum is [k / 2]. *)
Definition average_of (k : Z) (weight : Num.num) : result Z :=
  q <- Num.truediv (Num.Float (half k)) weight ;; Num.round q.

(** The key is in the dict. *)
Definition is_present {A : Type} (a : option A) : bool :=
  match a with
  | Some _ => true
  | None => false
  end.

(** Twice the weighted sum and twice the sum of the weights: weight 1
    for naming, 1.5 for validation rules, 1.5 for triggers. *)
Definition twice_weighted_sum (a : analyses) : Z :=
  2 * naming_score a + 3 * validation_score a + 3 * triggers_score_of a.

Definition twice_weight (a : analyses) : Z :=
  (if is_present (naming_conventions a) then 2 else 0) +
  (if is_present (validation_rules a) then 3 else 0) +
  (if is_present (triggers a) then 3 else 0).

(** The rating bands. *)
Definition band (s : Z) : string :=
  if 90 <=? s then "Excellent"
  else if 75 <=? s then "Good"
  else if 60 <=? s then "Fair"
  else if 40 <=? s then "Poor"
  else "Critical".

(** The scores an analyzer can return. *)
Definition scores_in_range (a : analyses) : Prop :=
  0 <= naming_score a <= 100 /\
  0 <= validation_score a <= 100 /\
  0 <= triggers_score_of a <= 100.

End ReportSpec.

(** ** The refactoring queue: definitions *)

Section QueueSpec.
Import Bypass.

(** [a] may stand before [b] in the queue: a smaller rank, or the same
    rank and an identifier that is not greater. *)
Definition in_order (a b : item) : Prop :=
  severity_rank (highest_severity a) < severity_rank (highest_severity b) \/
  (severity_rank (highest_severity a) = severity_rank (highest_severity b) /\
   (identifier a <=? identifier b)%string = true).

End QueueSpec.

(** ** The analyzers on their inputs: definitions *)

(** An argument that no analyzer accepts: [None], the empty list, or an
    object that is not a list. *)
Definition invalid_input {A : Type} (x : Py.obj A) : Prop :=
  x = Py.None_ \/ x = Py.List_ [] \/ exists b, x = Py.Other b.

(** The records with every absent key given its default: the empty
    string, or [False] for [active]. *)
Definition fill_field (f : Naming.field) : Naming.field := {|
  Naming.field_apiName := Some (Py.get (Naming.field_apiName f) EmptyString);
  Naming.field_fullName := Some (Py.get (Naming.field_fullName f) EmptyString);
  Naming.field_label := Some (Py.get (Naming.field_label f) EmptyString);
  Naming.field_type := Some (Py.get (Naming.field_type f) EmptyString) |}.

Definition fill_rule (r : Bypass.validation_rule) : Bypass.validation_rule := {|
  Bypass.rule_apiName := Some (Py.get (Bypass.rule_apiName r) EmptyString);
  Bypass.rule_fullName := Some (Py.get (Bypass.rule_fullName r) EmptyString);
  Bypass.rule_errorConditionFormula :=
    Some (Py.get (Bypass.rule_errorConditionFormula r) EmptyString);
  Bypass.rule_formula := Some (Py.get (Bypass.rule_formula r) EmptyString);
  Bypass.rule_active := Some (Py.get (Bypass.rule_active r) false);
  Bypass.rule_description := Some (Py.get (Bypass.rule_description r) EmptyString) |}.

Definition fill_trigger (t : Bypass.trigger) : Bypass.trigger := {|
  Bypass.trigger_name := Some (Py.get (Bypass.trigger_name t) EmptyString);
  Bypass.trigger_content := Some (Py.get (Bypass.trigger_content t) EmptyString);
  Bypass.trigger_code := Some (Py.get (Bypass.trigger_code t) EmptyString);
  Bypass.trigger_active := Some (Py.get (Bypass.trigger_active t) false) |}.

(** Two calls in a row on one instance: the outcome of each, and the
    instance after the second. A raise in the first call does not stop
    the caller from making the second. *)
Definition call_twice {S A B : Type} (first : Method.method S A)
    (second : Method.method S B) (self : S) : result A * result B * S :=
  let '(a, self1) := first self in
  let '(b, self2) := second self1 in
  (a, b, self2).

(** A method that assigns to an attribute, for comparison: it empties
    the list of convention rules. *)
Definition drop_rules : Method.method Naming.NamingConventionAnalyzer unit :=
  Method.assign (fun self => {|
    Naming.convention_rules := [];
    Naming.loan_object_conventions := Naming.loan_object_conventions self |}).

(** [round((part / whole) * 100)], the expression of the code. *)
Definition rounded_share (part whole : Z) : result Z :=
  ratio <- Num.truediv (Num.Int part) (Num.Int whole) ;;
  scaled <- Num.mul ratio (Num.Int 100) ;;
  Num.round scaled.

(** Two computations return the same integer. *)
Definition same_result (a b : result Z) : bool :=
  match a, b with
  | Ok x, Ok y => x =? y
  | _, _ => false
  end.

(** An analyzer with the rule for managed package fields alone. *)
Definition managed_only : Naming.NamingConventionAnalyzer := {|
  Naming.convention_rules := firstn 1 (Naming.convention_rules Naming.init);
  Naming.loan_object_conventions := {|
    Naming.standard_patterns := [];
    Naming.custom_patterns := [];
    Naming.invalid_patterns := [] |} |}.

(** Records as the sample data of the repository has them. *)
Definition named_field (api : string) : Naming.field := {|
  Naming.field_apiName := Some api;
  Naming.field_fullName := None;
  Naming.field_label := None;
  Naming.field_type := None |}.

Definition formula_rule (api formula : string) : Bypass.validation_rule := {|
  Bypass.rule_apiName := Some api;
  Bypass.rule_fullName := None;
  Bypass.rule_errorConditionFormula := Some formula;
  Bypass.rule_formula := None;
  Bypass.rule_active := Some true;
  Bypass.rule_description := None |}.

Definition content_trigger (name content : string) : Bypass.trigger := {|
  Bypass.trigger_name := Some name;
  Bypass.trigger_content := Some content;
  Bypass.trigger_code := None;
  Bypass.trigger_active := None |}.

(** Sample inputs. *)
Definition sample_fields : list Naming.field :=
  [named_field "LLC_BI__Amount__c"; named_field "LLC_BI__Status__c";
   named_field "nc_Loan_Score__c"; named_field "customField__c"].

Definition sample_rules : list Bypass.validation_rule :=
  [formula_rule "LLC_BI__Loan_Amount_Validation" "LLC_BI__Amount__c <= 0";
   formula_rule "nc_Loan_Owner_Bypass" "OwnerId === $User.Id";
   formula_rule "nc_Loan_User_Bypass" "$User.Id === '005000000000001'"].

Definition sample_triggers : list Bypass.trigger :=
  [content_trigger "LLC_BI__LoanTrigger"
     "if (FeatureManagement.checkPermission('Bypass_Loan_Trigger')) { return; }"].

(** Records with no key at all. *)
Definition bare_field : Naming.field := {|
  Naming.field_apiName := None;
  Naming.field_fullName := None;
  Naming.field_label := None;
  Naming.field_type := None |}.

Definition bare_rule : Bypass.validation_rule := {|
  Bypass.rule_apiName := None;
  Bypass.rule_fullName := None;
  Bypass.rule_errorConditionFormula := None;
  Bypass.rule_formula := None;
  Bypass.rule_active := None;
  Bypass.rule_description := None |}.

Definition bare_trigger : Bypass.trigger := {|
  Bypass.trigger_name := None;
  Bypass.trigger_content := None;
  Bypass.trigger_code := None;
  Bypass.trigger_active := None |}.

Definition admin_formula : string := "$Profile.Name != 'System Administrator'".

(** The three texts of the naming catalog. *)
Definition managed_rule : string := "Managed package fields from nCino".

Definition custom_rule : string := "Custom project-specific fields".

Definition lowercase_rule : string := "Fields should not start with lowercase letters".

(** A validation-only report input whose score is 40. *)
Definition validation_only_40 : Report.analyses := {|
  Report.naming_conventions := None;
  Report.validation_rules := Some {|
    Bypass.keys_of := Bypass.rules_keys;
    Bypass.bypass_patterns := [];
    Bypass.by_pattern := [];
    Bypass.by_severity := [];
    Bypass.total := 0;
    Bypass.with_bypass := 0;
    Bypass.bypass_percentage := None;
    Bypass.security_score := Some 40 |};
  Report.triggers := None |}.

(** A flagged record, as far as the sort reads it. *)
Definition priority_item (api severity : string) : Bypass.item := {|
  Bypass.item_apiName := Some api;
  Bypass.item_name := None;
  Bypass.item_active := true;
  Bypass.item_description := None;
  Bypass.patterns := [];
  Bypass.highest_severity := severity |}.

Definition sample_items : list Bypass.item :=
  [priority_item "Zeta" "Low"; priority_item "beta" "High";
   priority_item "Gamma" "Medium"; priority_item "Alpha" "High"].

Definition sample_results : Bypass.results := {|
  Bypass.keys_of := Bypass.rules_keys;
  Bypass.bypass_patterns := sample_items;
  Bypass.by_pattern := [];
  Bypass.by_severity := [];
  Bypass.total := 4;
  Bypass.with_bypass := 4;
  Bypass.bypass_percentage := None;
  Bypass.security_score := None |}.

(** ** The naming analysis: entries, buckets and summary: definitions *)

Section SummarySpec.
Import Naming.

(** The entry is filed under the severity [k]. *)
Definition has_severity (k : string) (e : field_violation) : bool :=
  String.eqb (determine_severity (violations_of e)) k.

(** Each bucket of [by_severity] holds the entries of its severity, in
    the order of [violations]. *)
Definition filed (res : results) : Prop :=
  forall k, In k severity_keys ->
    Py.dict_get (by_severity res) k = Ok (filter (has_severity k) (violations res)).

(** The name of the entry breaks one of the rules for loan fields. *)
Definition breaks_loan_rule (e : field_violation) : bool :=
  match loan_violations init (apiName e) with
  | [] => false
  | _ :: _ => true
  end.

(** A violation of the three prefix rules: without a severity of its
    own, and with a rule text that no test of [determine_severity]
    finds. *)
Definition plain (v : violation) : bool :=
  (match severity_of v with Some s => negb (String.eqb s "critical") | None => true end &&
   negb (Str.contains "Loan" (rule_of v)) &&
   negb (Str.contains "standard patterns" (rule_of v)) &&
   negb (Str.contains "custom project-specific" (rule_of v)))%bool.

(** The rule texts of all the violations, in the order of the loops. *)
Definition rules_cited (vs : list field_violation) : list string :=
  map rule_of (flat_map violations_of vs).

(** How often the rule text occurs among the violations. *)
Definition occurrences (rule : string) (vs : list field_violation) : Z :=
  Py.len (filter (String.eqb rule) (rules_cited vs)).

(** The count under a key of the tally, 0 when the key is absent. *)
Definition tally_of (d : Py.dict Z) (rule : string) : Z := Py.dict_get_or d rule 0.

(** An entry that cites the given rule texts. *)
Definition citing (api : string) (rules : list string) : field_violation := {|
  apiName := api;
  label := EmptyString;
  type_ := EmptyString;
  violations_of := map (fun r => RuleViolation r EmptyString true) rules;
  recommended_fix := EmptyString |}.

(** Entries that cite seven rule texts. *)
Definition sample_entries : list field_violation :=
  [citing "a" ["rule a"; "rule b"]; citing "b" ["rule b"; "rule c"];
   citing "c" ["rule c"; "rule d"; "rule b"; "rule e"; "rule f"; "rule g"]].

(** [a] may stand before [b] in a list sorted by falling key. *)
Definition falling {A : Type} (key : A -> Z) (a b : A) : Prop := key b <= key a.

(** The general recommendations of an analysis with the catalog of
    [__init__]: the percentage is below 70 and no entry is of medium
    severity. *)
Definition naming_advice (critical : Z) : list string :=
  ((if critical >? 0 then
      ["Immediately address critical naming violations to prevent potential conflicts and maintenance issues"]
    else []) ++
   ["Create and document clear naming conventions and socialize with team";
    "Consider implementing automated validation for field naming during development";
    "Regularly review and audit field naming as part of maintenance practices"])%list.

End SummarySpec.

(** ** The bypass analysis: entries, indexes and advice: definitions *)

Section IndexSpec.
Import Bypass.

(** The findings for a text: one for each pattern of the catalog that
    matches, in the order of the catalog. *)
Definition findings_in (catalog : list bypass_pattern) (text : string) : list finding :=
  map finding_of (filter (is_hit text) catalog).

(** The worst severity among the matching patterns. *)
Definition worst_of (catalog : list bypass_pattern) (text : string) : string :=
  if is_high catalog text then "High"
  else if is_medium catalog text then "Medium" else "Low".

(** Some pattern matches, and none of severity High or Medium. *)
Definition is_low (catalog : list bypass_pattern) (text : string) : bool :=
  (is_flagged catalog text && negb (is_high catalog text) &&
   negb (is_medium catalog text))%bool.

(** The lists under the keys of [d'] are those of [d], each extended by
    [more]; no key is added or removed. *)
Definition appended {V : Type} (d' d : Py.dict (list V)) (more : string -> list V)
    : Prop :=
  forall n, Py.dict_get d' n = (l <- Py.dict_get d n ;; Ok (l ++ more n)%list).

(** What the scan of one text files under the pattern name [n]: the
    identifier, once for each matching pattern of that name. *)
Definition filed_under (catalog : list bypass_pattern) (text ident n : string)
    : list string :=
  flat_map (fun p =>
    if (is_hit text p && String.eqb n (name p))%bool then [ident] else []) catalog.

(** A property of a text and a catalog, for a validation rule and for a
    trigger of the analyzer [self]. *)
Definition rule_is (what : list bypass_pattern -> string -> bool)
    (self : BypassPatternAnalyzer) (r : validation_rule) : bool :=
  what (validation_rule_patterns self) (rule_formula_text r).

Definition trigger_is (what : list bypass_pattern -> string -> bool)
    (self : BypassPatternAnalyzer) (t : trigger) : bool :=
  what (apex_trigger_patterns self) (trigger_content_text t).

(** The entry of [bypass_patterns] for a flagged validation rule and
    for a flagged trigger. *)
Definition rule_entry (self : BypassPatternAnalyzer) (r : validation_rule) : item :=
  rule_item r (findings_in (validation_rule_patterns self) (rule_formula_text r)).

Definition trigger_entry (self : BypassPatternAnalyzer) (t : trigger) : item :=
  trigger_item t (findings_in (apex_trigger_patterns self) (trigger_content_text t)).

(** Records that no pattern of [__init__] matches. *)
Definition clean_rules : list validation_rule :=
  [formula_rule "Amount_Positive" "LLC_BI__Amount__c <= 0";
   formula_rule "Status_Required" "ISBLANK(LLC_BI__Status__c)"].

Definition clean_triggers : list trigger :=
  [content_trigger "LoanTrigger" "trigger LoanTrigger on LLC_BI__Loan__c (before insert) { }"].

(** A finding whose severity is none of High, Medium and Low. *)
Definition unrated_finding : finding := {|
  finding_name := "Unrated";
  finding_severity := "Critical";
  finding_description := EmptyString;
  finding_recommended_approach := EmptyString |}.

(** One finding for each validation rule pattern of [__init__]. *)
Definition sample_findings : list finding :=
  map finding_of (validation_rule_patterns init).

(** The result with [bypass_patterns] replaced by [queue]. *)
Definition with_queue (res : results) (queue : list item) : results := {|
  keys_of := keys_of res;
  bypass_patterns := queue;
  by_pattern := by_pattern res;
  by_severity := by_severity res;
  total := total res;
  with_bypass := with_bypass res;
  bypass_percentage := bypass_percentage res;
  security_score := security_score res |}.

(** Two sort keys are equal. *)
Definition same_key (a b : Z * string) : bool :=
  ((fst a =? fst b) && String.eqb (snd a) (snd b))%bool.

(** The general recommendations for validation rules, by whether a rule
    of severity High was found and by the percentage of flagged rules. *)
Definition validation_advice (high : bool) (percentage : Z) : list string :=
  (["Implement a consistent approach to bypass logic across all components";
    "Use custom permissions instead of profiles or user IDs for bypass logic";
    "Document all bypass mechanisms in a central location for security review"] ++
   (if high then ["Immediately refactor validation rules with hardcoded User IDs"]
    else []) ++
   (if percentage >? 50
    then ["Review overall validation strategy to reduce reliance on bypass patterns"]
    else []))%list.

(** The general recommendations for triggers. *)
Definition trigger_advice (high : bool) : list string :=
  (["Implement a consistent approach to bypass logic across all components";
    "Use custom permissions instead of profiles or user IDs for bypass logic";
    "Document all bypass mechanisms in a central location for security review"] ++
   (if high
    then ["Immediately refactor triggers with hardcoded User IDs or Profile checks"]
    else []) ++
   ["Implement a centralized trigger handler framework with consistent bypass logic"])%list.

(** The fields of a result that the score is computed from. *)
Definition same_counts (r1 r2 : results) : Prop :=
  keys_of r1 = keys_of r2 /\ by_severity r1 = by_severity r2 /\
  total r1 = total r2 /\ with_bypass r1 = with_bypass r2.

End IndexSpec.

(** ** The comprehensive report: definitions *)

Section ReportingSpec.
Import Report.

(** The recommendations every report ends with. *)
Definition standing_recommendations : list string :=
  ["Implement a governance process to regularly review and audit configuration changes.";
   "Document all configuration standards and patterns in a central location.";
   "Provide training to developers on secure and maintainable configuration practices."].

(** The recommendations handed to the report, in the order in which
    they are taken up. *)
Definition supplied_recommendations (a : report_analyses) : list string :=
  (match naming_conventions_summary a with
   | Some s => Py.get (summary_recommendations s) []
   | None => []
   end ++
   Py.get (validation_rules_recommendations a) [] ++
   Py.get (triggers_recommendations a) [])%list.

(** The three assessments of the executive summary. *)
Definition critical_attention : string :=
  "Critical attention required. The configuration contains significant risk factors that should be addressed immediately.".

Definition moderate_risk : string :=
  "Moderate risk identified. The configuration has several issues that should be addressed in the near term.".

Definition low_risk : string :=
  "Low risk identified. The configuration is generally sound with minor improvements recommended.".

(** The length of a bucket, 0 when the key is absent. *)
Definition bucket_size {V : Type} (d : Py.dict (list V)) (k : string) : Z :=
  Py.len (Py.dict_get_or d k []).

(** The findings of one level over the analyses given: the bucket
    [naming_key] of the naming analysis and the bucket [bypass_key] of
    the validation rule analysis and of the trigger analysis. A result
    filed under the key of the other analysis has no index to read. *)
Definition risk_total (a : report_analyses) (naming_key bypass_key : string) : Z :=
  match naming_conventions (results_of a) with
  | Some n => bucket_size (Naming.by_severity n) naming_key
  | None => 0
  end +
  match validation_rules (results_of a) with
  | Some v => bucket_size (severity_index Bypass.rules_keys v) bypass_key
  | None => 0
  end +
  match triggers (results_of a) with
  | Some t => bucket_size (severity_index Bypass.triggers_keys t) bypass_key
  | None => 0
  end.

(** The number of analyses given. *)
Definition analyses_given (a : report_analyses) : nat :=
  (List.length (present (naming_conventions (results_of a)) tt) +
   List.length (present (validation_rules (results_of a)) tt) +
   List.length (present (triggers (results_of a)) tt))%nat.

(** [(c / t) * 100 > 20] *)
Definition share_above_20 (c t : Z) : bool :=
  match (ratio <- Num.truediv (Num.Int c) (Num.Int t) ;; Num.mul ratio (Num.Int 100)) with
  | Ok x => Num.gt_int x 20
  | Raise _ => false
  end.

(** The summary as the report reads it. *)
Definition summary_view (s : Naming.summary) : naming_summary := {|
  summary_recommendations := Some (Naming.recommendations s);
  summary_top_issues := Some (Naming.top_issues s) |}.

(** The three analyses with what goes with each (the summary, the
    refactoring queues, the general recommendations), handed to the
    report under the keys it reads. *)
Definition full_report (self : Bypass.BypassPatternAnalyzer)
    (fields : list Naming.field) (rules : list Bypass.validation_rule)
    (triggers_ : list Bypass.trigger) : result report :=
  naming <- Naming.analyze_fields Naming.init (Py.List_ fields) ;;
  summary <- Naming.generate_summary_report naming ;;
  validation <- Bypass.analyze_validation_rules self (Py.List_ rules) ;;
  validation_advice_ <- Bypass.generate_general_recommendations validation "validation" ;;
  trigger <- Bypass.analyze_apex_triggers self (Py.List_ triggers_) ;;
  trigger_advice_ <- Bypass.generate_general_recommendations trigger "trigger" ;;
  generate_comprehensive_report {|
    results_of := {|
      naming_conventions := Some naming;
      validation_rules := Some validation;
      triggers := Some trigger |};
    naming_conventions_summary := Some (summary_view summary);
    validation_rules_refactoring_priorities :=
      Some (Bypass.generate_refactoring_priorities validation "validation");
    validation_rules_recommendations := Some validation_advice_;
    triggers_refactoring_priorities :=
      Some (Bypass.generate_refactoring_priorities trigger "trigger");
    triggers_recommendations := Some trigger_advice_ |}.

(** A report input with the validation result alone and two
    recommendations for it. *)
Definition sample_analyses : report_analyses := {|
  results_of := validation_only_40;
  naming_conventions_summary := None;
  validation_rules_refactoring_priorities := None;
  validation_rules_recommendations :=
    Some ["Use custom permissions instead of profiles or user IDs for bypass logic";
          "Document all bypass mechanisms in a central location for security review"];
  triggers_refactoring_priorities := None;
  triggers_recommendations := None |}.

(** [x in xs] *)
Definition mentions (xs : list string) (x : string) : bool :=
  existsb (String.eqb x) xs.

End ReportingSpec.

(** * Properties *)

(** ** The naming analysis *)

Section NamingFacts.
Import Naming.

Lemma bol_search_false ic r s : Re.search_from ic (Re.Cat Re.Bol r) false s = false.
Proof. induction s as [|c s IH]; simpl; auto. Qed.

Lemma anchored_literal_search src l s :
  Re.search (Re.compile src (Re.Cat Re.Bol (Re.Lit l)) false) s =
  match Re.strip false l s with Some _ => true | None => false end.
Proof.
  unfold Re.search; simpl Re.ast; simpl Re.IGNORECASE.
  destruct s as [|c s]; simpl.
  - destruct (Re.strip false l EmptyString); simpl; auto.
  - rewrite bol_search_false. destruct (Re.strip false l (String c s)); simpl; auto.
Qed.

Lemma prefixes_exclusive api :
  starts "LLC_BI__" api = true -> starts "nc_" api = false.
Proof.
  unfold starts. destruct api as [|c s]; [discriminate|].
  cbn [Re.strip]. unfold Re.char_eq.
  destruct (Ascii.eqb "L" c) eqn:E; [|discriminate].
  apply Ascii.eqb_eq in E; subst c. reflexivity.
Qed.

Lemma init_always_violates api : rule_violations init api <> [].
Proof.
  unfold rule_violations, init; simpl convention_rules.
  cbn [flat_map pattern expected description app].
  rewrite !anchored_literal_search.
  pose proof (prefixes_exclusive api) as H. unfold starts in H.
  destruct (Re.strip false "LLC_BI__" api).
  - rewrite H by reflexivity. cbn [negb andb orb app]. discriminate.
  - cbn [negb andb orb app]. discriminate.
Qed.

Lemma dict_get_in {V} (d : Py.dict V) k :
  In k (map fst d) -> exists v, Py.dict_get d k = Ok v.
Proof.
  induction d as [|[k' v'] d IH]; simpl; [tauto|].
  intros [->|H].
  - rewrite String.eqb_refl. eauto.
  - destruct (String.eqb k' k); eauto.
Qed.

Lemma dict_set_keys {V} (d : Py.dict V) k v :
  In k (map fst d) -> map fst (Py.dict_set d k v) = map fst d.
Proof.
  induction d as [|[k' v'] d IH]; simpl; [tauto|].
  intros H. destruct (String.eqb_spec k' k) as [->|Hne]; simpl; [reflexivity|].
  f_equal. apply IH. destruct H; [contradiction|assumption].
Qed.

Lemma dict_append_ok {V} (d : Py.dict (list V)) k x :
  In k (map fst d) ->
  exists d', Py.dict_append d k x = Ok d' /\ map fst d' = map fst d.
Proof.
  intros H. unfold Py.dict_append.
  destruct (dict_get_in d k H) as [l ->]. simpl.
  eexists; split; [reflexivity|]. now apply dict_set_keys.
Qed.

Lemma bind_ok {A B} (m : result A) (f : A -> result B) b :
  bind m f = Ok b -> exists a, m = Ok a /\ f a = Ok b.
Proof. destruct m; simpl; [eauto|discriminate]. Qed.

Lemma len_app {A} (l1 l2 : list A) : Py.len (l1 ++ l2) = Py.len l1 + Py.len l2.
Proof. unfold Py.len. rewrite length_app. lia. Qed.

Lemma len_cons {A} (x : A) l : Py.len (x :: l) = 1 + Py.len l.
Proof. unfold Py.len. simpl List.length. lia. Qed.

Lemma len_nonneg {A} (l : list A) : 0 <= Py.len l.
Proof. unfold Py.len. lia. Qed.

Lemma determine_severity_bucket vs :
  In (determine_severity vs) ["critical"; "medium"; "low"].
Proof.
  unfold determine_severity.
  repeat match goal with |- context [if ?b then _ else _] => destruct b end;
    simpl; auto.
Qed.

Lemma lowercase_needs_char api :
  any_violation (fun v => Str.contains "lowercase" (rule_of v)) (found init api) = true ->
  api <> EmptyString.
Proof. intros H ->. vm_compute in H. discriminate. Qed.

Lemma recommendation_total api :
  exists s, generate_recommendation api (found init api) = Ok s.
Proof.
  unfold generate_recommendation.
  destruct (any_violation _ (found init api)) eqn:E.
  - apply lowercase_needs_char in E. destruct api; [congruence|]. simpl; eauto.
  - repeat match goal with |- context [if ?b then _ else _] => destruct b end;
      simpl; eauto.
Qed.

Lemma analyze_field_partition self res f res' :
  analyze_field self res f = Ok res' ->
  compliant_field_count res' + Py.len (violations res') =
    compliant_field_count res + Py.len (violations res) + 1 /\
  total_field_count res' = total_field_count res.
Proof.
  unfold analyze_field.
  destruct (rule_violations self (api_name_of f) ++ loan_violations self (api_name_of f))%list.
  - intros [= <-]; simpl. lia.
  - intros H. apply bind_ok in H as (s & _ & H). apply bind_ok in H as (d & _ & H).
    injection H as <-. simpl. rewrite len_app, len_cons. unfold Py.len; simpl. lia.
Qed.

Lemma fields_loop_partition self fields : forall res res',
  Py.for_each (analyze_field self) fields res = Ok res' ->
  compliant_field_count res' + Py.len (violations res') =
    compliant_field_count res + Py.len (violations res) + Py.len fields /\
  total_field_count res' = total_field_count res.
Proof.
  induction fields as [|f fields IH]; simpl; intros res res' H.
  - injection H as <-. unfold Py.len; simpl. lia.
  - apply bind_ok in H as (r1 & H1 & H2).
    apply analyze_field_partition in H1 as [? ?].
    apply IH in H2 as [? ?]. rewrite len_cons. split; lia.
Qed.

Lemma analyze_field_init res f :
  map fst (by_severity res) = severity_keys ->
  exists res',
    analyze_field init res f = Ok res' /\
    map fst (by_severity res') = severity_keys /\
    compliant_field_count res' = compliant_field_count res.
Proof.
  intros Hk. unfold analyze_field.
  pose proof (init_always_violates (api_name_of f)) as Hne.
  pose proof (recommendation_total (api_name_of f)) as [s Hs]. unfold found in Hs.
  destruct (rule_violations init (api_name_of f) ++ loan_violations init (api_name_of f))%list
    as [|v vs] eqn:E.
  - apply app_eq_nil in E as [E _]. contradiction.
  - rewrite Hs. simpl bind.
    edestruct (dict_append_ok (by_severity res) (determine_severity (v :: vs))) as (d & -> & Hd).
    + rewrite Hk. apply determine_severity_bucket.
    + simpl. eexists; split; [reflexivity|]. simpl. split; [congruence|reflexivity].
Qed.

Lemma fields_loop_init fields : forall res,
  map fst (by_severity res) = severity_keys ->
  exists res',
    Py.for_each (analyze_field init) fields res = Ok res' /\
    compliant_field_count res' = compliant_field_count res.
Proof.
  induction fields as [|f fields IH]; simpl; intros res Hk; [eauto|].
  destruct (analyze_field_init res f Hk) as (r1 & -> & Hk1 & Hc1). simpl.
  destruct (IH r1 Hk1) as (r2 & -> & Hc2). eexists; split; [reflexivity|congruence].
Qed.

Lemma recommendation_returns api vs :
  (api = EmptyString ->
   any_violation (fun v => Str.contains "lowercase" (rule_of v)) vs = false) ->
  exists s, generate_recommendation api vs = Ok s.
Proof.
  intros H. unfold generate_recommendation.
  destruct (any_violation (fun v => Str.contains "lowercase" (rule_of v)) vs) eqn:E.
  - destruct api as [|c api]; [discriminate (H eq_refl)|]. cbn [bind]. eauto.
  - repeat match goal with |- context [if ?b then _ else _] => destruct b end;
      cbn [bind]; eauto.
Qed.

Lemma recommendable_cases self fields :
  self = init \/ (forall f, In f fields -> api_name_of f <> EmptyString) ->
  forall f, In f fields -> recommendable self f.
Proof.
  intros [->|H] f Hin Hempty.
  - destruct (any_violation _ (found init (api_name_of f))) eqn:E; [|reflexivity].
    apply lowercase_needs_char in E. contradiction.
  - contradiction (H f Hin).
Qed.

Lemma analyze_field_classifies self res f :
  map fst (by_severity res) = severity_keys -> recommendable self f ->
  exists res' es,
    analyze_field self res f = Ok res' /\
    map fst (by_severity res') = severity_keys /\
    total_field_count res' = total_field_count res /\
    violations res' = (violations res ++ es)%list /\
    Forall2 (reports self) (filter (violates self) [f]) es /\
    compliant_field_count res' =
      compliant_field_count res +
      Py.len (filter (fun f => negb (violates self f)) [f]).
Proof.
  intros Hk Hrec. unfold analyze_field, violates, found. cbn [filter].
  destruct (recommendation_returns (api_name_of f) (found self (api_name_of f)) Hrec)
    as [s Hs]. unfold found in Hs.
  destruct (rule_violations self (api_name_of f) ++ loan_violations self (api_name_of f))%list
    as [|v vs] eqn:E.
  - exists {| violations := violations res;
              compliant_field_count := compliant_field_count res + 1;
              total_field_count := total_field_count res;
              by_severity := by_severity res;
              compliance_percentage := compliance_percentage res |}, [].
    cbn [negb violations compliant_field_count total_field_count by_severity].
    rewrite app_nil_r. repeat split; try assumption; constructor.
  - rewrite Hs. cbn [bind].
    destruct (dict_append_ok (by_severity res) (determine_severity (v :: vs))
                {| apiName := api_name_of f;
                   label := Py.get (field_label f) EmptyString;
                   type_ := Py.get (field_type f) EmptyString;
                   violations_of := v :: vs;
                   recommended_fix := s |}) as (d & Hd & Hkd).
    { rewrite Hk. apply determine_severity_bucket. }
    rewrite Hd. cbn [bind]. eexists. eexists. split; [reflexivity|].
    cbn [negb violations compliant_field_count total_field_count by_severity].
    split; [congruence|]. split; [reflexivity|]. split; [reflexivity|]. split.
    + constructor; [|constructor]. unfold reports, found.
      cbn [apiName label type_ violations_of recommended_fix]. rewrite E.
      repeat split. exact Hs.
    + change (Py.len (@nil field)) with 0. lia.
Qed.

Lemma fields_loop_classifies self fields : forall res,
  map fst (by_severity res) = severity_keys ->
  (forall f, In f fields -> recommendable self f) ->
  exists res' es,
    Py.for_each (analyze_field self) fields res = Ok res' /\
    total_field_count res' = total_field_count res /\
    violations res' = (violations res ++ es)%list /\
    Forall2 (reports self) (filter (violates self) fields) es /\
    compliant_field_count res' =
      compliant_field_count res +
      Py.len (filter (fun f => negb (violates self f)) fields).
Proof.
  induction fields as [|f fields IH]; intros res Hk Hrec; cbn [Py.for_each].
  - exists res, []. rewrite app_nil_r. cbn [filter].
    change (Py.len (@nil field)) with 0. repeat split; try constructor. lia.
  - destruct (analyze_field_classifies self res f Hk (Hrec f (or_introl eq_refl)))
      as (r1 & e1 & H1 & Hk1 & Ht1 & Hv1 & Hf1 & Hc1).
    rewrite H1. cbn [bind].
    destruct (IH r1 Hk1 (fun g Hg => Hrec g (or_intror Hg)))
      as (r2 & e2 & H2 & Ht2 & Hv2 & Hf2 & Hc2).
    exists r2, (e1 ++ e2)%list. split; [exact H2|]. split; [congruence|].
    split; [rewrite Hv2, Hv1, <- app_assoc; reflexivity|]. split.
    + change (f :: fields) with ([f] ++ fields)%list. rewrite filter_app.
      now apply Forall2_app.
    + rewrite Hc2, Hc1. change (f :: fields) with ([f] ++ fields)%list.
      rewrite (filter_app _ [f] fields), len_app. lia.
Qed.

Lemma filter_partition_len {A} (p : A -> bool) l :
  Py.len (filter p l) + Py.len (filter (fun a => negb (p a)) l) = Py.len l.
Proof.
  induction l as [|a l IH]; [reflexivity|]. cbn [filter].
  destruct (p a); cbn [negb]; rewrite !len_cons; lia.
Qed.

End NamingFacts.

(** ** Magnitudes of binary64 results *)

Lemma digits2_size p : digits2_pos p = Pos.size p.
Proof. induction p; simpl; congruence. Qed.

Lemma Zdigits2_pos_log2 p : Zdigits2 (Zpos p) = Z.log2 (Zpos p) + 1.
Proof. simpl. rewrite digits2_size. destruct p; simpl; lia. Qed.

Lemma Zdigits2_nonneg m : 0 <= Zdigits2 m.
Proof. destruct m; simpl; lia. Qed.

Lemma Zdigits2_pos_ge1 p : 1 <= Zdigits2 (Zpos p).
Proof. simpl; lia. Qed.

Lemma Zdigits2_lt_pow m k : 0 <= m -> 0 <= k -> m < 2 ^ k -> Zdigits2 m <= k.
Proof.
  intros Hm Hk Hlt. destruct m as [|p|p]; [simpl; lia| |lia].
  rewrite Zdigits2_pos_log2.
  assert (Z.log2 (Zpos p) < k) by (apply Z.log2_lt_pow2; lia). lia.
Qed.

Lemma Zdigits2_bound m : 0 <= m -> m < 2 ^ Zdigits2 m.
Proof.
  intros Hm. destruct m as [|p|p]; [simpl; lia| |lia].
  rewrite Zdigits2_pos_log2.
  pose proof (Z.log2_spec (Zpos p) ltac:(lia)). rewrite Z.add_1_r. lia.
Qed.

Lemma Zdigits2_mono a b : 0 <= a <= b -> Zdigits2 a <= Zdigits2 b.
Proof.
  intros [Ha Hab]. apply Zdigits2_lt_pow; [lia|apply Zdigits2_nonneg|].
  pose proof (Zdigits2_bound b ltac:(lia)). lia.
Qed.

Lemma Zdigits2_shiftr m k :
  0 <= m -> 0 <= k -> Zdigits2 (Z.shiftr m k) = Z.max 0 (Zdigits2 m - k).
Proof.
  intros Hm Hk. destruct m as [|p|p]; [rewrite Z.shiftr_0_l; simpl; lia| |lia].
  pose proof (Z.shiftr_nonneg (Zpos p) k) as Hn.
  destruct (Z.shiftr (Zpos p) k) as [|q|q] eqn:E; [| |lia].
  - rewrite Z.shiftr_div_pow2 in E by lia.
    assert (Zpos p < 2 ^ k).
    { apply Z.div_small_iff in E; lia. }
    pose proof (Zdigits2_lt_pow (Zpos p) k ltac:(lia) Hk H).
    change (Zdigits2 0) with 0. lia.
  - rewrite <- E.
    assert (HE : Zdigits2 (Z.shiftr (Zpos p) k) = Z.log2 (Z.shiftr (Zpos p) k) + 1)
      by (rewrite E; apply Zdigits2_pos_log2).
    rewrite HE, Z.log2_shiftr by lia. rewrite Zdigits2_pos_log2.
    assert (k <= Z.log2 (Zpos p)).
    { apply Z.log2_le_pow2; [lia|]. rewrite Z.shiftr_div_pow2 in E by lia.
      assert (0 < 2 ^ k) by (apply Z.pow_pos_nonneg; lia).
      destruct (Z_lt_le_dec (Zpos p) (2 ^ k)); [|lia].
      rewrite Z.div_small in E by lia. discriminate. }
    lia.
Qed.

Lemma Zdigits2_succ a : 0 <= a -> Zdigits2 (a + 1) <= Zdigits2 a + 1.
Proof.
  intros Ha. apply Zdigits2_lt_pow; [lia|pose proof (Zdigits2_nonneg a); lia|].
  pose proof (Zdigits2_bound a Ha). pose proof (Zdigits2_nonneg a).
  rewrite Z.pow_add_r by lia. lia.
Qed.

Lemma Zdigits2_mul a b :
  0 <= a -> 0 <= b -> Zdigits2 (a * b) <= Zdigits2 a + Zdigits2 b.
Proof.
  intros Ha Hb. pose proof (Zdigits2_nonneg a). pose proof (Zdigits2_nonneg b).
  apply Zdigits2_lt_pow; [nia|lia|].
  pose proof (Zdigits2_bound a Ha). pose proof (Zdigits2_bound b Hb).
  rewrite Z.pow_add_r by lia. nia.
Qed.

(** Right shifts of a rounding record. *)
Lemma shr_1_m r : 0 <= shr_m r -> shr_m (shr_1 r) = Z.shiftr (shr_m r) 1.
Proof.
  destruct r as [m b c]; simpl. rewrite <- Z.div2_spec.
  destruct m as [|[p|p|]|p]; simpl; intros; try reflexivity; lia.
Qed.

Lemma iter_shr_m p : forall r,
  0 <= shr_m r -> shr_m (iter_pos shr_1 p r) = Z.shiftr (shr_m r) (Zpos p).
Proof.
  assert (Hs : forall r, 0 <= shr_m r -> 0 <= shr_m (shr_1 r)).
  { intros r H. rewrite shr_1_m by assumption. apply Z.shiftr_nonneg; assumption. }
  induction p as [p IH|p IH|]; intros r Hr; simpl.
  - rewrite IH.
    + rewrite IH by (apply Hs; assumption). rewrite shr_1_m by assumption.
      rewrite !Z.shiftr_shiftr by lia. f_equal. lia.
    + rewrite IH by (apply Hs; assumption). apply Z.shiftr_nonneg. apply Hs; assumption.
  - rewrite IH.
    + rewrite IH by assumption. rewrite Z.shiftr_shiftr by lia. f_equal. lia.
    + rewrite IH by assumption. apply Z.shiftr_nonneg; assumption.
  - apply shr_1_m; assumption.
Qed.

Lemma shr_record_of_loc_m m l : shr_m (shr_record_of_loc m l) = m.
Proof. destruct l as [|[]]; reflexivity. Qed.

Lemma shr_fexp_m m e l r e' :
  0 <= m ->
  shr_fexp Num.prec Num.emax m e l = (r, e') ->
  let k := Z.max 0 (fexp Num.prec Num.emax (Zdigits2 m + e) - e) in
  shr_m r = Z.shiftr m k /\ e' = e + k.
Proof.
  intros Hm. unfold shr_fexp, shr.
  destruct (fexp Num.prec Num.emax (Zdigits2 m + e) - e) as [|p|p] eqn:E;
    intros [= <- <-]; cbn zeta.
  - rewrite shr_record_of_loc_m. simpl. rewrite Z.shiftr_0_r. lia.
  - rewrite iter_shr_m by (rewrite shr_record_of_loc_m; assumption).
    rewrite shr_record_of_loc_m. rewrite Z.max_r by lia. split; lia.
  - rewrite shr_record_of_loc_m. rewrite Z.max_l by lia. rewrite Z.shiftr_0_r. lia.
Qed.

Lemma round_nearest_even_bounds m l :
  m <= round_nearest_even m l <= m + 1.
Proof.
  destruct l as [|[]]; simpl; try lia. destruct (Z.even m); lia.
Qed.

Lemma fexp_eq e : fexp Num.prec Num.emax e = Z.max (e - 53) (-1074).
Proof. reflexivity. Qed.

Lemma binary_round_aux_bounded s mx ex lx E M :
  0 <= mx ->
  Z.max ex (fexp Num.prec Num.emax (Zdigits2 mx + ex + 1)) <= E ->
  E <= Num.emax - Num.prec ->
  Z.max (Zdigits2 mx + ex + 1) (-1073) <= M ->
  bounded_by E M (binary_round_aux Num.prec Num.emax s mx ex lx).
Proof.
  intros Hm HE HEmax HM. unfold binary_round_aux.
  destruct (shr_fexp Num.prec Num.emax mx ex lx) as [r1 e1] eqn:H1.
  apply shr_fexp_m in H1 as [Hr1 He1]; [|assumption].
  set (k1 := Z.max 0 (fexp Num.prec Num.emax (Zdigits2 mx + ex) - ex)) in *.
  set (m1 := round_nearest_even (shr_m r1) (loc_of_shr_record r1)).
  assert (Hm1 : shr_m r1 <= m1 <= shr_m r1 + 1) by apply round_nearest_even_bounds.
  assert (Hr1n : 0 <= shr_m r1) by (rewrite Hr1; apply Z.shiftr_nonneg; assumption).
  destruct (shr_fexp Num.prec Num.emax m1 e1 loc_Exact) as [r2 e2] eqn:H2.
  apply shr_fexp_m in H2 as [Hr2 He2]; [|lia].
  set (k2 := Z.max 0 (fexp Num.prec Num.emax (Zdigits2 m1 + e1) - e1)) in *.
  assert (Hd1 : Zdigits2 (shr_m r1) = Z.max 0 (Zdigits2 mx - k1)).
  { rewrite Hr1. apply Zdigits2_shiftr; [assumption|subst k1; lia]. }
  assert (Hdm1 : Zdigits2 m1 <= Zdigits2 (shr_m r1) + 1).
  { etransitivity; [apply (Zdigits2_mono m1 (shr_m r1 + 1)); lia|].
    apply Zdigits2_succ; assumption. }
  assert (Hd2 : Zdigits2 (shr_m r2) = Z.max 0 (Zdigits2 m1 - k2)).
  { rewrite Hr2. apply Zdigits2_shiftr; [lia|subst k2; lia]. }
  pose proof (Zdigits2_nonneg mx) as Hd0.
  pose proof (Zdigits2_nonneg m1) as Hd0'.
  assert (Hr2n : 0 <= shr_m r2) by (rewrite Hr2; apply Z.shiftr_nonneg; lia).
  subst k1 k2. rewrite !fexp_eq in *. unfold Num.emax, Num.prec in *.
  destruct (shr_m r2) as [|m|m] eqn:Em; [exact I| |lia].
  pose proof (Zdigits2_pos_ge1 m) as Hge.
  assert (He2E : e2 <= E) by lia.
  replace (e2 <=? 1024 - 53) with true by (symmetry; apply Z.leb_le; lia).
  cbv beta iota delta [bounded_by]. split; [assumption|]. lia.
Qed.

Lemma bounded_by_weaken E M E' M' x :
  bounded_by E M x -> E <= E' -> M <= M' -> bounded_by E' M' x.
Proof. destruct x; simpl; intros; try tauto; lia. Qed.

Lemma iter_xO m d : Zpos (Pos.iter xO m d) = Zpos m * 2 ^ Zpos d.
Proof.
  induction d as [|d IH] using Pos.peano_ind.
  - simpl Pos.iter. rewrite Pos2Z.inj_xO, Z.pow_1_r. lia.
  - rewrite Pos.iter_succ, Pos2Z.inj_xO, IH, Pos2Z.inj_succ, Z.pow_succ_r by lia. lia.
Qed.

Lemma Zdigits2_mul_pow2 m k :
  0 < m -> 0 <= k -> Zdigits2 (m * 2 ^ k) = Zdigits2 m + k.
Proof.
  intros Hm Hk. destruct m as [|p|p]; try lia.
  assert (0 < 2 ^ k) by (apply Z.pow_pos_nonneg; lia).
  destruct (Zpos p * 2 ^ k) as [|q|q] eqn:E; try lia.
  rewrite !Zdigits2_pos_log2, <- E, <- Z.shiftl_mul_pow2, Z.log2_shiftl by lia. lia.
Qed.

Lemma shl_align_spec mx ex ex' mz ez :
  shl_align mx ex ex' = (mz, ez) ->
  ez = Z.min ex ex' /\ Zdigits2 (Zpos mz) + ez = Zdigits2 (Zpos mx) + ex /\
  Zpos mz = Zpos mx * 2 ^ (ex - ez).
Proof.
  unfold shl_align. destruct (ex' - ex) as [|d|d] eqn:E; intros [= <- <-].
  - rewrite Z.min_l by lia. rewrite Z.sub_diag. split; [|split]; lia.
  - rewrite Z.min_l by lia. rewrite Z.sub_diag. split; [|split]; lia.
  - rewrite iter_xO. rewrite Z.min_r by lia.
    replace (ex - ex') with (Zpos d) by lia.
    rewrite Zdigits2_mul_pow2 by lia. split; [|split]; lia.
Qed.

Lemma binary_round_bounded s m e E M :
  fexp Num.prec Num.emax (Zdigits2 (Zpos m) + e + 1) <= E ->
  E <= Num.emax - Num.prec ->
  Z.max (Zdigits2 (Zpos m) + e + 1) (-1073) <= M ->
  bounded_by E M (binary_round Num.prec Num.emax s m e).
Proof.
  intros HE HEmax HM. unfold binary_round.
  change (Z.pos (digits2_pos m)) with (Zdigits2 (Zpos m)).
  destruct (shl_align m e _) as [mz ez] eqn:Ha.
  apply shl_align_spec in Ha as (Hez & Hd & _).
  apply binary_round_aux_bounded; try lia.
  rewrite Hd. rewrite !fexp_eq in *. lia.
Qed.

Lemma binary_normalize_bounded v e E M :
  fexp Num.prec Num.emax (Zdigits2 v + e + 1) <= E ->
  E <= Num.emax - Num.prec ->
  Z.max (Zdigits2 v + e + 1) (-1073) <= M ->
  bounded_by E M (binary_normalize Num.prec Num.emax v e false).
Proof.
  intros. destruct v; simpl binary_normalize; [exact I| |];
    apply binary_round_bounded; assumption.
Qed.

Lemma SFmul_bounded x y Ex Mx Ey My E M :
  bounded_by Ex Mx x -> bounded_by Ey My y ->
  Z.max (Ex + Ey) (fexp Num.prec Num.emax (Mx + My + 1)) <= E ->
  E <= Num.emax - Num.prec ->
  Z.max (Mx + My + 1) (-1073) <= M ->
  bounded_by E M (SFmul Num.prec Num.emax x y).
Proof.
  intros Hx Hy HE HEmax HM.
  destruct x as [sx|sx| |sx mx ex], y as [sy|sy| |sy my ey]; cbn [bounded_by] in Hx, Hy; try tauto;
    try exact I.
  unfold SFmul. rewrite fexp_eq in HE.
  pose proof (Zdigits2_mul (Zpos mx) (Zpos my) ltac:(lia) ltac:(lia)) as Hd.
  change (Z.pos (digits2_pos mx)) with (Zdigits2 (Zpos mx)) in *.
  change (Z.pos (digits2_pos my)) with (Zdigits2 (Zpos my)) in *.
  apply binary_round_aux_bounded; rewrite ?fexp_eq; change (Z.pos (mx * my)) with (Zpos mx * Zpos my); lia.
Qed.

Lemma Zdigits2_opp v : Zdigits2 (- v) = Zdigits2 v.
Proof. destruct v; reflexivity. Qed.

Lemma Zdigits2_abs v : Zdigits2 (Z.abs v) = Zdigits2 v.
Proof. destruct v; reflexivity. Qed.

Lemma Zdigits2_sum a b v :
  0 <= a -> 0 <= b -> Z.abs v <= a + b ->
  Zdigits2 v <= Z.max (Zdigits2 a) (Zdigits2 b) + 1.
Proof.
  intros Ha Hb Hv. rewrite <- Zdigits2_abs.
  pose proof (Zdigits2_nonneg a). pose proof (Zdigits2_nonneg b).
  apply Zdigits2_lt_pow; [lia|lia|].
  pose proof (Zdigits2_bound a Ha). pose proof (Zdigits2_bound b Hb).
  assert (2 ^ Zdigits2 a <= 2 ^ Z.max (Zdigits2 a) (Zdigits2 b))
    by (apply Z.pow_le_mono_r; lia).
  assert (2 ^ Zdigits2 b <= 2 ^ Z.max (Zdigits2 a) (Zdigits2 b))
    by (apply Z.pow_le_mono_r; lia).
  rewrite Z.pow_add_r by lia. lia.
Qed.

Lemma aligned_sum_bounded (op : Z -> Z -> Z) sx mx ex sy my ey Mx My E M :
  (forall a b, Z.abs (op a b) <= Z.abs a + Z.abs b) ->
  Zdigits2 (Zpos mx) + ex <= Mx ->
  Zdigits2 (Zpos my) + ey <= My ->
  fexp Num.prec Num.emax (Z.max Mx My + 2) <= E ->
  E <= Num.emax - Num.prec ->
  Z.max (Z.max Mx My + 2) (-1073) <= M ->
  bounded_by E M
    (binary_normalize Num.prec Num.emax
       (op (cond_Zopp sx (Zpos (fst (shl_align mx ex (Z.min ex ey)))))
           (cond_Zopp sy (Zpos (fst (shl_align my ey (Z.min ex ey))))))
       (Z.min ex ey) false).
Proof.
  intros Hop Hx Hy HE HEmax HM.
  destruct (shl_align mx ex (Z.min ex ey)) as [ax ez1] eqn:H1.
  destruct (shl_align my ey (Z.min ex ey)) as [ay ez2] eqn:H2.
  apply shl_align_spec in H1 as (Hz1 & Hd1 & _).
  apply shl_align_spec in H2 as (Hz2 & Hd2 & _).
  simpl fst.
  set (v := op _ _).
  assert (Hv : Zdigits2 v <= Z.max (Zdigits2 (Zpos ax)) (Zdigits2 (Zpos ay)) + 1).
  { apply Zdigits2_sum; try lia. subst v. etransitivity; [apply Hop|].
    destruct sx, sy; simpl; lia. }
  rewrite fexp_eq in HE.
  apply binary_normalize_bounded; rewrite ?fexp_eq; lia.
Qed.

Lemma SFadd_bounded x y Ex Mx Ey My E M :
  bounded_by Ex Mx x -> bounded_by Ey My y ->
  Z.max (Z.max Ex Ey) (fexp Num.prec Num.emax (Z.max Mx My + 2)) <= E ->
  E <= Num.emax - Num.prec ->
  Z.max (Z.max Mx My + 2) (-1073) <= M ->
  bounded_by E M (SFadd Num.prec Num.emax x y).
Proof.
  intros Hx Hy HE HEmax HM.
  destruct x as [sx|sx| |sx mx ex], y as [sy|sy| |sy my ey]; cbn [bounded_by] in Hx, Hy; try tauto.
  - cbn [SFadd SFsub bounded_by]. destruct sx, sy; exact I.
  - cbn [SFadd SFsub bounded_by]. split; lia.
  - cbn [SFadd SFsub bounded_by]. split; lia.
  - unfold SFadd. apply (aligned_sum_bounded Z.add) with (Mx := Mx) (My := My); try lia.
Qed.

Lemma SFsub_bounded x y Ex Mx Ey My E M :
  bounded_by Ex Mx x -> bounded_by Ey My y ->
  Z.max (Z.max Ex Ey) (fexp Num.prec Num.emax (Z.max Mx My + 2)) <= E ->
  E <= Num.emax - Num.prec ->
  Z.max (Z.max Mx My + 2) (-1073) <= M ->
  bounded_by E M (SFsub Num.prec Num.emax x y).
Proof.
  intros Hx Hy HE HEmax HM.
  destruct x as [sx|sx| |sx mx ex], y as [sy|sy| |sy my ey]; cbn [bounded_by] in Hx, Hy; try tauto.
  - cbn [SFadd SFsub bounded_by]. destruct sx, sy; exact I.
  - cbn [SFadd SFsub bounded_by]. split; lia.
  - cbn [SFadd SFsub bounded_by]. split; lia.
  - unfold SFsub. apply (aligned_sum_bounded Z.sub) with (Mx := Mx) (My := My); try lia.
Qed.

Lemma finite_or_overflow_ok E M f :
  bounded_by E M f -> Num.finite_or_overflow f = Ok f.
Proof. destruct f; simpl; tauto. Qed.

Lemma round_ok E M f : bounded_by E M f -> exists z, Num.round (Num.Float f) = Ok z.
Proof. destruct f; simpl; try tauto; eauto. Qed.

Lemma float_of_int_bounded z k :
  0 <= k -> Z.abs z < 2 ^ k -> k + 1 <= Num.emax ->
  exists f, Num.float_of_int z = Ok f /\
            bounded_by (fexp Num.prec Num.emax (k + 1)) (Z.max (k + 1) (-1073)) f.
Proof.
  intros Hk Hz Hmax. unfold Num.float_of_int.
  assert (Hd : Zdigits2 z <= k).
  { rewrite <- Zdigits2_abs. apply Zdigits2_lt_pow; lia. }
  assert (Hb : bounded_by (fexp Num.prec Num.emax (k + 1)) (Z.max (k + 1) (-1073))
                 (binary_normalize Num.prec Num.emax z 0 false)).
  { apply binary_normalize_bounded; rewrite ?fexp_eq; unfold Num.emax, Num.prec in *; lia. }
  rewrite (finite_or_overflow_ok _ _ _ Hb). eauto.
Qed.

Lemma div_eucl_fst a b : fst (Z.div_eucl a b) = a / b.
Proof. unfold Z.div. destruct (Z.div_eucl a b); reflexivity. Qed.

(** The quotient of two ints, the first not above the second. *)
Lemma int_truediv_bounded c t :
  0 <= c <= t -> 0 < t ->
  exists f, Num.int_truediv c t = Ok f /\ bounded_by 0 2 f.
Proof.
  intros Hc Ht. unfold Num.int_truediv.
  replace (t =? 0) with false by (symmetry; apply Z.eqb_neq; lia).
  assert (Hb : bounded_by 0 2
            (SFdiv Num.prec Num.emax (Num.exact_of_Z c) (Num.exact_of_Z t))).
  { destruct t as [|pt|pt]; try lia. destruct c as [|pc|pc]; try lia; [exact I|].
    cbn [Num.exact_of_Z SFdiv].
    unfold SFdiv_core_binary.
    set (e' := Z.min (fexp Num.prec Num.emax
                        (Zdigits2 (Zpos pc) + 0 - (Zdigits2 (Zpos pt) + 0))) (0 - 0)).
    assert (He' : e' <= 0) by (subst e'; lia).
    set (m' := match 0 - 0 - e' with
               | 0 => Zpos pc | Zpos _ => Z.shiftl (Zpos pc) (0 - 0 - e') | Zneg _ => 0 end).
    assert (Hm' : m' = Zpos pc * 2 ^ (- e')).
    { subst m'. destruct (0 - 0 - e') as [|s|s] eqn:Es; try lia.
      - replace (- e') with 0 by lia. lia.
      - rewrite Z.shiftl_mul_pow2 by lia. f_equal. f_equal. lia. }
    destruct (Z.div_eucl m' (Zpos pt)) as [q r] eqn:Ed.
    assert (Hq : q = m' / Zpos pt) by (rewrite <- div_eucl_fst, Ed; reflexivity).
    assert (Hp : 0 < 2 ^ (- e')) by (apply Z.pow_pos_nonneg; lia).
    assert (Hq0 : 0 <= q) by (subst q; apply Z.div_pos; nia).
    assert (Hq1 : q <= 2 ^ (- e')).
    { subst q. apply Z.div_le_upper_bound; [lia|]. rewrite Hm'. nia. }
    assert (Hd : Zdigits2 q <= - e' + 1).
    { apply Zdigits2_lt_pow; try lia. rewrite Z.pow_add_r by lia. lia. }
    pose proof (Zdigits2_nonneg q).
    apply binary_round_aux_bounded; rewrite ?fexp_eq; unfold Num.emax, Num.prec; lia. }
  rewrite (finite_or_overflow_ok _ _ _ Hb). eauto.
Qed.

Lemma float_of_int_100 : Num.float_of_int 100 = Ok float_100.
Proof. reflexivity. Qed.

(** [round((part / whole) * 100)] returns. *)
Lemma percentage_total part whole :
  0 <= part <= whole -> 0 < whole ->
  exists p,
    (ratio <- Num.truediv (Num.Int part) (Num.Int whole) ;;
     scaled <- Num.mul ratio (Num.Int 100) ;;
     Num.round scaled) = Ok p.
Proof.
  intros Hp Hw.
  destruct (int_truediv_bounded part whole Hp Hw) as (f & Hf & Bf).
  cbn [Num.truediv]. rewrite Hf. cbn [bind Num.mul Num.to_float].
  rewrite float_of_int_100. cbn [bind].
  eapply round_ok.
  eapply (SFmul_bounded _ _ 0 2 (-46) 7 _ _ Bf).
  - cbn; lia.
  - rewrite fexp_eq. reflexivity.
  - unfold Num.emax, Num.prec; lia.
  - reflexivity.
Qed.

Lemma int_float_bounded z k :
  0 <= z < 2 ^ k -> 0 <= k <= 1000 ->
  exists f, Num.to_float (Num.Int z) = Ok f /\
            bounded_by (Z.max (k - 52) (-1074)) (k + 1) f.
Proof.
  intros Hz Hk. destruct (float_of_int_bounded z k) as (f & Hf & Bf);
    [lia|lia|unfold Num.emax; lia|].
  exists f; split; [exact Hf|].
  eapply bounded_by_weaken; [exact Bf|rewrite fexp_eq; lia|lia].
Qed.

(** The arithmetic of [calculate_security_score] returns, and its value
    is clamped. *)
Lemma score_arithmetic_total part whole high medium :
  0 <= part <= whole -> 0 < whole ->
  0 <= high <= Num.maxsize -> 0 <= medium <= Num.maxsize ->
  exists s,
    (score <-
       (ratio <- Num.truediv (Num.Int part) (Num.Int whole) ;;
        bypass_percentage_ <- Num.mul ratio (Num.Int 100) ;;
        deduction <- Num.mul bypass_percentage_ (Num.Float Num.lit_0_3) ;;
        Num.sub (Num.Int 100) deduction) ;;
     score <- Num.sub score (Num.Int (high * 5)) ;;
     score <- Num.sub score (Num.Int (medium * 2)) ;;
     rounded <- Num.round score ;;
     Ok (Z.max 0 (Z.min 100 rounded))) = Ok s /\ 0 <= s <= 100.
Proof.
  intros Hp Hw Hh Hm. unfold Num.maxsize in *.
  destruct (int_truediv_bounded part whole Hp Hw) as (f & Hf & Bf).
  destruct (int_float_bounded (high * 5) 66) as (fh & Hfh & Bh); [lia|lia|].
  destruct (int_float_bounded (medium * 2) 66) as (fm & Hfm & Bm); [lia|lia|].
  cbn [Num.to_float] in Hfh, Hfm.
  cbn [Num.truediv]. rewrite Hf.
  cbn [bind Num.mul Num.sub Num.to_float]. rewrite !float_of_int_100.
  cbn [bind Num.mul Num.sub Num.to_float]. rewrite Hfh.
  cbn [bind Num.mul Num.sub Num.to_float]. rewrite Hfm.
  cbn [bind Num.mul Num.sub Num.to_float].
  set (x1 := SFmul Num.prec Num.emax f float_100).
  assert (B1 : bounded_by (-43) 10 x1).
  { eapply (SFmul_bounded _ _ 0 2 (-46) 7 _ _ Bf); rewrite ?fexp_eq;
      unfold Num.emax, Num.prec; cbn; lia. }
  set (x2 := SFmul Num.prec Num.emax x1 Num.lit_0_3).
  assert (B2 : bounded_by (-43) 10 x2).
  { eapply (SFmul_bounded _ _ (-43) 10 (-54) (-1) _ _ B1); rewrite ?fexp_eq;
      unfold Num.emax, Num.prec; cbn; lia. }
  set (x3 := SFsub Num.prec Num.emax float_100 x2).
  assert (B3 : bounded_by (-41) 12 x3).
  { eapply (SFsub_bounded _ _ (-46) 7 (-43) 10); [cbn; lia|exact B2|..]; rewrite ?fexp_eq;
      unfold Num.emax, Num.prec; lia. }
  set (x4 := SFsub Num.prec Num.emax x3 fh).
  assert (B4 : bounded_by 16 69 x4).
  { eapply (SFsub_bounded _ _ _ _ _ _ _ _ B3 Bh); rewrite ?fexp_eq;
      unfold Num.emax, Num.prec; lia. }
  set (x5 := SFsub Num.prec Num.emax x4 fm).
  assert (B5 : bounded_by 18 71 x5).
  { eapply (SFsub_bounded _ _ _ _ _ _ _ _ B4 Bm); rewrite ?fexp_eq;
      unfold Num.emax, Num.prec; lia. }
  destruct (round_ok _ _ _ B5) as [z ->]. cbn [bind].
  eexists; split; [reflexivity|lia].
Qed.

(** ** The bypass analysis *)

Section BypassFacts.
Import Bypass.

Lemma dict_get_set_same {V} (d : Py.dict V) k v :
  In k (map fst d) -> Py.dict_get (Py.dict_set d k v) k = Ok v.
Proof.
  induction d as [|[k' v'] d IH]; simpl; [tauto|].
  intros H. destruct (String.eqb_spec k' k) as [->|Hne]; simpl.
  - now rewrite String.eqb_refl.
  - destruct (String.eqb_spec k' k); [contradiction|]. apply IH. destruct H; tauto.
Qed.

Lemma dict_get_set_other {V} (d : Py.dict V) k k' v :
  k' <> k -> Py.dict_get (Py.dict_set d k v) k' = Py.dict_get d k'.
Proof.
  intros Hne. induction d as [|[k0 v0] d IH]; simpl.
  - destruct (String.eqb_spec k k'); congruence.
  - destruct (String.eqb_spec k0 k) as [->|]; simpl.
    + destruct (String.eqb_spec k k'); congruence.
    + destruct (String.eqb_spec k0 k'); auto.
Qed.

Lemma dict_append_spec (d : Py.dict (list string)) k x :
  In k (map fst d) ->
  exists d', Py.dict_append d k x = Ok d' /\ map fst d' = map fst d /\
    forall k', bucket_len d' k' = bucket_len d k' + (if String.eqb k' k then 1 else 0).
Proof.
  intros H. unfold Py.dict_append.
  destruct (dict_get_in d k H) as [l Hl]. rewrite Hl. simpl.
  eexists; split; [reflexivity|]. split; [now apply dict_set_keys|].
  intros k'. unfold bucket_len. destruct (String.eqb_spec k' k) as [->|Hne].
  - rewrite dict_get_set_same, Hl by assumption. rewrite len_app. reflexivity.
  - rewrite dict_get_set_other by assumption. lia.
Qed.

Lemma scan_spec catalog text ident :
  forall (found0 : list finding) (index0 : Py.dict (list string)),
  (forall p, In p catalog -> In (name p) (map fst index0)) ->
  exists index,
    Py.for_each (scan_step text ident) catalog (found0, index0)
    = Ok ((found0 ++ map finding_of (filter (is_hit text) catalog))%list, index) /\
    map fst index = map fst index0.
Proof.
  induction catalog as [|p catalog IH]; intros found0 index0 Hk;
    cbn [Py.for_each filter map].
  - rewrite app_nil_r. eauto.
  - unfold scan_step at 1. unfold is_hit at 1.
    destruct (Re.search (regex_ p) text).
    + destruct (dict_append_spec index0 (name p) ident) as (d & Hd1 & Hd & _);
        [apply Hk; now left|].
      rewrite Hd1. cbn [bind].
      destruct (IH (found0 ++ [finding_of p])%list d) as (index & Hi1 & Hi).
      { intros q Hq. rewrite Hd. apply Hk. now right. }
      exists index. split; [|congruence].
      etransitivity; [exact Hi1|]. cbn [map]. now rewrite <- app_assoc.
    + cbn [bind]. apply IH. intros q Hq. apply Hk. now right.
Qed.

Lemma any_finding_hits catalog text sev :
  any_finding (fun f => String.eqb (finding_severity f) sev)
    (map finding_of (filter (is_hit text) catalog)) = hit_with catalog sev text.
Proof.
  unfold any_finding, hit_with. induction catalog as [|p c IH]; simpl; [reflexivity|].
  destruct (is_hit text p); simpl; rewrite IH; reflexivity.
Qed.

Lemma highest_of_hits catalog text :
  determine_highest_severity (map finding_of (filter (is_hit text) catalog)) =
  if is_high catalog text then "High"
  else if is_medium catalog text then "Medium" else "Low".
Proof.
  unfold determine_highest_severity, is_medium, is_high.
  rewrite !any_finding_hits. destruct (hit_with catalog "High" text); reflexivity.
Qed.

Lemma hits_nil catalog text :
  filter (is_hit text) catalog = [] <-> is_flagged catalog text = false.
Proof.
  unfold is_flagged. induction catalog as [|p c IH]; simpl; [tauto|].
  destruct (is_hit text p); simpl; [split; discriminate|exact IH].
Qed.

Lemma high_is_flagged catalog text :
  is_high catalog text = true -> is_flagged catalog text = true.
Proof.
  unfold is_high, hit_with, is_flagged. rewrite !existsb_exists.
  intros (p & Hp & H). apply andb_prop in H as [H _]. eauto.
Qed.

Lemma medium_is_flagged catalog text :
  is_medium catalog text = true -> is_flagged catalog text = true.
Proof.
  unfold is_medium, hit_with, is_flagged. intros H. apply andb_prop in H as [_ H].
  rewrite existsb_exists in *. destruct H as (p & Hp & H).
  apply andb_prop in H as [H _]. eauto.
Qed.

Lemma count_cons {A} (p : A -> bool) a l : count p (a :: l) = one_if (p a) + count p l.
Proof.
  unfold count, one_if. cbn [filter]. destruct (p a); [rewrite len_cons|]; lia.
Qed.

Lemma count_bounds {A} (p : A -> bool) l : 0 <= count p l <= Py.len l.
Proof.
  unfold count, Py.len. pose proof (filter_length_le p l). lia.
Qed.

Lemma count_le {A} (p q : A -> bool) l :
  (forall a, p a = true -> q a = true) -> count p l <= count q l.
Proof.
  intros H. induction l as [|a l IH]; [reflexivity|].
  rewrite !count_cons. unfold one_if. specialize (H a).
  destruct (p a), (q a); try lia; discriminate H; reflexivity.
Qed.

Section Loop.
Context {A : Type}.
Variable catalog : list bypass_pattern.
Variables text_of ident_of : A -> string.
Variable item_of : A -> list finding -> item.
Hypothesis item_severity :
  forall a fs, highest_severity (item_of a fs) = determine_highest_severity fs.

Let body := loop_body catalog text_of ident_of item_of.
Let flagged (a : A) := is_flagged catalog (text_of a).
Let high (a : A) := is_high catalog (text_of a).
Let medium (a : A) := is_medium catalog (text_of a).

Lemma loop_body_spec res a :
  well_keyed catalog res ->
  exists res',
    body res a = Ok res' /\ well_keyed catalog res' /\
    total res' = total res /\ keys_of res' = keys_of res /\
    with_bypass res' = with_bypass res + one_if (flagged a) /\
    Py.len (bypass_patterns res') = Py.len (bypass_patterns res) + one_if (flagged a) /\
    bucket_len (by_severity res') "High" =
      bucket_len (by_severity res) "High" + one_if (high a) /\
    bucket_len (by_severity res') "Medium" =
      bucket_len (by_severity res) "Medium" + one_if (medium a).
Proof.
  intros [Hp Hs]. unfold body, loop_body, scan.
  destruct (scan_spec catalog (text_of a) (ident_of a) [] (by_pattern res) Hp)
    as (index & Hscan & Hi).
  rewrite Hscan. cbn [bind app].
  pose proof (hits_nil catalog (text_of a)) as Hnil.
  pose proof (highest_of_hits catalog (text_of a)) as Hhigh.
  pose proof (high_is_flagged catalog (text_of a)) as Hhf.
  pose proof (medium_is_flagged catalog (text_of a)) as Hmf.
  subst flagged high medium. cbv beta.
  destruct (map finding_of (filter (is_hit (text_of a)) catalog)) as [|f fs] eqn:E.
  - assert (Hf : is_flagged catalog (text_of a) = false).
    { apply Hnil. destruct (filter _ catalog); [reflexivity|discriminate]. }
    rewrite Hf in *.
    destruct (is_high catalog (text_of a)); [discriminate Hhf; reflexivity|].
    destruct (is_medium catalog (text_of a)); [discriminate Hmf; reflexivity|].
    eexists; split; [reflexivity|]. unfold well_keyed, one_if; cbn.
    repeat split; try lia; try assumption.
    intros p Hin. rewrite Hi. auto.
  - assert (Hf : is_flagged catalog (text_of a) = true).
    { destruct (is_flagged catalog (text_of a)); [reflexivity|].
      destruct Hnil as [_ Hnil]. rewrite Hnil in E by reflexivity. discriminate. }
    rewrite Hf. unfold record_item. rewrite item_severity, Hhigh.
    set (sev := if is_high catalog (text_of a) then "High"
                else if is_medium catalog (text_of a) then "Medium" else "Low").
    destruct (dict_append_spec (by_severity res) sev (ident_of a))
      as (d & Hd1 & Hd & Hlen).
    { rewrite Hs. subst sev.
      destruct (is_high _ _); [|destruct (is_medium _ _)]; simpl; auto. }
    rewrite Hd1. cbn [bind].
    eexists; split; [reflexivity|]. unfold well_keyed; cbn.
    rewrite len_app, len_cons, !Hlen. subst sev.
    repeat split; try (unfold one_if, Py.len; simpl; lia); try congruence.
    + intros p Hin. rewrite Hi. auto.
    + destruct (is_high _ _); [|destruct (is_medium _ _)]; reflexivity.
    + unfold is_medium in *.
      destruct (is_high _ _); [reflexivity|].
      cbn [negb andb]. destruct (hit_with catalog "Medium" _); reflexivity.
Qed.

Lemma loop_spec l : forall res,
  well_keyed catalog res ->
  exists res',
    Py.for_each body l res = Ok res' /\ well_keyed catalog res' /\
    total res' = total res /\ keys_of res' = keys_of res /\
    with_bypass res' = with_bypass res + count flagged l /\
    Py.len (bypass_patterns res') = Py.len (bypass_patterns res) + count flagged l /\
    bucket_len (by_severity res') "High" =
      bucket_len (by_severity res) "High" + count high l /\
    bucket_len (by_severity res') "Medium" =
      bucket_len (by_severity res) "Medium" + count medium l.
Proof.
  induction l as [|a l IH]; intros res Hw; cbn [Py.for_each].
  - exists res. split; [reflexivity|]. split; [assumption|].
    unfold count, Py.len; simpl. repeat split; lia.
  - destruct (loop_body_spec res a Hw) as (r1 & H1 & Hw1 & Ht & Hk & Hb & Hn & Hh & Hm).
    rewrite H1. cbn [bind].
    destruct (IH r1 Hw1) as (r2 & H2 & Hw2 & Ht2 & Hk2 & Hb2 & Hn2 & Hh2 & Hm2).
    exists r2. rewrite !count_cons. split; [exact H2|]. split; [exact Hw2|].
    split; [lia|]. split; [congruence|]. repeat split; lia.
Qed.
End Loop.

Lemma dict_set_in_self {V} (d : Py.dict V) k v : In k (map fst (Py.dict_set d k v)).
Proof.
  induction d as [|[k' v'] d IH]; simpl; [auto|].
  destruct (String.eqb_spec k' k) as [->|]; simpl; auto.
Qed.

Lemma dict_set_in_mono {V} (d : Py.dict V) k k' v :
  In k' (map fst d) -> In k' (map fst (Py.dict_set d k v)).
Proof.
  induction d as [|[k0 v0] d IH]; simpl; [tauto|].
  destruct (String.eqb_spec k0 k) as [->|]; simpl; tauto.
Qed.

Lemma initial_index_keys catalog : forall (d : Py.dict (list string)),
  let d' := fold_left (fun d pattern_ => Py.dict_set d (name pattern_) []) catalog d in
  (forall k, In k (map fst d) -> In k (map fst d')) /\
  (forall p, In p catalog -> In (name p) (map fst d')).
Proof.
  induction catalog as [|q catalog IH]; intros d; cbn [fold_left]; [simpl; tauto|].
  destruct (IH (Py.dict_set d (name q) [])) as [Hmono Hin]. split.
  - intros k Hk. apply Hmono. now apply dict_set_in_mono.
  - intros p [<-|Hp]; [apply Hmono, dict_set_in_self|now apply Hin].
Qed.

Lemma initial_well_keyed k catalog n : well_keyed catalog (initial k catalog n).
Proof.
  split; [|reflexivity]. cbn [initial by_pattern].
  apply (initial_index_keys catalog []).
Qed.

Lemma bucket_get (d : Py.dict (list string)) k :
  In k (map fst d) -> exists l, Py.dict_get d k = Ok l /\ bucket_len d k = Py.len l.
Proof.
  intros H. destruct (dict_get_in d k H) as [l Hl]. exists l.
  unfold bucket_len. now rewrite Hl.
Qed.

Lemma component_matches k :
  (if String.eqb (component_of k) "trigger" then triggers_keys else rules_keys) = k.
Proof. destruct k; reflexivity. Qed.

Lemma finish_spec catalog res :
  well_keyed catalog res ->
  0 <= with_bypass res <= total res -> 0 < total res ->
  0 <= bucket_len (by_severity res) "High" <= Num.maxsize ->
  0 <= bucket_len (by_severity res) "Medium" <= Num.maxsize ->
  exists res' s p,
    finish res (component_of (keys_of res)) = Ok res' /\
    security_score res' = Some s /\ 0 <= s <= 100 /\
    security_score_formula (with_bypass res) (total res)
      (bucket_len (by_severity res) "High")
      (bucket_len (by_severity res) "Medium") = Ok s /\
    bypass_percentage res' = Some p /\
    bypass_patterns res' = bypass_patterns res /\
    by_pattern res' = by_pattern res /\
    by_severity res' = by_severity res /\
    total res' = total res /\
    with_bypass res' = with_bypass res /\
    keys_of res' = keys_of res.
Proof.
  intros [_ Hs] Hb Ht Hh Hm. unfold finish.
  replace (total res >? 0) with true by (symmetry; apply Z.gtb_lt; lia).
  destruct (percentage_total _ _ Hb Ht) as [p Hp]. rewrite Hp. cbn [bind].
  unfold calculate_security_score, counts_for.
  cbn [keys_of by_severity with_bypass total].
  rewrite component_matches.
  destruct (bucket_get (by_severity res) "High") as (lh & Hlh & Hbh);
    [rewrite Hs; simpl; auto|].
  destruct (bucket_get (by_severity res) "Medium") as (lm & Hlm & Hbm);
    [rewrite Hs; simpl; auto|].
  rewrite Hbh, Hbm in *.
  destruct (score_arithmetic_total _ _ _ _ Hb Ht Hh Hm) as (s & Hscore & Hrange).
  replace (match keys_of res with
           | rules_keys | _ => _ end)
    with (Ok (with_bypass res, total res, Py.len lh, Py.len lm) : result (Z * Z * Z * Z)).
  2:{ rewrite Hlh, Hlm. destruct (keys_of res); reflexivity. }
  cbn [bind].
  replace (total res >? 0) with true by (symmetry; apply Z.gtb_lt; lia).
  rewrite Hscore. cbn [bind].
  exists {| keys_of := keys_of res; bypass_patterns := bypass_patterns res;
            by_pattern := by_pattern res; by_severity := by_severity res;
            total := total res; with_bypass := with_bypass res;
            bypass_percentage := Some p; security_score := Some s |}, s, p.
  cbn. repeat split; try lia.
  unfold security_score_formula. rewrite <- Hscore.
  destruct (Num.truediv _ _) as [r|]; cbn [bind]; [|reflexivity].
  destruct (Num.mul r _) as [r2|]; cbn [bind]; [|reflexivity].
  destruct (Num.mul r2 _); cbn [bind]; reflexivity.
Qed.

Lemma for_each_ext {A S} (f g : S -> A -> result S) l :
  (forall s a, f s a = g s a) -> forall s, Py.for_each f l s = Py.for_each g l s.
Proof.
  intros H. induction l as [|a l IH]; intros s; cbn [Py.for_each]; [reflexivity|].
  rewrite H. destruct (g s a); cbn [bind]; auto.
Qed.

Lemma generic_analysis {A} catalog k (text_of ident_of : A -> string) item_of (l : list A) :
  (forall a fs, highest_severity (item_of a fs) = determine_highest_severity fs) ->
  l <> [] -> Py.len l <= Num.maxsize ->
  exists res s,
    (res0 <- Py.for_each (loop_body catalog text_of ident_of item_of) l
               (initial k catalog (Py.len l)) ;;
     finish res0 (component_of k)) = Ok res /\
    analysed catalog text_of l res s.
Proof.
  intros Hitem Hne Hmax.
  destruct (loop_spec catalog text_of ident_of item_of Hitem l
              (initial k catalog (Py.len l)) (initial_well_keyed _ _ _))
    as (r & Hloop & Hw & Ht & Hk & Hb & Hn & Hh & Hm).
  rewrite Hloop. cbn [bind].
  cbn [initial total keys_of with_bypass bypass_patterns by_severity] in *.
  change (bucket_len [("High", []); ("Medium", []); ("Low", [])] "High") with 0 in Hh.
  change (bucket_len [("High", []); ("Medium", []); ("Low", [])] "Medium") with 0 in Hm.
  change (Py.len (@nil item)) with 0 in Hn.
  pose proof (count_bounds (fun a => is_flagged catalog (text_of a)) l).
  pose proof (count_bounds (fun a => is_high catalog (text_of a)) l).
  pose proof (count_bounds (fun a => is_medium catalog (text_of a)) l).
  assert (0 < Py.len l).
  { destruct l; [contradiction|]. rewrite len_cons. pose proof (len_nonneg l). lia. }
  destruct (finish_spec catalog r Hw) as
    (res & s & p & Hfin & Hs & Hr & Hf & Hp & Hbp & _ & Hsev & Htot & Hwb & _); try lia.
  rewrite <- Hk. rewrite Hfin. exists res, s. split; [reflexivity|].
  rewrite Ht, Hb, Hh, Hm in Hf. simpl in Hf.
  constructor; try assumption; try lia; try congruence; eauto.
  - rewrite Hbp. lia.
  - rewrite Hsev. lia.
  - rewrite Hsev. lia.
Qed.

Lemma analyze_rule_body self res r :
  analyze_rule self res r =
  loop_body (validation_rule_patterns self) rule_formula_text rule_api_name rule_item res r.
Proof. reflexivity. Qed.

Lemma analyze_trigger_body self res t :
  analyze_trigger self res t =
  loop_body (apex_trigger_patterns self) trigger_content_text trigger_name_text
    trigger_item res t.
Proof. reflexivity. Qed.

Lemma validation_analysis self (rules : list validation_rule) :
  rules <> [] -> Py.len rules <= Num.maxsize ->
  exists res s,
    analyze_validation_rules self (Py.List_ rules) = Ok res /\
    analysed (validation_rule_patterns self) rule_formula_text rules res s.
Proof.
  intros Hne Hmax. unfold analyze_validation_rules.
  destruct rules as [|r rules]; [contradiction|].
  cbn [Py.truth Py.isinstance_list negb orb Py.items].
  rewrite (for_each_ext _ _ _ (analyze_rule_body self)).
  apply (generic_analysis _ rules_keys); auto.
Qed.

Lemma trigger_analysis self (triggers : list trigger) :
  triggers <> [] -> Py.len triggers <= Num.maxsize ->
  exists res s,
    analyze_apex_triggers self (Py.List_ triggers) = Ok res /\
    analysed (apex_trigger_patterns self) trigger_content_text triggers res s.
Proof.
  intros Hne Hmax. unfold analyze_apex_triggers.
  destruct triggers as [|t triggers]; [contradiction|].
  cbn [Py.truth Py.isinstance_list negb orb Py.items].
  rewrite (for_each_ext _ _ _ (analyze_trigger_body self)).
  apply (generic_analysis _ triggers_keys); auto.
Qed.

Lemma count_none {A} (c : A -> bool) l :
  (forall a, In a l -> c a = false) -> filter c l = [] /\ count c l = 0.
Proof.
  intros H. assert (E : filter c l = []).
  { induction l as [|a l IH]; cbn [filter]; [reflexivity|].
    rewrite (H a) by now left. apply IH. intros b Hb. apply H. now right. }
  split; [exact E|]. unfold count. now rewrite E.
Qed.

End BypassFacts.

(** ** The overall score *)

Section ReportFacts.
Import Report.

Lemma float_same_eq x y : float_same x y = true -> x = y.
Proof.
  destruct x, y; simpl; try discriminate; intros H.
  - apply Bool.eqb_prop in H. congruence.
  - apply Bool.eqb_prop in H. congruence.
  - reflexivity.
  - apply andb_prop in H as [H He]. apply andb_prop in H as [Hs Hm].
    apply Bool.eqb_prop in Hs. apply Pos.eqb_eq in Hm. apply Z.eqb_eq in He. congruence.
Qed.

Lemma is_float_eq r f : is_float r f = true -> r = Ok (Num.Float f).
Proof.
  destruct r as [[z|g]|e]; simpl; try discriminate.
  intros H. apply float_same_eq in H. congruence.
Qed.

Lemma is_int_eq r z : is_int r z = true -> r = Ok z.
Proof.
  destruct r as [y|e]; simpl; try discriminate. intros H. apply Z.eqb_eq in H. congruence.
Qed.

Lemma upto_forall (f : Z -> bool) n :
  forallb f (upto n) = true -> forall z, 0 <= z <= Z.of_nat n -> f z = true.
Proof.
  unfold upto. rewrite forallb_forall. intros H z Hz. apply H.
  apply in_map_iff. exists (Z.to_nat z). split; [lia|].
  apply in_seq. lia.
Qed.

Lemma upto_forall2 (f : Z -> Z -> bool) n m :
  forallb (fun a => forallb (f a) (upto m)) (upto n) = true ->
  forall a b, 0 <= a <= Z.of_nat n -> 0 <= b <= Z.of_nat m -> f a b = true.
Proof.
  intros H a b Ha Hb.
  apply (upto_forall (f a) m); [|exact Hb].
  apply (upto_forall (fun a => forallb (f a) (upto m)) n H a Ha).
Qed.

Lemma times_one_and_half v :
  0 <= v <= 100 ->
  Num.mul (Num.Int v) (Num.Float Num.lit_1_5) = Ok (Num.Float (half (3 * v))).
Proof.
  intros H. apply is_float_eq.
  apply (upto_forall (fun v =>
    is_float (Num.mul (Num.Int v) (Num.Float Num.lit_1_5)) (half (3 * v))) 100);
    [vm_compute; reflexivity|exact H].
Qed.

Lemma int_plus_half n v :
  0 <= n <= 100 -> 0 <= v <= 100 ->
  Num.add (Num.Int n) (Num.Float (half (3 * v))) = Ok (Num.Float (half (2 * n + 3 * v))).
Proof.
  intros Hn Hv. apply is_float_eq.
  apply (upto_forall2 (fun n v =>
    is_float (Num.add (Num.Int n) (Num.Float (half (3 * v)))) (half (2 * n + 3 * v)))
    100 100); [vm_compute; reflexivity|exact Hn|exact Hv].
Qed.

Lemma half_plus_half a t :
  0 <= a <= 500 -> 0 <= t <= 100 ->
  Num.add (Num.Float (half a)) (Num.Float (half (3 * t))) =
  Ok (Num.Float (half (a + 3 * t))).
Proof.
  intros Ha Ht. apply is_float_eq.
  apply (upto_forall2 (fun a t =>
    is_float (Num.add (Num.Float (half a)) (Num.Float (half (3 * t)))) (half (a + 3 * t)))
    500 100); [vm_compute; reflexivity|exact Ha|exact Ht].
Qed.

Lemma zero_plus_half k :
  0 <= k <= 300 ->
  Num.add (Num.Int 0) (Num.Float (half k)) = Ok (Num.Float (half k)).
Proof.
  intros Hk. apply is_float_eq.
  apply (upto_forall (fun k =>
    is_float (Num.add (Num.Int 0) (Num.Float (half k))) (half k)) 300);
    [vm_compute; reflexivity|exact Hk].
Qed.

Lemma average_int n :
  0 <= n <= 100 ->
  (q <- Num.truediv (Num.Int n) (Num.Int 1) ;; Num.round q) = Ok n.
Proof.
  intros Hn. apply is_int_eq.
  apply (upto_forall (fun n =>
    is_int (q <- Num.truediv (Num.Int n) (Num.Int 1) ;; Num.round q) n) 100);
    [vm_compute; reflexivity|exact Hn].
Qed.

Lemma average_one_and_half k :
  0 <= k <= 300 -> average_of k (Num.Float Num.lit_1_5) = Ok (round_ratio k 3).
Proof.
  intros Hk. apply is_int_eq.
  apply (upto_forall (fun k =>
    is_int (average_of k (Num.Float Num.lit_1_5)) (round_ratio k 3)) 300);
    [vm_compute; reflexivity|exact Hk].
Qed.

Lemma average_two_and_half k :
  0 <= k <= 500 -> average_of k (Num.Float (half 5)) = Ok (round_ratio k 5).
Proof.
  intros Hk. apply is_int_eq.
  apply (upto_forall (fun k =>
    is_int (average_of k (Num.Float (half 5))) (round_ratio k 5)) 500);
    [vm_compute; reflexivity|exact Hk].
Qed.

Lemma average_three k :
  0 <= k <= 600 -> average_of k (Num.Float (half 6)) = Ok (round_ratio k 6).
Proof.
  intros Hk. apply is_int_eq.
  apply (upto_forall (fun k =>
    is_int (average_of k (Num.Float (half 6))) (round_ratio k 6)) 600);
    [vm_compute; reflexivity|exact Hk].
Qed.

Lemma average_four k :
  0 <= k <= 800 -> average_of k (Num.Float (half 8)) = Ok (round_ratio k 8).
Proof.
  intros Hk. apply is_int_eq.
  apply (upto_forall (fun k =>
    is_int (average_of k (Num.Float (half 8))) (round_ratio k 8)) 800);
    [vm_compute; reflexivity|exact Hk].
Qed.

Lemma band_rating s : rating_of s = band s.
Proof. unfold rating_of, band. rewrite !Z.geb_leb. reflexivity. Qed.

Lemma round_ratio_int n : round_ratio (2 * n) 2 = n.
Proof.
  unfold round_ratio. replace (2 * n) with (n * 2) by lia.
  rewrite Z.div_mul, Z.mod_mul by lia. reflexivity.
Qed.

Lemma sum_one : Report.sum [Num.Int 1] = Ok (Num.Int 1).
Proof. reflexivity. Qed.
Lemma sum_one_and_half : Report.sum [Num.Float Num.lit_1_5] = Ok (Num.Float Num.lit_1_5).
Proof. reflexivity. Qed.
Lemma sum_two_and_half :
  Report.sum [Num.Int 1; Num.Float Num.lit_1_5] = Ok (Num.Float (half 5)).
Proof. reflexivity. Qed.
Lemma sum_three :
  Report.sum [Num.Float Num.lit_1_5; Num.Float Num.lit_1_5] = Ok (Num.Float (half 6)).
Proof. reflexivity. Qed.
Lemma sum_four :
  Report.sum [Num.Int 1; Num.Float Num.lit_1_5; Num.Float Num.lit_1_5] =
  Ok (Num.Float (half 8)).
Proof. reflexivity. Qed.

Lemma products_naming n : sum_products [Num.Int n] [Num.Int 1] = Ok (Num.Int n).
Proof. cbn. f_equal. f_equal. lia. Qed.

Lemma products_one v :
  0 <= v <= 100 ->
  sum_products [Num.Int v] [Num.Float Num.lit_1_5] = Ok (Num.Float (half (3 * v))).
Proof.
  intros Hv. unfold sum_products. cbn [combine Py.for_each fst snd].
  rewrite (times_one_and_half v Hv). cbn [bind].
  rewrite zero_plus_half by lia. reflexivity.
Qed.

Lemma products_naming_one n v :
  0 <= n <= 100 -> 0 <= v <= 100 ->
  sum_products [Num.Int n; Num.Int v] [Num.Int 1; Num.Float Num.lit_1_5] =
  Ok (Num.Float (half (2 * n + 3 * v))).
Proof.
  intros Hn Hv. unfold sum_products. cbn [combine Py.for_each fst snd].
  change (Num.mul (Num.Int n) (Num.Int 1)) with (Ok (Num.Int (n * 1))). cbn [bind].
  change (Num.add (Num.Int 0) (Num.Int (n * 1))) with (Ok (Num.Int (0 + n * 1))).
  cbn [bind]. replace (0 + n * 1) with n by lia.
  rewrite times_one_and_half by assumption. cbn [bind].
  rewrite int_plus_half by assumption. reflexivity.
Qed.

Lemma products_two v t :
  0 <= v <= 100 -> 0 <= t <= 100 ->
  sum_products [Num.Int v; Num.Int t] [Num.Float Num.lit_1_5; Num.Float Num.lit_1_5] =
  Ok (Num.Float (half (3 * v + 3 * t))).
Proof.
  intros Hv Ht. unfold sum_products. cbn [combine Py.for_each fst snd].
  rewrite times_one_and_half by assumption. cbn [bind].
  rewrite zero_plus_half by lia. cbn [bind].
  rewrite times_one_and_half by assumption. cbn [bind].
  rewrite half_plus_half by lia. reflexivity.
Qed.

Lemma products_three n v t :
  0 <= n <= 100 -> 0 <= v <= 100 -> 0 <= t <= 100 ->
  sum_products [Num.Int n; Num.Int v; Num.Int t]
    [Num.Int 1; Num.Float Num.lit_1_5; Num.Float Num.lit_1_5] =
  Ok (Num.Float (half (2 * n + 3 * v + 3 * t))).
Proof.
  intros Hn Hv Ht. unfold sum_products. cbn [combine Py.for_each fst snd].
  change (Num.mul (Num.Int n) (Num.Int 1)) with (Ok (Num.Int (n * 1))). cbn [bind].
  change (Num.add (Num.Int 0) (Num.Int (n * 1))) with (Ok (Num.Int (0 + n * 1))).
  cbn [bind]. replace (0 + n * 1) with n by lia.
  rewrite times_one_and_half by assumption. cbn [bind].
  rewrite int_plus_half by assumption. cbn [bind].
  rewrite times_one_and_half by assumption. cbn [bind].
  rewrite half_plus_half by lia. reflexivity.
Qed.

Lemma average_then {B} x w z (k : Z -> result B) :
  (q <- Num.truediv x w ;; Num.round q) = Ok z ->
  (average <- Num.truediv x w ;; weighted_average <- Num.round average ;;
   k weighted_average) = k z.
Proof.
  intros H. apply bind_ok in H as (q & Hq & Hr). rewrite Hq. cbn [bind].
  rewrite Hr. reflexivity.
Qed.


End ReportFacts.

(** ** The refactoring queue *)

Section QueueFacts.
Import Bypass.

Lemma string_lt_trans s1 : forall s2 s3,
  (s1 ?= s2)%string = Lt -> (s2 ?= s3)%string = Lt -> (s1 ?= s3)%string = Lt.
Proof.
  induction s1 as [|c1 s1 IH]; intros [|c2 s2] [|c3 s3]; simpl; try congruence.
  unfold Ascii.compare.
  destruct (N.compare_spec (N_of_ascii c1) (N_of_ascii c2)) as [E12|L12|G12];
    destruct (N.compare_spec (N_of_ascii c2) (N_of_ascii c3)) as [E23|L23|G23];
    try congruence; intros H1 H2.
  - rewrite E12, E23, N.compare_refl. eauto.
  - rewrite E12. apply N.compare_lt_iff in L23. now rewrite L23.
  - rewrite <- E23. apply N.compare_lt_iff in L12. now rewrite L12.
  - assert (L : (N_of_ascii c1 < N_of_ascii c3)%N) by lia.
    apply N.compare_lt_iff in L. now rewrite L.
Qed.

Lemma string_compare_refl s : (s ?= s)%string = Eq.
Proof.
  induction s as [|c s IH]; simpl; [reflexivity|].
  unfold Ascii.compare. now rewrite N.compare_refl.
Qed.

Lemma string_leb_trans s1 s2 s3 :
  (s1 <=? s2)%string = true -> (s2 <=? s3)%string = true -> (s1 <=? s3)%string = true.
Proof.
  unfold String.leb. intros H1 H2.
  destruct (s1 ?= s2)%string eqn:E12; try discriminate H1;
    destruct (s2 ?= s3)%string eqn:E23; try discriminate H2; clear H1 H2.
  - apply String.compare_eq_iff in E12, E23. subst. now rewrite string_compare_refl.
  - apply String.compare_eq_iff in E12. subst. now rewrite E23.
  - apply String.compare_eq_iff in E23. subst. now rewrite E12.
  - now rewrite (string_lt_trans _ _ _ E12 E23).
Qed.

Lemma string_ltb_leb s1 s2 : (s1 <? s2)%string = false -> (s2 <=? s1)%string = true.
Proof.
  unfold String.ltb, String.leb. rewrite (String.compare_antisym s1 s2).
  destruct (s2 ?= s1)%string; simpl; congruence.
Qed.

Lemma string_leb_ltb s1 s2 : (s2 <=? s1)%string = true -> (s1 <? s2)%string = false.
Proof.
  unfold String.ltb, String.leb. rewrite (String.compare_antisym s1 s2).
  destruct (s2 ?= s1)%string; simpl; congruence.
Qed.

Lemma key_not_lt a b :
  key_lt (severity_order b) (severity_order a) = false <-> in_order a b.
Proof.
  unfold key_lt, severity_order, in_order; cbn [fst snd].
  destruct (Z.eqb_spec (severity_rank (highest_severity b))
                       (severity_rank (highest_severity a))) as [E|N].
  - split.
    + intros H. right. split; [congruence|now apply string_ltb_leb].
    + intros [H|[_ H]]; [lia|now apply string_leb_ltb].
  - rewrite Z.ltb_ge. split; [intros; left; lia|intros [H|[H _]]; lia].
Qed.

Lemma in_order_trans a b c : in_order a b -> in_order b c -> in_order a c.
Proof.
  unfold in_order. intros [H1|[H1 L1]] [H2|[H2 L2]]; try (left; lia).
  right. split; [lia|]. eapply string_leb_trans; eassumption.
Qed.

Lemma in_order_total a b : in_order a b \/ in_order b a.
Proof.
  unfold in_order.
  destruct (Z.lt_trichotomy (severity_rank (highest_severity a))
                            (severity_rank (highest_severity b))) as [H|[H|H]]; auto.
  destruct (String.leb_total (identifier a) (identifier b)); auto.
Qed.

Lemma insert_perm x l : Permutation (x :: l) (insert_by severity_order x l).
Proof.
  induction l as [|y l IH]; simpl; [reflexivity|].
  destruct (key_lt _ _); [|reflexivity].
  rewrite perm_swap. now apply perm_skip.
Qed.

Lemma insert_sorted x l :
  StronglySorted in_order l -> StronglySorted in_order (insert_by severity_order x l).
Proof.
  induction l as [|y l IH]; intros Hs; simpl.
  - constructor; constructor.
  - inversion Hs as [|? ? Hl Hy]; subst.
    destruct (key_lt (severity_order y) (severity_order x)) eqn:E.
    + constructor; [auto|].
      assert (Hyx : in_order y x).
      { destruct (in_order_total y x) as [H|H]; [assumption|].
        apply key_not_lt in H. congruence. }
      apply Forall_forall. intros z Hz.
      apply (Permutation_in _ (Permutation_sym (insert_perm x l))) in Hz.
      destruct Hz as [<-|Hz]; [assumption|].
      rewrite Forall_forall in Hy. auto.
    + apply key_not_lt in E. constructor; [assumption|].
      constructor; [assumption|].
      rewrite Forall_forall in *. intros z Hz. eapply in_order_trans; eauto.
Qed.


Lemma sorted_sorted l : StronglySorted in_order (sorted severity_order l).
Proof.
  induction l as [|x l IH]; simpl; [constructor|now apply insert_sorted].
Qed.

Lemma rank_high s : severity_rank s = 0 <-> s = "High".
Proof.
  unfold severity_rank. destruct (String.eqb_spec s "High"); [tauto|].
  destruct (String.eqb s "Medium"), (String.eqb s "Low"); split; (lia || congruence).
Qed.

Lemma rank_medium s : severity_rank s = 1 <-> s = "Medium".
Proof.
  unfold severity_rank. destruct (String.eqb_spec s "High") as [->|]; [split; [lia|discriminate]|].
  destruct (String.eqb_spec s "Medium"); [tauto|].
  destruct (String.eqb s "Low"); split; (lia || congruence).
Qed.



End QueueFacts.

(** ** The analyzers on their inputs *)

Lemma fields_analysis (fields : list Naming.field) :
  fields <> [] ->
  exists res,
    Naming.analyze_fields Naming.init (Py.List_ fields) = Ok res /\
    Naming.compliant_field_count res = 0 /\
    Naming.total_field_count res = Py.len fields /\
    Naming.compliant_field_count res + Py.len (Naming.violations res) =
      Naming.total_field_count res /\
    Naming.compliance_percentage res = Some 0.
Proof.
  intros Hne. destruct fields as [|f fields]; [contradiction|].
  unfold Naming.analyze_fields. cbn [Py.truth Py.isinstance_list negb orb Py.items].
  set (res0 := {| Naming.violations := [] |}).
  destruct (fields_loop_init (f :: fields) res0 eq_refl) as (res' & Hloop & Hc).
  pose proof (fields_loop_partition Naming.init _ _ _ Hloop) as [Hp Ht].
  rewrite Hloop. cbn [bind].
  subst res0; cbn [Naming.compliant_field_count Naming.violations
                   Naming.total_field_count] in *.
  rewrite Hc, Ht. rewrite Hc in Hp.
  assert (Hpos : exists p, Py.len (f :: fields) = Zpos p).
  { rewrite len_cons. pose proof (len_nonneg fields).
    destruct (1 + Py.len fields) eqn:E; try lia. eauto. }
  destruct Hpos as [q Hq]. rewrite Hq in *.
  eexists; split; [reflexivity|]. cbn.
  change (Py.len (@nil Naming.field_violation)) with 0 in Hp.
  repeat split; lia.
Qed.

Lemma shares_agree_below_40 c t p :
  0 <= c <= t -> 0 < t < 40 ->
  rounded_share c t = Ok p -> percentage_of c t = Ok p.
Proof.
  intros Hc Ht Hp.
  pose (f := fun c t : Z =>
    if ((c <=? t) && (0 <? t))%bool
    then same_result (rounded_share c t) (percentage_of c t) else true).
  assert (H : f c t = true).
  { apply (upto_forall2 f 39 39); [vm_compute; reflexivity|lia|lia]. }
  unfold f in H.
  replace (c <=? t) with true in H by (symmetry; apply Z.leb_le; lia).
  replace (0 <? t) with true in H by (symmetry; apply Z.ltb_lt; lia).
  cbn [andb] in H. rewrite Hp in H. unfold same_result in H.
  destruct (percentage_of c t) as [q|]; [|discriminate].
  apply Z.eqb_eq in H. now subst.
Qed.

Lemma share_of_nothing t :
  0 < t -> rounded_share 0 t = Ok 0 /\ percentage_of 0 t = Ok 0.
Proof. intros Ht. destruct t; try lia. split; reflexivity. Qed.

Lemma init_violates f : violates Naming.init f = true.
Proof.
  unfold violates, found.
  pose proof (init_always_violates (Naming.api_name_of f)) as H.
  destruct (Naming.rule_violations Naming.init (Naming.api_name_of f));
    [contradiction|reflexivity].
Qed.

(** C2. For every non-empty list of field records, [analyze_fields]
    returns a result that classifies every field exactly once:
    [total_field_count] is the length of the list, [violations] holds
    the entries of exactly the fields that violate a rule, in the order
    of the input, [compliant_field_count] is the number of the other
    fields, and the two add up to the total. [compliance_percentage] is
    the value of [round((compliant / total) * 100)]; this is the value
    of [round(100 * compliant / total)] of the specification for the
    catalog of [__init__], where no name passes both prefix rules and
    the count of compliant fields is 0, and for any other catalog as
    long as there are fewer than 40 fields. The analysis is stated for
    the catalog of [__init__] and, when no name is empty, for every
    catalog. *)
Theorem fields_partition_and_percentage (self : Naming.NamingConventionAnalyzer)
    (fields : list Naming.field) :
  fields <> [] ->
  self = Naming.init \/
    (forall f, In f fields -> Naming.api_name_of f <> EmptyString) ->
  exists res p,
    Naming.analyze_fields self (Py.List_ fields) = Ok res /\
    Naming.total_field_count res = Py.len fields /\
    Forall2 (reports self) (filter (violates self) fields) (Naming.violations res) /\
    Naming.compliant_field_count res =
      count (fun f => negb (violates self f)) fields /\
    Naming.compliant_field_count res + Py.len (Naming.violations res) =
      Naming.total_field_count res /\
    Naming.compliance_percentage res = Some p /\
    rounded_share (Naming.compliant_field_count res) (Naming.total_field_count res)
      = Ok p /\
    (self = Naming.init \/ Py.len fields < 40 ->
     percentage_of (Naming.compliant_field_count res) (Naming.total_field_count res)
       = Ok p) /\
    (self = Naming.init -> Naming.compliant_field_count res = 0 /\ p = 0).
Proof.
  intros Hne Hself.
  pose proof (recommendable_cases self fields Hself) as Hrec.
  assert (Hpos : 0 < Py.len fields).
  { destruct fields; [contradiction|]. rewrite len_cons. pose proof (len_nonneg fields). lia. }
  unfold Naming.analyze_fields.
  replace (negb (Py.truth (Py.List_ fields)) || negb (Py.isinstance_list (Py.List_ fields)))%bool
    with false by (destruct fields; [contradiction|reflexivity]).
  cbn [Py.items].
  set (res0 := {| Naming.violations := [] |}).
  destruct (fields_loop_classifies self fields res0 eq_refl Hrec)
    as (r & es & Hloop & Ht & Hv & Hf & Hc).
  rewrite Hloop. cbn [bind].
  subst res0. cbn [Naming.violations Naming.compliant_field_count
                   Naming.total_field_count app] in Ht, Hv, Hc.
  pose proof (filter_partition_len (violates self) fields) as Hlen.
  pose proof (len_nonneg (filter (fun f => negb (violates self f)) fields)) as Hc0.
  pose proof (len_nonneg (filter (violates self) fields)) as Hv0.
  assert (Hes : Py.len es = Py.len (filter (violates self) fields)).
  { unfold Py.len. now rewrite (Forall2_length Hf). }
  assert (Hcount : Naming.compliant_field_count r =
                   count (fun f => negb (violates self f)) fields)
    by (unfold count; lia).
  destruct (percentage_total (Naming.compliant_field_count r) (Py.len fields))
    as [p Hp]; [lia|lia|].
  fold (rounded_share (Naming.compliant_field_count r) (Py.len fields)) in Hp.
  rewrite Ht. unfold rounded_share in Hp.
  destruct (Num.truediv _ _) as [ratio|] eqn:E1; [|discriminate]. cbn [bind] in Hp |- *.
  destruct (Num.mul ratio _) as [scaled|] eqn:E2; [|discriminate]. cbn [bind] in Hp |- *.
  rewrite Hp. cbn [bind].
  eexists. exists p. split; [reflexivity|].
  cbn [Naming.total_field_count Naming.violations Naming.compliant_field_count
       Naming.compliance_percentage].
  assert (Hshare : rounded_share (Naming.compliant_field_count r) (Py.len fields) = Ok p).
  { unfold rounded_share. rewrite E1. cbn [bind]. rewrite E2. cbn [bind]. exact Hp. }
  assert (Hinit : self = Naming.init -> Naming.compliant_field_count r = 0).
  { intros ->. rewrite Hcount.
    apply (count_none (fun f => negb (violates Naming.init f))).
    intros f _. now rewrite init_violates. }
  split; [reflexivity|]. split; [rewrite Hv; exact Hf|]. split; [exact Hcount|].
  split; [rewrite Hv, Hes; unfold count in Hcount; lia|].
  split; [reflexivity|]. split; [exact Hshare|]. split.
  - intros [Hi|Hsmall].
    + specialize (Hinit Hi). rewrite Hinit in *.
      destruct (share_of_nothing (Py.len fields) Hpos) as [H1 H2]. congruence.
    + apply shares_agree_below_40; [unfold count in Hcount; lia|lia|exact Hshare].
  - intros Hi. specialize (Hinit Hi). split; [exact Hinit|].
    rewrite Hinit in Hshare.
    destruct (share_of_nothing (Py.len fields) Hpos) as [H1 _]. congruence.
Qed.

Lemma fields_partition_and_percentage_witness :
  (exists res p,
     Naming.analyze_fields Naming.init (Py.List_ sample_fields) = Ok res /\
     Naming.total_field_count res = Py.len sample_fields /\
     Forall2 (reports Naming.init) (filter (violates Naming.init) sample_fields)
       (Naming.violations res) /\
     Naming.compliant_field_count res =
       count (fun f => negb (violates Naming.init f)) sample_fields /\
     Naming.compliant_field_count res + Py.len (Naming.violations res) =
       Naming.total_field_count res /\
     Naming.compliance_percentage res = Some p /\
     rounded_share (Naming.compliant_field_count res) (Naming.total_field_count res)
       = Ok p /\
     (Naming.init = Naming.init \/ Py.len sample_fields < 40 ->
      percentage_of (Naming.compliant_field_count res) (Naming.total_field_count res)
        = Ok p) /\
     (Naming.init = Naming.init -> Naming.compliant_field_count res = 0 /\ p = 0)) /\
  (exists res p,
     Naming.analyze_fields managed_only (Py.List_ sample_fields) = Ok res /\
     Naming.total_field_count res = Py.len sample_fields /\
     Forall2 (reports managed_only) (filter (violates managed_only) sample_fields)
       (Naming.violations res) /\
     Naming.compliant_field_count res =
       count (fun f => negb (violates managed_only f)) sample_fields /\
     Naming.compliant_field_count res + Py.len (Naming.violations res) =
       Naming.total_field_count res /\
     Naming.compliance_percentage res = Some p /\
     rounded_share (Naming.compliant_field_count res) (Naming.total_field_count res)
       = Ok p /\
     (managed_only = Naming.init \/ Py.len sample_fields < 40 ->
      percentage_of (Naming.compliant_field_count res) (Naming.total_field_count res)
        = Ok p) /\
     (managed_only = Naming.init -> Naming.compliant_field_count res = 0 /\ p = 0)).
Proof.
  split.
  - apply (fields_partition_and_percentage Naming.init sample_fields).
    + discriminate.
    + left. reflexivity.
  - apply (fields_partition_and_percentage managed_only sample_fields).
    + discriminate.
    + right. intros f Hin. repeat (destruct Hin as [<-|Hin]; [discriminate|]).
      destruct Hin.
Defined.

(** C3. For every non-empty list of validation rules, and for every
    non-empty list of triggers, the analysis returns a result whose
    [security_score] lies in [0, 100] and is the value of the formula:
    100, minus 0.3 times the percentage of flagged records, minus 5 for
    each record whose highest severity is High, minus 2 for each whose
    highest severity is Medium, rounded and clamped. The counts of the
    formula are taken on the input, not read from the result. The bound
    on the length is that of every Python list. *)
Theorem security_score_formula_and_range (self : Bypass.BypassPatternAnalyzer)
    (rules : list Bypass.validation_rule) (triggers : list Bypass.trigger) :
  rules <> [] -> Py.len rules <= Num.maxsize ->
  triggers <> [] -> Py.len triggers <= Num.maxsize ->
  (exists res s,
     Bypass.analyze_validation_rules self (Py.List_ rules) = Ok res /\
     Bypass.security_score res = Some s /\ 0 <= s <= 100 /\
     security_score_formula
       (count (fun r => is_flagged (Bypass.validation_rule_patterns self)
                          (Bypass.rule_formula_text r)) rules)
       (Py.len rules)
       (count (fun r => is_high (Bypass.validation_rule_patterns self)
                          (Bypass.rule_formula_text r)) rules)
       (count (fun r => is_medium (Bypass.validation_rule_patterns self)
                          (Bypass.rule_formula_text r)) rules) = Ok s) /\
  (exists res s,
     Bypass.analyze_apex_triggers self (Py.List_ triggers) = Ok res /\
     Bypass.security_score res = Some s /\ 0 <= s <= 100 /\
     security_score_formula
       (count (fun t => is_flagged (Bypass.apex_trigger_patterns self)
                          (Bypass.trigger_content_text t)) triggers)
       (Py.len triggers)
       (count (fun t => is_high (Bypass.apex_trigger_patterns self)
                          (Bypass.trigger_content_text t)) triggers)
       (count (fun t => is_medium (Bypass.apex_trigger_patterns self)
                          (Bypass.trigger_content_text t)) triggers) = Ok s).
Proof.
  intros Hr Hrmax Ht Htmax. split.
  - destruct (validation_analysis self rules Hr Hrmax) as (res & s & Hres & H).
    exists res, s. destruct H. repeat split; assumption || lia.
  - destruct (trigger_analysis self triggers Ht Htmax) as (res & s & Hres & H).
    exists res, s. destruct H. repeat split; assumption || lia.
Qed.

Lemma security_score_formula_and_range_witness :
  (exists res s,
     Bypass.analyze_validation_rules Bypass.init (Py.List_ sample_rules) = Ok res /\
     Bypass.security_score res = Some s /\ 0 <= s <= 100 /\
     security_score_formula
       (count (fun r => is_flagged (Bypass.validation_rule_patterns Bypass.init)
                          (Bypass.rule_formula_text r)) sample_rules)
       (Py.len sample_rules)
       (count (fun r => is_high (Bypass.validation_rule_patterns Bypass.init)
                          (Bypass.rule_formula_text r)) sample_rules)
       (count (fun r => is_medium (Bypass.validation_rule_patterns Bypass.init)
                          (Bypass.rule_formula_text r)) sample_rules) = Ok s) /\
  (exists res s,
     Bypass.analyze_apex_triggers Bypass.init (Py.List_ sample_triggers) = Ok res /\
     Bypass.security_score res = Some s /\ 0 <= s <= 100 /\
     security_score_formula
       (count (fun t => is_flagged (Bypass.apex_trigger_patterns Bypass.init)
                          (Bypass.trigger_content_text t)) sample_triggers)
       (Py.len sample_triggers)
       (count (fun t => is_high (Bypass.apex_trigger_patterns Bypass.init)
                          (Bypass.trigger_content_text t)) sample_triggers)
       (count (fun t => is_medium (Bypass.apex_trigger_patterns Bypass.init)
                          (Bypass.trigger_content_text t)) sample_triggers) = Ok s).
Proof.
  apply (security_score_formula_and_range Bypass.init sample_rules sample_triggers).
  - discriminate.
  - vm_compute. discriminate.
  - discriminate.
  - vm_compute. discriminate.
Defined.

Lemma invalid_or_list {A} (x : Py.obj A) :
  invalid_input x \/ exists a l, x = Py.List_ (a :: l).
Proof.
  destruct x as [|[|a l]|b]; unfold invalid_input; eauto 6.
Qed.

Lemma list_not_invalid {A} (a : A) l : ~ invalid_input (Py.List_ (a :: l)).
Proof. intros [H|[H|[b H]]]; discriminate. Qed.

(** C8. Each analyzer raises its invalid-input error exactly when its
    argument is [None], the empty list or not a list, and then returns no
    result; on every non-empty list it returns a result. *)
Theorem invalid_input_error_iff (self : Bypass.BypassPatternAnalyzer)
    (fields : Py.obj Naming.field) (rules : Py.obj Bypass.validation_rule)
    (triggers : Py.obj Bypass.trigger) :
  Py.len (Py.items rules) <= Num.maxsize ->
  Py.len (Py.items triggers) <= Num.maxsize ->
  (Naming.analyze_fields Naming.init fields =
     Raise (ValueError "Field data must be provided as a list")
   <-> invalid_input fields) /\
  (~ invalid_input fields ->
   exists res, Naming.analyze_fields Naming.init fields = Ok res) /\
  (Bypass.analyze_validation_rules self rules =
     Raise (ValueError "Validation rule data must be provided as a list")
   <-> invalid_input rules) /\
  (~ invalid_input rules ->
   exists res, Bypass.analyze_validation_rules self rules = Ok res) /\
  (Bypass.analyze_apex_triggers self triggers =
     Raise (ValueError "Trigger data must be provided as a list")
   <-> invalid_input triggers) /\
  (~ invalid_input triggers ->
   exists res, Bypass.analyze_apex_triggers self triggers = Ok res).
Proof.
  intros Hrmax Htmax.
  assert (Hf : forall a l, exists res,
            Naming.analyze_fields Naming.init (Py.List_ (a :: l)) = Ok res).
  { intros a l. destruct (fields_analysis (a :: l)) as (res & H & _); [discriminate|eauto]. }
  assert (Hr : forall a l, rules = Py.List_ (a :: l) -> exists res,
            Bypass.analyze_validation_rules self rules = Ok res).
  { intros a l ->. destruct (validation_analysis self (a :: l)) as (res & s & H & _);
      [discriminate|exact Hrmax|eauto]. }
  assert (Ht : forall a l, triggers = Py.List_ (a :: l) -> exists res,
            Bypass.analyze_apex_triggers self triggers = Ok res).
  { intros a l ->. destruct (trigger_analysis self (a :: l)) as (res & s & H & _);
      [discriminate|exact Htmax|eauto]. }
  repeat split.
  - intros H. destruct (invalid_or_list fields) as [|(a & l & ->)]; [assumption|].
    destruct (Hf a l) as [res Hres]. congruence.
  - intros [->|[->|[[] ->]]]; reflexivity.
  - destruct (invalid_or_list fields) as [|(a & l & ->)]; [contradiction|auto].
  - intros H. destruct (invalid_or_list rules) as [|(a & l & E)]; [assumption|].
    destruct (Hr a l E) as [res Hres]. congruence.
  - intros [->|[->|[[] ->]]]; reflexivity.
  - destruct (invalid_or_list rules) as [|(a & l & E)]; [contradiction|eauto].
  - intros H. destruct (invalid_or_list triggers) as [|(a & l & E)]; [assumption|].
    destruct (Ht a l E) as [res Hres]. congruence.
  - intros [->|[->|[[] ->]]]; reflexivity.
  - destruct (invalid_or_list triggers) as [|(a & l & E)]; [contradiction|eauto].
Qed.

Lemma invalid_input_error_iff_witness :
  (Naming.analyze_fields Naming.init (Py.List_ sample_fields) =
     Raise (ValueError "Field data must be provided as a list")
   <-> invalid_input (Py.List_ sample_fields)) /\
  (~ invalid_input (Py.List_ sample_fields) ->
   exists res, Naming.analyze_fields Naming.init (Py.List_ sample_fields) = Ok res) /\
  (Bypass.analyze_validation_rules Bypass.init Py.None_ =
     Raise (ValueError "Validation rule data must be provided as a list")
   <-> invalid_input (@Py.None_ Bypass.validation_rule)) /\
  (~ invalid_input (@Py.None_ Bypass.validation_rule) ->
   exists res, Bypass.analyze_validation_rules Bypass.init Py.None_ = Ok res) /\
  (Bypass.analyze_apex_triggers Bypass.init (Py.List_ sample_triggers) =
     Raise (ValueError "Trigger data must be provided as a list")
   <-> invalid_input (Py.List_ sample_triggers)) /\
  (~ invalid_input (Py.List_ sample_triggers) ->
   exists res, Bypass.analyze_apex_triggers Bypass.init (Py.List_ sample_triggers) = Ok res).
Proof.
  apply (invalid_input_error_iff Bypass.init (Py.List_ sample_fields) Py.None_
           (Py.List_ sample_triggers)).
  - vm_compute. discriminate.
  - vm_compute. discriminate.
Defined.

Lemma for_each_map {A B S} (f : S -> B -> result S) (g : A -> B) l :
  forall s, Py.for_each f (map g l) s = Py.for_each (fun s a => f s (g a)) l s.
Proof.
  induction l as [|a l IH]; intros s; cbn [map Py.for_each]; [reflexivity|].
  destruct (f s (g a)); cbn [bind]; auto.
Qed.

Lemma len_map {A B} (g : A -> B) l : Py.len (map g l) = Py.len l.
Proof. unfold Py.len. now rewrite length_map. Qed.

Lemma str_or_filled (a : option string) b :
  Py.str_or (Some (Py.get a EmptyString)) b = Py.str_or a b.
Proof. destruct a as [[|c s]|]; reflexivity. Qed.

Lemma analyze_field_filled self res f :
  Naming.analyze_field self res (fill_field f) = Naming.analyze_field self res f.
Proof.
  unfold Naming.analyze_field, Naming.api_name_of, fill_field.
  cbn [Naming.field_apiName Naming.field_fullName Naming.field_label Naming.field_type].
  rewrite !str_or_filled. reflexivity.
Qed.

Lemma analyze_rule_filled self res r :
  Bypass.analyze_rule self res (fill_rule r) = Bypass.analyze_rule self res r.
Proof.
  unfold Bypass.analyze_rule, Bypass.rule_api_name, Bypass.rule_formula_text, fill_rule.
  cbn [Bypass.rule_apiName Bypass.rule_fullName Bypass.rule_errorConditionFormula
       Bypass.rule_formula Bypass.rule_active Bypass.rule_description].
  rewrite !str_or_filled. reflexivity.
Qed.

Lemma analyze_trigger_filled self res t :
  Bypass.analyze_trigger self res (fill_trigger t) = Bypass.analyze_trigger self res t.
Proof.
  unfold Bypass.analyze_trigger, Bypass.trigger_name_text, Bypass.trigger_content_text,
    fill_trigger.
  cbn [Bypass.trigger_name Bypass.trigger_content Bypass.trigger_code
       Bypass.trigger_active].
  rewrite !str_or_filled. reflexivity.
Qed.

Lemma analyze_fields_filled self fields :
  Naming.analyze_fields self (Py.List_ (map fill_field fields)) =
  Naming.analyze_fields self (Py.List_ fields).
Proof.
  unfold Naming.analyze_fields. destruct fields as [|f fields]; [reflexivity|].
  cbn [Py.truth Py.isinstance_list negb orb Py.items map].
  rewrite <- (map_cons fill_field), len_map, for_each_map.
  rewrite (for_each_ext _ _ _ (analyze_field_filled self)). reflexivity.
Qed.

Lemma analyze_rules_filled self rules :
  Bypass.analyze_validation_rules self (Py.List_ (map fill_rule rules)) =
  Bypass.analyze_validation_rules self (Py.List_ rules).
Proof.
  unfold Bypass.analyze_validation_rules. destruct rules as [|r rules]; [reflexivity|].
  cbn [Py.truth Py.isinstance_list negb orb Py.items map].
  rewrite <- (map_cons fill_rule), len_map, for_each_map.
  rewrite (for_each_ext _ _ _ (analyze_rule_filled self)). reflexivity.
Qed.

Lemma analyze_triggers_filled self triggers :
  Bypass.analyze_apex_triggers self (Py.List_ (map fill_trigger triggers)) =
  Bypass.analyze_apex_triggers self (Py.List_ triggers).
Proof.
  unfold Bypass.analyze_apex_triggers. destruct triggers as [|t triggers]; [reflexivity|].
  cbn [Py.truth Py.isinstance_list negb orb Py.items map].
  rewrite <- (map_cons fill_trigger), len_map, for_each_map.
  rewrite (for_each_ext _ _ _ (analyze_trigger_filled self)). reflexivity.
Qed.

(** C9. On non-empty lists the three analyzers return, whatever keys
    the records lack; a record with absent keys is analysed as the record
    with the empty string (or [False] for [active]) at those keys; and in
    [generate_recommendation] a violation whose text mentions lowercase
    is recorded only for a non-empty name, so that [api_name[0]] never
    raises. *)
Theorem missing_fields_never_raise (self : Bypass.BypassPatternAnalyzer)
    (fields : list Naming.field) (rules : list Bypass.validation_rule)
    (triggers : list Bypass.trigger) :
  fields <> [] ->
  rules <> [] -> Py.len rules <= Num.maxsize ->
  triggers <> [] -> Py.len triggers <= Num.maxsize ->
  (exists res, Naming.analyze_fields Naming.init (Py.List_ fields) = Ok res) /\
  (exists res, Bypass.analyze_validation_rules self (Py.List_ rules) = Ok res) /\
  (exists res, Bypass.analyze_apex_triggers self (Py.List_ triggers) = Ok res) /\
  Naming.analyze_fields Naming.init (Py.List_ (map fill_field fields)) =
    Naming.analyze_fields Naming.init (Py.List_ fields) /\
  Bypass.analyze_validation_rules self (Py.List_ (map fill_rule rules)) =
    Bypass.analyze_validation_rules self (Py.List_ rules) /\
  Bypass.analyze_apex_triggers self (Py.List_ (map fill_trigger triggers)) =
    Bypass.analyze_apex_triggers self (Py.List_ triggers) /\
  (forall api_name,
     Naming.any_violation (fun v => Str.contains "lowercase" (Naming.rule_of v))
       (found Naming.init api_name) = true ->
     api_name <> EmptyString) /\
  (forall api_name,
     exists fix_, Naming.generate_recommendation api_name (found Naming.init api_name)
                  = Ok fix_).
Proof.
  intros Hf Hr Hrmax Ht Htmax.
  destruct (fields_analysis fields Hf) as (resf & Hresf & _).
  destruct (validation_analysis self rules Hr Hrmax) as (resr & sr & Hresr & _).
  destruct (trigger_analysis self triggers Ht Htmax) as (rest & st & Hrest & _).
  split; [eauto|]. split; [eauto|]. split; [eauto|].
  split; [apply analyze_fields_filled|].
  split; [apply analyze_rules_filled|].
  split; [apply analyze_triggers_filled|].
  split; [exact lowercase_needs_char|exact recommendation_total].
Qed.

Lemma missing_fields_never_raise_witness :
  (exists res, Naming.analyze_fields Naming.init (Py.List_ [bare_field]) = Ok res) /\
  (exists res, Bypass.analyze_validation_rules Bypass.init (Py.List_ [bare_rule]) = Ok res) /\
  (exists res, Bypass.analyze_apex_triggers Bypass.init (Py.List_ [bare_trigger]) = Ok res) /\
  Naming.analyze_fields Naming.init (Py.List_ (map fill_field [bare_field])) =
    Naming.analyze_fields Naming.init (Py.List_ [bare_field]) /\
  Bypass.analyze_validation_rules Bypass.init (Py.List_ (map fill_rule [bare_rule])) =
    Bypass.analyze_validation_rules Bypass.init (Py.List_ [bare_rule]) /\
  Bypass.analyze_apex_triggers Bypass.init (Py.List_ (map fill_trigger [bare_trigger])) =
    Bypass.analyze_apex_triggers Bypass.init (Py.List_ [bare_trigger]) /\
  (forall api_name,
     Naming.any_violation (fun v => Str.contains "lowercase" (Naming.rule_of v))
       (found Naming.init api_name) = true ->
     api_name <> EmptyString) /\
  (forall api_name,
     exists fix_, Naming.generate_recommendation api_name (found Naming.init api_name)
                  = Ok fix_).
Proof.
  apply (missing_fields_never_raise Bypass.init [bare_field] [bare_rule] [bare_trigger]).
  - discriminate.
  - discriminate.
  - vm_compute. discriminate.
  - discriminate.
  - vm_compute. discriminate.
Defined.

Lemma method_loop {S A Acc} (body : Acc -> A -> Method.method S Acc)
    (pure : S -> Acc -> A -> result Acc) (self : S) :
  (forall acc a, body acc a self = (pure self acc a, self)) ->
  forall l acc,
    Method.for_each body l acc self = (Py.for_each (pure self) l acc, self).
Proof.
  intros Hbody. induction l as [|a l IH]; intros acc;
    cbn [Method.for_each Py.for_each]; [reflexivity|].
  unfold Method.bind. rewrite Hbody.
  destruct (pure self acc a) as [acc'|e]; cbn [bind]; [apply IH|reflexivity].
Qed.

Lemma analyze_field_method self res f :
  NamingMethods.analyze_field res f self = (Naming.analyze_field self res f, self).
Proof.
  unfold NamingMethods.analyze_field, Naming.analyze_field, Naming.rule_violations,
    Naming.loan_violations, NamingMethods.generate_recommendation,
    NamingMethods.determine_severity, Method.bind, Method.read, Method.ret, Method.lift.
  destruct (Str.contains "Loan" (Naming.api_name_of f) ||
            Str.contains "loan" (Naming.api_name_of f))%bool.
  - destruct (_ ++ _)%list as [|v vs]; [reflexivity|].
    destruct (Naming.generate_recommendation _ _) as [s|e]; cbn [bind]; [|reflexivity].
    destruct (Py.dict_append _ _ _); reflexivity.
  - rewrite app_nil_r. destruct (flat_map _ _) as [|v vs]; [reflexivity|].
    destruct (Naming.generate_recommendation _ _) as [s|e]; cbn [bind]; [|reflexivity].
    destruct (Py.dict_append _ _ _); reflexivity.
Qed.

Lemma analyze_fields_method self fields :
  NamingMethods.analyze_fields fields self = (Naming.analyze_fields self fields, self).
Proof.
  unfold NamingMethods.analyze_fields, Naming.analyze_fields.
  destruct (_ || _)%bool; [reflexivity|].
  unfold Method.bind. rewrite (method_loop _ _ self (analyze_field_method self)).
  destruct (Py.for_each _ _ _) as [r|e]; cbn [bind]; [|reflexivity].
  unfold Method.lift, Method.ret.
  destruct (Num.truediv _ _) as [ratio|]; cbn [bind]; [|reflexivity].
  destruct (Num.mul ratio _) as [scaled|]; cbn [bind]; [|reflexivity].
  destruct (Num.round scaled); reflexivity.
Qed.

Lemma finish_method self res component_type :
  BypassMethods.finish res component_type self =
  (Bypass.finish res component_type, self).
Proof.
  unfold BypassMethods.finish, Bypass.finish, BypassMethods.calculate_security_score,
    Method.bind, Method.lift, Method.ret.
  destruct (if Bypass.total res >? 0 then _ else _) as [p|e]; cbn [bind]; [|reflexivity].
  destruct (Bypass.calculate_security_score _ _); reflexivity.
Qed.

Lemma analyze_rule_method self res r :
  BypassMethods.analyze_rule res r self = (Bypass.analyze_rule self res r, self).
Proof.
  unfold BypassMethods.analyze_rule, Bypass.analyze_rule,
    BypassMethods.determine_highest_severity, Method.bind, Method.read, Method.lift,
    Method.ret.
  destruct (Bypass.scan _ _ _ _) as [[fs index]|e]; cbn [bind]; [|reflexivity].
  destruct fs; reflexivity.
Qed.

Lemma analyze_trigger_method self res t :
  BypassMethods.analyze_trigger res t self = (Bypass.analyze_trigger self res t, self).
Proof.
  unfold BypassMethods.analyze_trigger, Bypass.analyze_trigger,
    BypassMethods.determine_highest_severity, Method.bind, Method.read, Method.lift,
    Method.ret.
  destruct (Bypass.scan _ _ _ _) as [[fs index]|e]; cbn [bind]; [|reflexivity].
  destruct fs; reflexivity.
Qed.

Lemma analyze_validation_rules_method self rules :
  BypassMethods.analyze_validation_rules rules self =
  (Bypass.analyze_validation_rules self rules, self).
Proof.
  unfold BypassMethods.analyze_validation_rules, Bypass.analyze_validation_rules.
  destruct (_ || _)%bool; [reflexivity|].
  unfold Method.bind at 1 2. unfold BypassMethods.initial, Method.bind, Method.read,
    Method.ret.
  rewrite (method_loop _ _ self (analyze_rule_method self)).
  destruct (Py.for_each _ _ _) as [r|e]; cbn [bind]; [apply finish_method|reflexivity].
Qed.

Lemma analyze_apex_triggers_method self triggers :
  BypassMethods.analyze_apex_triggers triggers self =
  (Bypass.analyze_apex_triggers self triggers, self).
Proof.
  unfold BypassMethods.analyze_apex_triggers, Bypass.analyze_apex_triggers.
  destruct (_ || _)%bool; [reflexivity|].
  unfold Method.bind at 1 2. unfold BypassMethods.initial, Method.bind, Method.read,
    Method.ret.
  rewrite (method_loop _ _ self (analyze_trigger_method self)).
  destruct (Py.for_each _ _ _) as [r|e]; cbn [bind]; [apply finish_method|reflexivity].
Qed.

(** C10. With the instance threaded through every read of an attribute
    and every call on [self], each of the three analyses ends with the
    instance it started with, and returns what the function of the
    catalogs and the argument returns. Hence a second call on the same
    argument returns the same as the first, and a call returns the same
    whatever was analysed before it. *)
Theorem analyzers_are_deterministic
    (naming : Naming.NamingConventionAnalyzer) (bypass : Bypass.BypassPatternAnalyzer)
    (fields other_fields : Py.obj Naming.field)
    (rules other_rules : Py.obj Bypass.validation_rule)
    (triggers other_triggers : Py.obj Bypass.trigger) :
  NamingMethods.analyze_fields fields naming =
    (Naming.analyze_fields naming fields, naming) /\
  BypassMethods.analyze_validation_rules rules bypass =
    (Bypass.analyze_validation_rules bypass rules, bypass) /\
  BypassMethods.analyze_apex_triggers triggers bypass =
    (Bypass.analyze_apex_triggers bypass triggers, bypass) /\
  (let '(first, second, after) :=
     call_twice (NamingMethods.analyze_fields fields)
                (NamingMethods.analyze_fields fields) naming in
   first = second /\ after = naming) /\
  (let '(_, second, after) :=
     call_twice (NamingMethods.analyze_fields other_fields)
                (NamingMethods.analyze_fields fields) naming in
   second = fst (NamingMethods.analyze_fields fields naming) /\ after = naming) /\
  (let '(first, second, after) :=
     call_twice (BypassMethods.analyze_validation_rules rules)
                (BypassMethods.analyze_validation_rules rules) bypass in
   first = second /\ after = bypass) /\
  (let '(_, second, after) :=
     call_twice (BypassMethods.analyze_apex_triggers other_triggers)
                (BypassMethods.analyze_validation_rules rules) bypass in
   second = fst (BypassMethods.analyze_validation_rules rules bypass) /\
   after = bypass) /\
  (let '(first, second, after) :=
     call_twice (BypassMethods.analyze_apex_triggers triggers)
                (BypassMethods.analyze_apex_triggers triggers) bypass in
   first = second /\ after = bypass) /\
  (let '(_, second, after) :=
     call_twice (BypassMethods.analyze_validation_rules other_rules)
                (BypassMethods.analyze_apex_triggers triggers) bypass in
   second = fst (BypassMethods.analyze_apex_triggers triggers bypass) /\
   after = bypass).
Proof.
  unfold call_twice.
  do 2 (rewrite ?analyze_fields_method, ?analyze_validation_rules_method,
          ?analyze_apex_triggers_method; cbv beta iota zeta).
  cbn [fst]. repeat split; reflexivity.
Qed.

(** The threading is not idle: after a method that assigns to the
    catalog, the instance is another one and the same analysis returns
    another result. *)
Example assignment_is_observed :
  let '(_, second, after) :=
    call_twice drop_rules (NamingMethods.analyze_fields (Py.List_ sample_fields))
      Naming.init in
  second <> fst (NamingMethods.analyze_fields (Py.List_ sample_fields) Naming.init) /\
  after <> Naming.init.
Proof. vm_compute. split; discriminate. Qed.

(** C1, where the code departs from the specification. The
    specification has a rule with the formula
    [$Profile.Name != 'System Administrator'] flagged with one finding,
    the profile-based bypass, of severity Medium. In the code no pattern
    of the validation catalog matches this formula, the profile pattern
    asking for [=], then [=] or [!], then [=]: the analysis of such a
    rule returns with no flagged rule, nothing filed under the profile
    pattern and nothing under Medium. *)
Theorem admin_formula_not_flagged (r : Bypass.validation_rule) :
  Bypass.rule_errorConditionFormula r = Some admin_formula ->
  exists res,
    Bypass.analyze_validation_rules Bypass.init (Py.List_ [r]) = Ok res /\
    Bypass.bypass_patterns res = [] /\
    Bypass.with_bypass res = 0 /\
    Py.dict_get (Bypass.by_pattern res) "Profile-based bypass" = Ok [] /\
    Py.dict_get (Bypass.by_severity res) "Medium" = Ok [].
Proof.
  intros Hf.
  destruct r as [api full formula other active descr]; simpl in Hf; subst formula.
  eexists; split; [vm_compute; reflexivity|].
  repeat split.
Qed.

Lemma admin_formula_not_flagged_witness :
  exists res,
    Bypass.analyze_validation_rules Bypass.init
      (Py.List_ [formula_rule "nc_Loan_Admin_Bypass" admin_formula]) = Ok res /\
    Bypass.bypass_patterns res = [] /\
    Bypass.with_bypass res = 0 /\
    Py.dict_get (Bypass.by_pattern res) "Profile-based bypass" = Ok [] /\
    Py.dict_get (Bypass.by_severity res) "Medium" = Ok [].
Proof.
  apply (admin_formula_not_flagged _). reflexivity.
Defined.

(** C4, where the code departs from the specification. The
    specification has the field [customField__c] classified [medium].
    In the code the analysis records one entry for the field, with the
    three catalog violations (both prefixes absent, lowercase start),
    and files it under [low], leaving [medium] empty:
    [determine_severity] looks for the text [custom project-specific],
    and the catalog spells it with a capital C. The field is not counted
    as compliant. *)
Theorem custom_field_is_low (f : Naming.field) :
  Naming.field_apiName f = Some "customField__c" ->
  exists res entry,
    Naming.analyze_fields Naming.init (Py.List_ [f]) = Ok res /\
    Naming.violations res = [entry] /\
    map Naming.rule_of (Naming.violations_of entry) =
      [managed_rule; custom_rule; lowercase_rule] /\
    Naming.determine_severity (Naming.violations_of entry) = "low" /\
    Py.dict_get (Naming.by_severity res) "medium" = Ok [] /\
    Py.dict_get (Naming.by_severity res) "low" = Ok [entry] /\
    Naming.compliant_field_count res = 0.
Proof.
  intros Hf. destruct f as [api full lbl typ]; simpl in Hf; subst api.
  eexists; eexists; split; [vm_compute; reflexivity|].
  repeat split.
Qed.

Lemma custom_field_is_low_witness :
  exists res entry,
    Naming.analyze_fields Naming.init (Py.List_ [named_field "customField__c"]) = Ok res /\
    Naming.violations res = [entry] /\
    map Naming.rule_of (Naming.violations_of entry) =
      [managed_rule; custom_rule; lowercase_rule] /\
    Naming.determine_severity (Naming.violations_of entry) = "low" /\
    Py.dict_get (Naming.by_severity res) "medium" = Ok [] /\
    Py.dict_get (Naming.by_severity res) "low" = Ok [entry] /\
    Naming.compliant_field_count res = 0.
Proof.
  apply (custom_field_is_low _). reflexivity.
Defined.

(** C5, where the code departs from the specification. The
    specification has the field [nc_Loan_Score__c] compliant, with no
    violation. In the code it lacks the managed prefix and starts with a
    lowercase letter: it is recorded with these two violations, filed
    under [low], and not counted as compliant. *)
Theorem loan_score_field_is_flagged (f : Naming.field) :
  Naming.field_apiName f = Some "nc_Loan_Score__c" ->
  exists res entry,
    Naming.analyze_fields Naming.init (Py.List_ [f]) = Ok res /\
    Naming.violations res = [entry] /\
    map Naming.rule_of (Naming.violations_of entry) = [managed_rule; lowercase_rule] /\
    Py.dict_get (Naming.by_severity res) "low" = Ok [entry] /\
    Naming.compliant_field_count res = 0.
Proof.
  intros Hf. destruct f as [api full lbl typ]; simpl in Hf; subst api.
  eexists; eexists; split; [vm_compute; reflexivity|].
  repeat split.
Qed.

Lemma loan_score_field_is_flagged_witness :
  exists res entry,
    Naming.analyze_fields Naming.init (Py.List_ [named_field "nc_Loan_Score__c"]) = Ok res /\
    Naming.violations res = [entry] /\
    map Naming.rule_of (Naming.violations_of entry) = [managed_rule; lowercase_rule] /\
    Py.dict_get (Naming.by_severity res) "low" = Ok [entry] /\
    Naming.compliant_field_count res = 0.
Proof.
  apply (loan_score_field_is_flagged _). reflexivity.
Defined.



(** The order of the two operations matters for the percentage in
    general: 23 compliant fields out of 40 would give 57 by the code's
    [round((c / t) * 100)] and 58 by [round(100 * c / t)]. No input
    reaches these counts, since no field is compliant. *)
Lemma percentage_orders_differ :
  (ratio <- Num.truediv (Num.Int 23) (Num.Int 40) ;;
   scaled <- Num.mul ratio (Num.Int 100) ;;
   Num.round scaled) = Ok 57 /\
  percentage_of 23 40 = Ok 58.
Proof. split; vm_compute; reflexivity. Qed.

(** Twenty rules, each with a hard-coded user id: the arithmetic gives
    100 - 30 - 100 and the score is clamped to 0. *)
Lemma all_high_clamps_to_zero :
  exists res,
    Bypass.analyze_validation_rules Bypass.init
      (Py.List_ (repeat (formula_rule "nc_Owner" "$User.Id === x") 20)) = Ok res /\
    Bypass.with_bypass res = 20 /\
    Py.dict_get (Bypass.by_severity res) "High" = Ok (repeat "nc_Owner" 20) /\
    Bypass.security_score res = Some 0.
Proof. eexists; split; [vm_compute; reflexivity|]. repeat split. Qed.

(** The catalogs on texts of the repository's sample data. *)
Example sample_admin_rule_not_flagged :
  is_flagged (Bypass.validation_rule_patterns Bypass.init)
    "AND(ISPICKVAL(LLC_BI__Status__c, 'Pending'), $Profile.Name != 'System Administrator')"
  = false.
Proof. vm_compute. reflexivity. Qed.

Example triple_equals_is_flagged :
  map Bypass.name
    (filter (is_hit "$Profile.Name === 'System Administrator'")
       (Bypass.validation_rule_patterns Bypass.init))
  = ["Profile-based bypass"].
Proof. vm_compute. reflexivity. Qed.

Example feature_management_trigger :
  exists res entry,
    Bypass.analyze_apex_triggers Bypass.init (Py.List_ sample_triggers) = Ok res /\
    Bypass.bypass_patterns res = [entry] /\
    map Bypass.finding_name (Bypass.patterns entry) =
      ["Feature management permission check"] /\
    Bypass.highest_severity entry = "Low".
Proof. eexists; eexists; split; [vm_compute; reflexivity|]. repeat split. Qed.

(** ** The naming analysis: entries, buckets and summary *)

Section SummaryFacts.
Import Naming.

Lemma dict_get_ok_in {V} (d : Py.dict V) k v :
  Py.dict_get d k = Ok v -> In k (map fst d).
Proof.
  induction d as [|[k' v'] d IH]; simpl; [discriminate|].
  destruct (String.eqb_spec k' k); auto.
Qed.

Lemma dict_append_get {V} (d d' : Py.dict (list V)) k x :
  Py.dict_append d k x = Ok d' ->
  map fst d' = map fst d /\
  forall k', Py.dict_get d' k' =
    if String.eqb k' k then l <- Py.dict_get d k ;; Ok (l ++ [x])%list
    else Py.dict_get d k'.
Proof.
  unfold Py.dict_append. destruct (Py.dict_get d k) as [l|] eqn:E; [|discriminate].
  cbn [bind]. intros [= <-]. pose proof (dict_get_ok_in _ _ _ E) as Hin. split.
  - now apply dict_set_keys.
  - intros k'. destruct (String.eqb_spec k' k) as [->|Hne].
    + now apply dict_get_set_same.
    + now apply dict_get_set_other.
Qed.

Lemma for_each_invariant {A S} (P : S -> Prop) (body : S -> A -> result S) :
  (forall s a s', body s a = Ok s' -> P s -> P s') ->
  forall l s s', Py.for_each body l s = Ok s' -> P s -> P s'.
Proof.
  intros Hstep. induction l as [|a l IH]; cbn [Py.for_each]; intros s s' H Hs.
  - now injection H as <-.
  - apply bind_ok in H as (s1 & H1 & H2). eauto.
Qed.

Lemma for_each_app {A S} (body : S -> A -> result S) l1 l2 : forall s,
  Py.for_each body (l1 ++ l2) s = (s' <- Py.for_each body l1 s ;; Py.for_each body l2 s').
Proof.
  induction l1 as [|a l1 IH]; intros s; cbn [Py.for_each app bind]; [reflexivity|].
  destruct (body s a); cbn [bind]; auto.
Qed.

Lemma for_each_flat_map {A B S} (body : S -> B -> result S) (g : A -> list B) l :
  forall s,
  Py.for_each (fun s a => Py.for_each body (g a) s) l s =
  Py.for_each body (flat_map g l) s.
Proof.
  induction l as [|a l IH]; intros s; cbn [Py.for_each flat_map]; [reflexivity|].
  rewrite for_each_app. destruct (Py.for_each body (g a) s); cbn [bind]; auto.
Qed.

Lemma analyze_field_reports self res f res' :
  analyze_field self res f = Ok res' ->
  found self (api_name_of f) <> [] ->
  exists e, violations res' = (violations res ++ [e])%list /\ reports self f e.
Proof.
  unfold analyze_field, found.
  destruct (rule_violations self (api_name_of f) ++ loan_violations self (api_name_of f))%list
    as [|v vs] eqn:E; [intros _ H; now contradiction H|].
  intros H _. apply bind_ok in H as (s & Hs & H). apply bind_ok in H as (d & _ & H).
  injection H as <-. eexists; split; [reflexivity|].
  unfold reports, found. cbn [apiName label type_ violations_of recommended_fix].
  rewrite E. repeat split; assumption.
Qed.

Lemma fields_loop_reports fields : forall res res',
  Py.for_each (analyze_field init) fields res = Ok res' ->
  exists es, violations res' = (violations res ++ es)%list /\
    Forall2 (reports init) fields es.
Proof.
  induction fields as [|f fields IH]; cbn [Py.for_each]; intros res res' H.
  - injection H as <-. exists []. rewrite app_nil_r. split; [reflexivity|constructor].
  - apply bind_ok in H as (r1 & H1 & H2).
    apply analyze_field_reports in H1 as (e & He & Hr).
    + apply IH in H2 as (es & Hes & Hf). exists (e :: es). split; [|now constructor].
      rewrite Hes, He, <- app_assoc. reflexivity.
    + unfold found. intros E. apply app_eq_nil in E as [E _].
      now apply (init_always_violates (api_name_of f)).
Qed.

Lemma analyze_field_filed self res f res' :
  analyze_field self res f = Ok res' -> filed res -> filed res'.
Proof.
  unfold analyze_field.
  destruct (rule_violations self (api_name_of f) ++ loan_violations self (api_name_of f))%list
    as [|v vs].
  - intros [= <-] H. exact H.
  - intros H Hf. apply bind_ok in H as (s & _ & H). apply bind_ok in H as (d & Hd & H).
    injection H as <-. apply dict_append_get in Hd as [_ Hd].
    intros k Hk. cbn [by_severity violations]. rewrite Hd, filter_app.
    cbn [filter]. unfold has_severity at 2. cbn [violations_of].
    destruct (String.eqb_spec k (determine_severity (v :: vs))) as [->|Hne].
    + rewrite Hf by apply determine_severity_bucket. rewrite String.eqb_refl. reflexivity.
    + rewrite Hf by assumption.
      destruct (String.eqb_spec (determine_severity (v :: vs)) k); [congruence|].
      now rewrite app_nil_r.
Qed.

Lemma analysis_is_filed self fields res :
  analyze_fields self fields = Ok res -> filed res.
Proof.
  unfold analyze_fields. destruct (_ || _)%bool; [discriminate|].
  intros H. apply bind_ok in H as (r & Hloop & H).
  apply bind_ok in H as (ratio & _ & H). apply bind_ok in H as (scaled & _ & H).
  apply bind_ok in H as (p & _ & H). injection H as <-.
  apply (for_each_invariant filed _ (analyze_field_filed self)) in Hloop.
  - exact Hloop.
  - intros k Hk. cbn [by_severity violations filter].
    destruct Hk as [<-|[<-|[<-|[]]]]; reflexivity.
Qed.

Lemma analysis_reports fields res :
  analyze_fields init (Py.List_ fields) = Ok res ->
  Forall2 (reports init) fields (violations res).
Proof.
  unfold analyze_fields. destruct (_ || _)%bool; [discriminate|].
  intros H. apply bind_ok in H as (r & Hloop & H).
  apply bind_ok in H as (ratio & _ & H). apply bind_ok in H as (scaled & _ & H).
  apply bind_ok in H as (p & _ & H). injection H as <-.
  apply fields_loop_reports in Hloop as (es & Hes & Hf).
  cbn [violations Py.items app] in *. now rewrite Hes.
Qed.

Lemma has_severity_cases e :
  (has_severity "critical" e = true /\ has_severity "medium" e = false /\
   has_severity "low" e = false) \/
  (has_severity "critical" e = false /\ has_severity "medium" e = true /\
   has_severity "low" e = false) \/
  (has_severity "critical" e = false /\ has_severity "medium" e = false /\
   has_severity "low" e = true).
Proof.
  unfold has_severity.
  destruct (determine_severity_bucket (violations_of e)) as [<-|[<-|[<-|[]]]];
    simpl; tauto.
Qed.

Lemma severity_partition_len (l : list field_violation) :
  Py.len (filter (has_severity "critical") l) +
  Py.len (filter (has_severity "medium") l) +
  Py.len (filter (has_severity "low") l) = Py.len l.
Proof.
  induction l as [|e l IH]; [reflexivity|]. cbn [filter].
  destruct (has_severity_cases e) as [(-> & -> & ->)|[(-> & -> & ->)|(-> & -> & ->)]];
    rewrite !len_cons; lia.
Qed.

Lemma rule_part_plain api : forallb plain (rule_violations init api) = true.
Proof.
  unfold rule_violations, init; simpl convention_rules.
  cbn [flat_map pattern expected description app].
  repeat match goal with
         | |- context [Re.search ?p api] => destruct (Re.search p api)
         end; reflexivity.
Qed.

Lemma loan_part_critical api v :
  In v (loan_violations init api) -> severity_of v = Some "critical".
Proof.
  unfold loan_violations.
  destruct (_ || _)%bool; [|intros []].
  repeat match goal with
         | |- context [if ?b then _ else _] => destruct b
         end; simpl; intuition (subst; reflexivity).
Qed.

Lemma plain_not_found (p : violation -> bool) l :
  (forall v, plain v = true -> p v = false) ->
  forallb plain l = true -> existsb p l = false.
Proof.
  intros Hp. induction l as [|v l IH]; simpl; [reflexivity|].
  intros H. apply andb_prop in H as [Hv Hl]. now rewrite (Hp v Hv), IH.
Qed.

Lemma plain_no_severity v :
  plain v = true ->
  match severity_of v with
  | Some s => String.eqb s "critical"
  | None => false
  end = false.
Proof.
  unfold plain. destruct (severity_of v) as [s|]; [|reflexivity].
  destruct (String.eqb s "critical"); [discriminate|reflexivity].
Qed.

Lemma plain_no_loan v :
  plain v = true ->
  (Str.contains "Loan" (rule_of v) || Str.contains "standard patterns" (rule_of v))%bool
  = false.
Proof.
  unfold plain.
  destruct (Str.contains "Loan" (rule_of v)); [rewrite ?andb_false_r; discriminate|].
  destruct (Str.contains "standard patterns" (rule_of v));
    [rewrite ?andb_false_r; discriminate|reflexivity].
Qed.

Lemma plain_no_custom v :
  plain v = true -> Str.contains "custom project-specific" (rule_of v) = false.
Proof.
  unfold plain. destruct (Str.contains "custom project-specific" (rule_of v));
    [rewrite andb_false_r; discriminate|reflexivity].
Qed.

Lemma severity_by_loan_rule api :
  determine_severity (found init api) =
  match loan_violations init api with
  | [] => "low"
  | _ :: _ => "critical"
  end.
Proof.
  unfold determine_severity, any_violation, found. rewrite !existsb_app.
  pose proof (rule_part_plain api) as Hp.
  rewrite (plain_not_found _ _ plain_no_severity Hp).
  rewrite (plain_not_found _ _ plain_no_loan Hp).
  rewrite (plain_not_found _ _ plain_no_custom Hp).
  cbn [orb].
  pose proof (loan_part_critical api) as Hl.
  destruct (loan_violations init api) as [|v l]; [reflexivity|].
  cbn [existsb]. rewrite (Hl v) by now left. reflexivity.
Qed.

Lemma reported_severity f e :
  reports init f e ->
  determine_severity (violations_of e) =
  if breaks_loan_rule e then "critical" else "low".
Proof.
  intros (Ha & _ & _ & Hv & _). unfold breaks_loan_rule.
  rewrite Hv, Ha, severity_by_loan_rule.
  destruct (loan_violations init (api_name_of f)); reflexivity.
Qed.

Lemma reported_entries fields es :
  Forall2 (reports init) fields es ->
  forall e, In e es -> exists f, In f fields /\ reports init f e.
Proof.
  induction 1 as [|f e fields es Hr _ IH]; intros e' []; subst.
  - exists f. split; [now left|assumption].
  - destruct (IH e' H) as (f' & Hin & Hr'). exists f'. split; [now right|assumption].
Qed.

Lemma reported_length fields es :
  Forall2 (reports init) fields es -> Py.len es = Py.len fields.
Proof. intros H. unfold Py.len. now rewrite (Forall2_length H). Qed.

Lemma reported_names fields es :
  Forall2 (reports init) fields es -> map apiName es = map api_name_of fields.
Proof.
  induction 1 as [|f e fs es (Ha & _) _ IH]; cbn [map]; [reflexivity|].
  now rewrite Ha, IH.
Qed.



Lemma init_buckets fields res :
  analyze_fields init (Py.List_ fields) = Ok res ->
  Py.dict_get (by_severity res) "critical" =
    Ok (filter breaks_loan_rule (violations res)) /\
  Py.dict_get (by_severity res) "medium" = Ok [] /\
  Py.dict_get (by_severity res) "low" =
    Ok (filter (fun e => negb (breaks_loan_rule e)) (violations res)) /\
  Py.len (filter breaks_loan_rule (violations res)) +
  Py.len (filter (fun e => negb (breaks_loan_rule e)) (violations res)) =
    Py.len fields.
Proof.
  intros Hres.
  pose proof (analysis_reports fields res Hres) as Hf.
  pose proof (analysis_is_filed _ _ _ Hres) as Hb.
  pose proof (reported_entries _ _ Hf) as He.
  assert (Hc : filter (has_severity "critical") (violations res) =
               filter breaks_loan_rule (violations res)).
  { apply filter_ext_in. intros e Hin. destruct (He e Hin) as (f & _ & Hr).
    unfold has_severity. rewrite (reported_severity f e Hr).
    destruct (breaks_loan_rule e); reflexivity. }
  assert (Hm : filter (has_severity "medium") (violations res) = []).
  { erewrite filter_ext_in; [apply filter_false|].
    intros e Hin. destruct (He e Hin) as (f & _ & Hr).
    unfold has_severity. rewrite (reported_severity f e Hr).
    destruct (breaks_loan_rule e); reflexivity. }
  assert (Hl : filter (has_severity "low") (violations res) =
               filter (fun e => negb (breaks_loan_rule e)) (violations res)).
  { apply filter_ext_in. intros e Hin. destruct (He e Hin) as (f & _ & Hr).
    unfold has_severity. rewrite (reported_severity f e Hr).
    destruct (breaks_loan_rule e); reflexivity. }
  rewrite <- Hc, <- Hl, <- Hm at 1.
  repeat split; try (apply Hb; simpl; tauto).
  pose proof (severity_partition_len (violations res)) as Hp.
  rewrite Hm in Hp. change (Py.len (@nil field_violation)) with 0 in Hp.
  rewrite <- (reported_length _ _ Hf). rewrite Hc, Hl in Hp. lia.
Qed.

(** X2. With the catalog of [__init__], the severity index of an
    analysis is decided by the loan rules alone: the bucket [critical]
    holds the entries whose name breaks a loan rule, the bucket [low]
    all the others, both in the order of [violations], and the bucket
    [medium] is empty. The three buckets together hold as many entries
    as there are fields. *)
Theorem severity_buckets_by_loan_rule (fields : list field) :
  fields <> [] ->
  exists res,
    analyze_fields init (Py.List_ fields) = Ok res /\
    Py.dict_get (by_severity res) "critical" =
      Ok (filter breaks_loan_rule (violations res)) /\
    Py.dict_get (by_severity res) "medium" = Ok [] /\
    Py.dict_get (by_severity res) "low" =
      Ok (filter (fun e => negb (breaks_loan_rule e)) (violations res)) /\
    Py.len (filter breaks_loan_rule (violations res)) +
    Py.len (filter (fun e => negb (breaks_loan_rule e)) (violations res)) =
      Py.len fields.
Proof.
  intros Hne. destruct (fields_analysis fields Hne) as (res & Hres & _).
  exists res. split; [exact Hres|]. now apply init_buckets.
Qed.

Lemma severity_buckets_by_loan_rule_witness :
  exists res,
    analyze_fields init (Py.List_ sample_fields) = Ok res /\
    Py.dict_get (by_severity res) "critical" =
      Ok (filter breaks_loan_rule (violations res)) /\
    Py.dict_get (by_severity res) "medium" = Ok [] /\
    Py.dict_get (by_severity res) "low" =
      Ok (filter (fun e => negb (breaks_loan_rule e)) (violations res)) /\
    Py.len (filter breaks_loan_rule (violations res)) +
    Py.len (filter (fun e => negb (breaks_loan_rule e)) (violations res)) =
      Py.len sample_fields.
Proof.
  apply (severity_buckets_by_loan_rule sample_fields). discriminate.
Defined.

(** X3. [generate_recommendation] fails in one case only: an empty
    name together with a violation whose rule text mentions lowercase,
    where [api_name[0]] raises [IndexError]. In every other case it
    returns a recommendation that is not the empty string. *)
Theorem recommendation_fails_only_on_empty_name (api : string) (vs : list violation) :
  if (String.eqb api EmptyString &&
      any_violation (fun v => Str.contains "lowercase" (rule_of v)) vs)%bool
  then generate_recommendation api vs = Raise IndexError
  else exists s, generate_recommendation api vs = Ok s /\ s <> EmptyString.
Proof.
  unfold generate_recommendation.
  destruct (any_violation (fun v => Str.contains "lowercase" (rule_of v)) vs).
  - destruct api as [|c api]; cbn [String.eqb andb bind]; [reflexivity|].
    eexists; split; [reflexivity|]. discriminate.
  - rewrite andb_false_r.
    repeat match goal with
           | |- context [if ?b then _ else _] => destruct b
           end; cbn [bind]; eexists; (split; [reflexivity|discriminate]).
Qed.

Lemma dict_has_in {V} (d : Py.dict V) k :
  Py.dict_has d k = true <-> In k (map fst d).
Proof.
  unfold Py.dict_has. rewrite existsb_exists. split.
  - intros ([k' v] & Hin & E). apply String.eqb_eq in E. cbn [fst] in E. subst k'.
    apply in_map_iff. exists (k, v). split; [reflexivity|assumption].
  - intros H. apply in_map_iff in H as ([k' v] & E & Hin). cbn [fst] in E. subst k'.
    exists (k, v). split; [assumption|]. apply String.eqb_refl.
Qed.

Lemma dict_get_absent {V} (d : Py.dict V) k :
  ~ In k (map fst d) -> Py.dict_get d k = Raise (KeyError k).
Proof.
  induction d as [|[k' v] d IH]; cbn [Py.dict_get map fst In]; [reflexivity|].
  intros H. destruct (String.eqb_spec k' k); [tauto|]. apply IH. tauto.
Qed.

Lemma dict_get_set_eq {V} (d : Py.dict V) k v :
  Py.dict_get (Py.dict_set d k v) k = Ok v.
Proof.
  induction d as [|[k' v'] d IH]; cbn [Py.dict_set Py.dict_get].
  - now rewrite String.eqb_refl.
  - destruct (String.eqb_spec k' k) as [->|Hne]; cbn [Py.dict_get].
    + now rewrite String.eqb_refl.
    + destruct (String.eqb_spec k' k); [contradiction|exact IH].
Qed.

Lemma dict_set_keys_new {V} (d : Py.dict V) k v :
  ~ In k (map fst d) -> map fst (Py.dict_set d k v) = (map fst d ++ [k])%list.
Proof.
  induction d as [|[k' v'] d IH]; cbn [Py.dict_set map fst In app]; [reflexivity|].
  intros H. destruct (String.eqb_spec k' k); [tauto|].
  cbn [map fst]. f_equal. apply IH. tauto.
Qed.

Lemma dict_get_unique {V} (d : Py.dict V) k v :
  NoDup (map fst d) -> In (k, v) d -> Py.dict_get d k = Ok v.
Proof.
  induction d as [|[k' v'] d IH]; cbn [map fst Py.dict_get]; [intros _ []|].
  intros Hnd [E|Hin].
  - injection E as -> ->. now rewrite String.eqb_refl.
  - inversion Hnd as [|? ? Hk Hd]; subst.
    destruct (String.eqb_spec k' k) as [->|_]; [|now apply IH].
    contradiction Hk. apply in_map_iff. now exists (k, v).
Qed.

Lemma tally_of_set d k v r :
  tally_of (Py.dict_set d k v) r = if String.eqb r k then v else tally_of d r.
Proof.
  unfold tally_of, Py.dict_get_or. destruct (String.eqb_spec r k) as [->|Hne].
  - now rewrite dict_get_set_eq.
  - now rewrite dict_get_set_other.
Qed.

Lemma count_issue_spec d v :
  exists d',
    count_issue d v = Ok d' /\
    (forall r, tally_of d' r =
               tally_of d r + if String.eqb r (rule_of v) then 1 else 0) /\
    map fst d' = if Py.dict_has d (rule_of v) then map fst d
                 else (map fst d ++ [rule_of v])%list.
Proof.
  unfold count_issue. destruct (Py.dict_has d (rule_of v)) eqn:E.
  - apply dict_has_in in E. destruct (dict_get_in d _ E) as [n Hn]. rewrite Hn.
    cbn [bind]. eexists; split; [reflexivity|]. split; [|now apply dict_set_keys].
    intros r. rewrite tally_of_set. destruct (String.eqb_spec r (rule_of v)) as [->|]; [|lia].
    unfold tally_of, Py.dict_get_or. now rewrite Hn.
  - assert (Hno : ~ In (rule_of v) (map fst d)).
    { intros H. apply dict_has_in in H. congruence. }
    rewrite dict_get_set_eq. cbn [bind]. eexists; split; [reflexivity|]. split.
    + intros r. rewrite !tally_of_set.
      destruct (String.eqb_spec r (rule_of v)) as [->|]; [|lia].
      unfold tally_of, Py.dict_get_or. now rewrite dict_get_absent.
    + rewrite dict_set_keys by apply dict_set_in_self. now apply dict_set_keys_new.
Qed.

Lemma tally_loop l : forall d,
  exists d',
    Py.for_each count_issue l d = Ok d' /\
    (forall r, tally_of d' r =
               tally_of d r + Py.len (filter (String.eqb r) (map rule_of l))) /\
    (NoDup (map fst d) -> NoDup (map fst d')) /\
    (forall r, In r (map fst d') <-> In r (map fst d) \/ In r (map rule_of l)).
Proof.
  induction l as [|v l IH]; intros d; cbn [Py.for_each map filter].
  - exists d. split; [reflexivity|]. split; [intros; unfold Py.len; simpl; lia|].
    split; [auto|]. intros r; simpl; tauto.
  - destruct (count_issue_spec d v) as (d1 & H1 & Ht1 & Hk1). rewrite H1. cbn [bind].
    destruct (IH d1) as (d2 & H2 & Ht2 & Hn2 & Hk2). exists d2. split; [exact H2|].
    split; [|split].
    + intros r. rewrite Ht2, Ht1. destruct (String.eqb r (rule_of v));
        [rewrite len_cons|]; lia.
    + intros Hnd. apply Hn2. rewrite Hk1. destruct (Py.dict_has d (rule_of v)) eqn:E;
        [assumption|].
      apply NoDup_app; [assumption|repeat constructor; simpl; tauto|].
      intros x Hx [<-|[]]. apply dict_has_in in Hx. congruence.
    + intros r. rewrite Hk2, Hk1. cbn [In]. destruct (Py.dict_has d (rule_of v)) eqn:E.
      * apply dict_has_in in E. split; [tauto|]. intros [H|[<-|H]]; tauto.
      * rewrite in_app_iff. cbn [In]. tauto.
Qed.

Lemma insert_desc_perm {A} (key : A -> Z) x l :
  Permutation (x :: l) (Py.insert_desc key x l).
Proof.
  induction l as [|y l IH]; cbn [Py.insert_desc]; [reflexivity|].
  destruct (key y <=? key x); [reflexivity|].
  rewrite perm_swap. now constructor.
Qed.

Lemma sorted_desc_perm {A} (key : A -> Z) l : Permutation l (Py.sorted_desc key l).
Proof.
  induction l as [|x l IH]; cbn [Py.sorted_desc fold_right]; [constructor|].
  rewrite <- insert_desc_perm. now constructor.
Qed.

Lemma insert_desc_sorted {A} (key : A -> Z) x l :
  StronglySorted (falling key) l -> StronglySorted (falling key) (Py.insert_desc key x l).
Proof.
  induction l as [|y l IH]; cbn [Py.insert_desc]; intros Hs.
  - repeat constructor.
  - inversion Hs as [|? ? Hl Hy]; subst. destruct (Z.leb_spec (key y) (key x)) as [Hle|Hgt].
    + constructor; [assumption|]. constructor; [exact Hle|].
      eapply Forall_impl; [|exact Hy]. unfold falling. intros z Hz. lia.
    + constructor; [now apply IH|].
      eapply Permutation_Forall; [apply insert_desc_perm|].
      constructor; [unfold falling; lia|assumption].
Qed.

Lemma sorted_desc_sorted {A} (key : A -> Z) l :
  StronglySorted (falling key) (Py.sorted_desc key l).
Proof.
  induction l as [|x l IH]; cbn [Py.sorted_desc fold_right]; [constructor|].
  now apply insert_desc_sorted.
Qed.

Lemma sorted_app_inv {A} (R : A -> A -> Prop) l1 l2 :
  StronglySorted R (l1 ++ l2) ->
  StronglySorted R l1 /\ forall a b, In a l1 -> In b l2 -> R a b.
Proof.
  induction l1 as [|x l1 IH]; cbn [app]; intros H.
  - split; [constructor|intros a b []].
  - inversion H as [|? ? Hs Hf]; subst. destruct (IH Hs) as [H1 H2]. split.
    + constructor; [assumption|]. apply Forall_app in Hf. tauto.
    + intros a b [<-|Ha] Hb; [|now apply H2].
      rewrite Forall_forall in Hf. apply Hf, in_or_app. now right.
Qed.

Lemma sorted_map {A B} (R : A -> A -> Prop) (R' : B -> B -> Prop) (f : A -> B) l :
  (forall a b, R a b -> R' (f a) (f b)) ->
  StronglySorted R l -> StronglySorted R' (map f l).
Proof.
  intros HR. induction 1 as [|a l Hs IH Hf]; cbn [map]; constructor; [assumption|].
  rewrite Forall_forall in *. intros b Hb. apply in_map_iff in Hb as (x & <- & Hx). auto.
Qed.

Lemma tally_is_total vs :
  exists d,
    Py.for_each (fun issue_types v =>
      Py.for_each count_issue (violations_of v) issue_types) vs [] = Ok d /\
    NoDup (map fst d) /\
    (forall r, In r (map fst d) <-> In r (rules_cited vs)) /\
    (forall r n, In (r, n) d -> n = occurrences r vs).
Proof.
  rewrite for_each_flat_map.
  destruct (tally_loop (flat_map violations_of vs) []) as (d & Hd & Ht & Hn & Hk).
  exists d. split; [exact Hd|]. assert (Hnd : NoDup (map fst d)) by (apply Hn; constructor).
  split; [exact Hnd|]. split.
  - intros r. rewrite Hk. simpl. unfold rules_cited. tauto.
  - intros r n Hin. pose proof (dict_get_unique d r n Hnd Hin) as Hg.
    specialize (Ht r). unfold tally_of, Py.dict_get_or in Ht. rewrite Hg in Ht.
    cbn [Py.dict_get] in Ht. unfold occurrences, rules_cited. lia.
Qed.

Lemma occurrences_positive r vs : In r (rules_cited vs) -> 0 < occurrences r vs.
Proof.
  unfold occurrences. intros H.
  assert (Hin : In r (filter (String.eqb r) (rules_cited vs))).
  { apply filter_In. split; [assumption|apply String.eqb_refl]. }
  destruct (filter (String.eqb r) (rules_cited vs)); [contradiction|].
  rewrite len_cons. pose proof (len_nonneg l). lia.
Qed.

(** X4. [identify_top_issues] never raises. It returns at most five
    entries, each for a different rule text, in falling order of count;
    the count of an entry is the number of violations with that rule
    text, and is positive. A rule text that occurs but is not listed is
    left out only because five are listed already, and it occurs no
    more often than any of those. *)
Theorem top_issues_are_most_frequent (vs : list field_violation) :
  exists top,
    identify_top_issues vs = Ok top /\
    (List.length top <= 5)%nat /\
    NoDup (map issue_rule top) /\
    StronglySorted (falling issue_count) top /\
    (forall t, In t top ->
       issue_count t = occurrences (issue_rule t) vs /\ 0 < issue_count t) /\
    (forall r, In r (rules_cited vs) -> ~ In r (map issue_rule top) ->
       List.length top = 5%nat /\
       forall t, In t top -> occurrences r vs <= issue_count t).
Proof.
  unfold identify_top_issues.
  destruct (tally_is_total vs) as (d & Hd & Hnd & Hk & Hv). rewrite Hd. cbn [bind].
  eexists; split; [reflexivity|].
  set (mk := fun item : string * Z => {| issue_rule := fst item; issue_count := snd item |}).
  pose proof (sorted_desc_perm snd d) as Hperm.
  pose proof (sorted_desc_sorted snd d) as Hsort.
  set (s := Py.sorted_desc snd d) in *.
  rewrite <- (firstn_skipn 5 s) in Hsort. apply sorted_app_inv in Hsort as [Hs1 Hs2].
  assert (Hin : forall x, In x (firstn 5 s) -> In x d).
  { intros x Hx. eapply Permutation_in; [symmetry; exact Hperm|].
    rewrite <- (firstn_skipn 5 s). apply in_or_app. now left. }
  assert (Hrule : map issue_rule (map mk (firstn 5 s)) = map fst (firstn 5 s)).
  { rewrite map_map. reflexivity. }
  split; [rewrite length_map; apply firstn_le_length|].
  split.
  { rewrite Hrule.
    assert (Hnds : NoDup (map fst s)).
    { eapply Permutation_NoDup; [apply Permutation_map; exact Hperm|exact Hnd]. }
    rewrite <- (firstn_skipn 5 s), map_app in Hnds. now apply NoDup_app_remove_r in Hnds. }
  split.
  { apply (sorted_map (falling snd)); [|exact Hs1]. intros a b H. exact H. }
  split.
  { intros t Ht. apply in_map_iff in Ht as ([r n] & <- & Hx). cbn [mk issue_rule issue_count fst snd].
    pose proof (Hv r n (Hin _ Hx)) as ->. split; [reflexivity|].
    apply occurrences_positive, Hk. apply in_map_iff. exists (r, occurrences r vs).
    split; [reflexivity|]. now apply Hin. }
  intros r Hr Hno. rewrite Hrule in Hno.
  apply Hk in Hr. apply in_map_iff in Hr as ([r' n] & E & Hrd). cbn [fst] in E. subst r'.
  assert (Hrs : In (r, n) (skipn 5 s)).
  { assert (H : In (r, n) s) by (eapply Permutation_in; eassumption).
    rewrite <- (firstn_skipn 5 s) in H. apply in_app_or in H as [H|H]; [|exact H].
    contradiction Hno. apply in_map_iff. now exists (r, n). }
  split.
  { rewrite length_map, length_firstn. apply Nat.min_l.
    destruct (Nat.le_gt_cases 5 (List.length s)) as [H|H]; [exact H|].
    rewrite skipn_all2 in Hrs by lia. contradiction. }
  intros t Ht. apply in_map_iff in Ht as ([r' n'] & <- & Hx). cbn [mk issue_count snd].
  rewrite <- (Hv r n Hrd). apply (Hs2 (r', n') (r, n) Hx Hrs).
Qed.

Lemma top_issues_are_most_frequent_witness :
  exists top,
    identify_top_issues sample_entries = Ok top /\
    List.length top = 5%nat /\
    forall t, In t top -> occurrences "rule g" sample_entries <= issue_count t.
Proof.
  destruct (top_issues_are_most_frequent sample_entries) as (top & Htop & _ & _ & _ & _ & H).
  exists top. split; [exact Htop|]. apply H.
  - vm_compute. tauto.
  - vm_compute in Htop. injection Htop as <-. vm_compute. intuition discriminate.
Defined.

Lemma top_issues_total vs : exists top, identify_top_issues vs = Ok top.
Proof.
  unfold identify_top_issues. destruct (tally_is_total vs) as (d & -> & _).
  cbn [bind]. eauto.
Qed.

Lemma init_advice res c :
  Py.dict_get (by_severity res) "critical" = Ok c ->
  Py.dict_get (by_severity res) "medium" = Ok [] ->
  compliance_percentage res = Some 0 ->
  generate_general_recommendations res = Ok (naming_advice (Py.len c)).
Proof.
  intros Hc Hm Hp. unfold generate_general_recommendations, percentage_key, naming_advice.
  rewrite Hc, Hp, Hm. cbn [bind]. change (0 <? 70) with true. cbv iota.
  change (Py.len (@nil field_violation) >? 0) with false. cbv iota.
  destruct (Py.len c =? 0); cbn [bind]; now rewrite <- app_assoc.
Qed.

Lemma init_summary fields res :
  fields <> [] -> analyze_fields init (Py.List_ fields) = Ok res ->
  exists s,
    generate_summary_report res = Ok s /\
    total_fields s = Py.len fields /\
    compliant_fields s = 0 /\
    summary_compliance_percentage s = 0 /\
    violation_count s = Py.len fields /\
    critical_violations s = Py.len (filter breaks_loan_rule (violations res)) /\
    medium_violations s = 0 /\
    critical_violations s + low_violations s = Py.len fields /\
    identify_top_issues (violations res) = Ok (top_issues s) /\
    recommendations s = naming_advice (critical_violations s).
Proof.
  intros Hne Hres.
  destruct (fields_analysis fields Hne) as (res' & Hres' & Hc & Ht & Hsum & Hp).
  assert (res' = res) by congruence. subst res'.
  destruct (init_buckets fields res Hres) as (Hbc & Hbm & Hbl & Hlen).
  destruct (top_issues_total (violations res)) as [top Htop].
  eexists. unfold generate_summary_report, percentage_key.
  rewrite Hp, Hbc, Hbm, Hbl, Htop, (init_advice res _ Hbc Hbm Hp). cbn [bind].
  split; [reflexivity|].
  cbn [total_fields compliant_fields summary_compliance_percentage violation_count
       critical_violations medium_violations low_violations top_issues recommendations].
  repeat split; try assumption; try reflexivity; lia.
Qed.

(** X5. With the catalog of [__init__], the summary of the analysis of
    a non-empty list of fields is always produced, and it reports every
    field as a violation: no compliant field and a compliance of 0
    percent, no violation of medium severity, and the critical and low
    counts add up to the number of fields. The recommendations always
    advise to document the conventions and to automate the validation
    (the compliance is below 70), end with the advice to audit
    regularly, and start with the advice to address critical violations
    exactly when some name breaks a loan rule. *)
Theorem summary_of_analysis (fields : list field) :
  fields <> [] ->
  exists res s,
    analyze_fields init (Py.List_ fields) = Ok res /\
    generate_summary_report res = Ok s /\
    total_fields s = Py.len fields /\
    compliant_fields s = 0 /\
    summary_compliance_percentage s = 0 /\
    violation_count s = Py.len fields /\
    critical_violations s = Py.len (filter breaks_loan_rule (violations res)) /\
    medium_violations s = 0 /\
    critical_violations s + low_violations s = Py.len fields /\
    identify_top_issues (violations res) = Ok (top_issues s) /\
    recommendations s = naming_advice (critical_violations s).
Proof.
  intros Hne. destruct (fields_analysis fields Hne) as (res & Hres & _).
  destruct (init_summary fields res Hne Hres) as (s & H).
  exists res, s. split; [exact Hres|exact H].
Qed.

Lemma summary_of_analysis_witness :
  exists res s,
    analyze_fields init (Py.List_ sample_fields) = Ok res /\
    generate_summary_report res = Ok s /\
    total_fields s = Py.len sample_fields /\
    compliant_fields s = 0 /\
    summary_compliance_percentage s = 0 /\
    violation_count s = Py.len sample_fields /\
    critical_violations s = Py.len (filter breaks_loan_rule (violations res)) /\
    medium_violations s = 0 /\
    critical_violations s + low_violations s = Py.len sample_fields /\
    identify_top_issues (violations res) = Ok (top_issues s) /\
    recommendations s = naming_advice (critical_violations s).
Proof.
  apply (summary_of_analysis sample_fields). discriminate.
Defined.

End SummaryFacts.

(** ** The bypass analysis: entries, indexes and advice *)

Section IndexFacts.
Import Bypass.

Lemma appended_refl {V} (d : Py.dict (list V)) : appended d d (fun _ => []).
Proof. intros n. destruct (Py.dict_get d n); cbn [bind]; now rewrite ?app_nil_r. Qed.

Lemma appended_trans {V} (d2 d1 d0 : Py.dict (list V)) e1 e2 :
  appended d1 d0 e1 -> appended d2 d1 e2 ->
  appended d2 d0 (fun n => e1 n ++ e2 n)%list.
Proof.
  intros H1 H2 n. rewrite H2, H1. destruct (Py.dict_get d0 n); cbn [bind]; [|reflexivity].
  now rewrite app_assoc.
Qed.

Lemma appended_ext {V} (d' d : Py.dict (list V)) e1 e2 :
  (forall n, e1 n = e2 n) -> appended d' d e1 -> appended d' d e2.
Proof. intros He H n. now rewrite H, He. Qed.

Lemma dict_append_appended {V} (d d' : Py.dict (list V)) k x :
  Py.dict_append d k x = Ok d' ->
  appended d' d (fun n => if String.eqb n k then [x] else []).
Proof.
  intros H. pose proof H as H0. apply dict_append_get in H as [_ H]. intros n. rewrite H.
  destruct (String.eqb_spec n k) as [->|]; [reflexivity|].
  destruct (Py.dict_get d n); cbn [bind]; now rewrite ?app_nil_r.
Qed.

Lemma scan_content catalog text ident :
  forall found0 index0 found index,
  Py.for_each (scan_step text ident) catalog (found0, index0) = Ok (found, index) ->
  found = (found0 ++ findings_in catalog text)%list /\
  appended index index0 (filed_under catalog text ident).
Proof.
  unfold findings_in, filed_under.
  induction catalog as [|p catalog IH]; intros found0 index0 found index;
    cbn [Py.for_each filter map flat_map].
  - intros [= <- <-]. rewrite app_nil_r. split; [reflexivity|apply appended_refl].
  - unfold scan_step at 1. change (Re.search (regex_ p) text) with (is_hit text p).
    destruct (is_hit text p); cbn [andb].
    + intros H. apply bind_ok in H as ([f1 i1] & H1 & H2).
      apply bind_ok in H1 as (d & Hd & H1). injection H1 as <- <-.
      apply IH in H2 as [-> Ha]. split; [cbn [map]; now rewrite <- app_assoc|].
      apply dict_append_appended in Hd.
      eapply appended_ext; [|exact (appended_trans _ _ _ _ _ Hd Ha)].
      intros n. cbn beta. destruct (String.eqb n (name p)); reflexivity.
    + cbn [bind app]. intros H. apply IH in H as [-> Ha]. split; [reflexivity|exact Ha].
Qed.

Lemma findings_flagged catalog text :
  is_flagged catalog text = match findings_in catalog text with [] => false | _ => true end.
Proof.
  unfold findings_in. pose proof (hits_nil catalog text) as H.
  destruct (filter (is_hit text) catalog) as [|p l]; cbn [map].
  - now apply H.
  - destruct (is_flagged catalog text); [reflexivity|].
    destruct H as [_ H]. discriminate H. reflexivity.
Qed.

Lemma loop_body_content {A} catalog (text_of ident_of : A -> string) item_of res a res' :
  loop_body catalog text_of ident_of item_of res a = Ok res' ->
  keys_of res' = keys_of res /\ total res' = total res /\
  bypass_patterns res' =
    (bypass_patterns res ++
     if is_flagged catalog (text_of a)
     then [item_of a (findings_in catalog (text_of a))] else [])%list /\
  appended (by_pattern res') (by_pattern res)
    (filed_under catalog (text_of a) (ident_of a)) /\
  appended (by_severity res') (by_severity res)
    (fun n =>
       if (is_flagged catalog (text_of a) &&
           String.eqb n
             (highest_severity (item_of a (findings_in catalog (text_of a)))))%bool
       then [ident_of a] else []).
Proof.
  unfold loop_body, scan. intros H. apply bind_ok in H as ([fs idx] & Hscan & H).
  apply scan_content in Hscan as [-> Hidx]. cbn [app] in H.
  rewrite findings_flagged.
  destruct (findings_in catalog (text_of a)) as [|f fs] eqn:E.
  - injection H as <-. cbn [with_index keys_of total bypass_patterns by_pattern by_severity andb].
    rewrite app_nil_r. repeat split; [exact Hidx|apply appended_refl].
  - unfold record_item in H. apply bind_ok in H as (d & Hd & H). injection H as <-.
    cbn [keys_of total bypass_patterns by_pattern by_severity andb].
    repeat split; [exact Hidx|]. now apply dict_append_appended.
Qed.

Lemma loop_content {A} catalog (text_of ident_of : A -> string) item_of l :
  forall res res',
  Py.for_each (loop_body catalog text_of ident_of item_of) l res = Ok res' ->
  keys_of res' = keys_of res /\ total res' = total res /\
  bypass_patterns res' =
    (bypass_patterns res ++
     map (fun a => item_of a (findings_in catalog (text_of a)))
       (filter (fun a => is_flagged catalog (text_of a)) l))%list /\
  appended (by_pattern res') (by_pattern res)
    (fun n => flat_map (fun a => filed_under catalog (text_of a) (ident_of a) n) l) /\
  appended (by_severity res') (by_severity res)
    (fun n => flat_map (fun a =>
       if (is_flagged catalog (text_of a) &&
           String.eqb n
             (highest_severity (item_of a (findings_in catalog (text_of a)))))%bool
       then [ident_of a] else []) l).
Proof.
  induction l as [|a l IH]; intros res res'; cbn [Py.for_each filter map flat_map].
  - intros [= <-]. rewrite app_nil_r. repeat split; apply appended_refl.
  - intros H. apply bind_ok in H as (r1 & H1 & H2).
    apply loop_body_content in H1 as (Hk1 & Ht1 & Hb1 & Hp1 & Hs1).
    apply IH in H2 as (Hk2 & Ht2 & Hb2 & Hp2 & Hs2).
    split; [congruence|]. split; [congruence|]. split; [|split].
    + rewrite Hb2, Hb1, <- app_assoc. f_equal.
      destruct (is_flagged catalog (text_of a)); reflexivity.
    + exact (appended_trans _ _ _ _ _ Hp1 Hp2).
    + exact (appended_trans _ _ _ _ _ Hs1 Hs2).
Qed.

Lemma finish_content res component_type res' :
  finish res component_type = Ok res' ->
  same_counts res' res /\
  bypass_patterns res' = bypass_patterns res /\
  by_pattern res' = by_pattern res /\
  (exists p,
     (if total res >? 0 then
        ratio <- Num.truediv (Num.Int (with_bypass res)) (Num.Int (total res)) ;;
        scaled <- Num.mul ratio (Num.Int 100) ;;
        Num.round scaled
      else Ok 0) = Ok p /\
     bypass_percentage res' = Some p) /\
  (exists r s,
     same_counts r res /\
     calculate_security_score r component_type = Ok s /\
     security_score res' = Some s).
Proof.
  unfold finish. intros H. apply bind_ok in H as (p & Hp & H).
  apply bind_ok in H as (s & Hs & H). injection H as <-.
  cbn [keys_of bypass_patterns by_pattern by_severity total with_bypass
       bypass_percentage security_score].
  unfold same_counts. cbn [keys_of by_severity total with_bypass].
  repeat split; eauto.
  eexists _, s. split; [|split; [exact Hs|reflexivity]].
  cbn [keys_of by_severity total with_bypass]. repeat split.
Qed.

Lemma score_of_same_counts r1 r2 component_type :
  same_counts r1 r2 ->
  calculate_security_score r1 component_type = calculate_security_score r2 component_type.
Proof.
  intros (Hk & Hs & Ht & Hw). unfold calculate_security_score, counts_for.
  now rewrite Hk, Hs, Ht, Hw.
Qed.

Lemma flat_map_if {A B} (c : A -> bool) (g : A -> B) l :
  flat_map (fun a => if c a then [g a] else []) l = map g (filter c l).
Proof.
  induction l as [|a l IH]; cbn [flat_map filter map]; [reflexivity|].
  destruct (c a); cbn [map app]; now rewrite IH.
Qed.

Lemma initial_index_get catalog : forall (d : Py.dict (list string)),
  let d' := fold_left (fun d pattern_ => Py.dict_set d (name pattern_) []) catalog d in
  (forall k, Py.dict_get d k = Ok [] -> Py.dict_get d' k = Ok []) /\
  (forall p, In p catalog -> Py.dict_get d' (name p) = Ok []).
Proof.
  induction catalog as [|q catalog IH]; intros d; cbn [fold_left]; [simpl; tauto|].
  destruct (IH (Py.dict_set d (name q) [])) as [Hkeep Hin]. split.
  - intros k Hk. apply Hkeep. destruct (String.eqb_spec k (name q)) as [->|Hne].
    + apply dict_get_set_eq.
    + now rewrite dict_get_set_other.
  - intros p [<-|Hp]; [apply Hkeep, dict_get_set_eq|now apply Hin].
Qed.

Lemma filed_under_other catalog text ident n :
  (forall q, In q catalog -> name q <> n) -> filed_under catalog text ident n = [].
Proof.
  unfold filed_under. induction catalog as [|q catalog IH]; cbn [flat_map]; [reflexivity|].
  intros H. rewrite IH by (intros; apply H; now right).
  destruct (String.eqb_spec n (name q)) as [->|_].
  - contradiction (H q); [now left|reflexivity].
  - now rewrite andb_false_r.
Qed.

Lemma filed_under_unique catalog text ident p :
  NoDup (map name catalog) -> In p catalog ->
  filed_under catalog text ident (name p) = if is_hit text p then [ident] else [].
Proof.
  induction catalog as [|q catalog IH]; cbn [map]; [intros _ []|].
  intros Hnd Hin. inversion Hnd as [|? ? Hq Hc]; subst.
  change (filed_under (q :: catalog) text ident (name p))
    with ((if (is_hit text q && String.eqb (name p) (name q))%bool then [ident] else []) ++
          filed_under catalog text ident (name p))%list.
  destruct Hin as [->|Hin].
  - rewrite String.eqb_refl, andb_true_r, filed_under_other; [now rewrite app_nil_r|].
    intros q Hin E. apply Hq. rewrite <- E. now apply in_map.
  - rewrite IH by assumption. destruct (String.eqb_spec (name p) (name q)) as [E|_].
    + contradiction Hq. rewrite <- E. now apply in_map.
    + now rewrite andb_false_r.
Qed.

Lemma flagged_and_high catalog text :
  (is_flagged catalog text && String.eqb "High" (worst_of catalog text))%bool =
  is_high catalog text.
Proof.
  unfold worst_of. pose proof (high_is_flagged catalog text) as H.
  destruct (is_high catalog text); [now rewrite H|].
  destruct (is_medium catalog text); now rewrite andb_false_r.
Qed.

Lemma flagged_and_medium catalog text :
  (is_flagged catalog text && String.eqb "Medium" (worst_of catalog text))%bool =
  is_medium catalog text.
Proof.
  unfold worst_of. pose proof (medium_is_flagged catalog text) as H.
  assert (Hm : is_high catalog text = true -> is_medium catalog text = false).
  { unfold is_medium. now intros ->. }
  destruct (is_high catalog text); [rewrite Hm by reflexivity; now rewrite andb_false_r|].
  destruct (is_medium catalog text); [now rewrite H|now rewrite andb_false_r].
Qed.

Lemma flagged_and_low catalog text :
  (is_flagged catalog text && String.eqb "Low" (worst_of catalog text))%bool =
  is_low catalog text.
Proof.
  unfold worst_of, is_low.
  destruct (is_high catalog text); [now rewrite !andb_false_r|].
  destruct (is_medium catalog text); [now rewrite !andb_false_r|].
  now rewrite !andb_true_r.
Qed.

Lemma analysis_content {A} catalog k (text_of ident_of : A -> string) item_of l ct res :
  (forall a fs, highest_severity (item_of a fs) = determine_highest_severity fs) ->
  (res0 <- Py.for_each (loop_body catalog text_of ident_of item_of) l
             (initial k catalog (Py.len l)) ;;
   finish res0 ct) = Ok res ->
  keys_of res = k /\
  bypass_patterns res =
    map (fun a => item_of a (findings_in catalog (text_of a)))
      (filter (fun a => is_flagged catalog (text_of a)) l) /\
  (NoDup (map name catalog) -> forall p, In p catalog ->
     Py.dict_get (by_pattern res) (name p) =
       Ok (map ident_of (filter (fun a => is_hit (text_of a) p) l))) /\
  Py.dict_get (by_severity res) "High" =
    Ok (map ident_of (filter (fun a => is_high catalog (text_of a)) l)) /\
  Py.dict_get (by_severity res) "Medium" =
    Ok (map ident_of (filter (fun a => is_medium catalog (text_of a)) l)) /\
  Py.dict_get (by_severity res) "Low" =
    Ok (map ident_of (filter (fun a => is_low catalog (text_of a)) l)).
Proof.
  intros Hitem H. apply bind_ok in H as (r0 & Hloop & Hfin).
  apply loop_content in Hloop as (Hk & _ & Hb & Hp & Hs).
  apply finish_content in Hfin as ((Hk' & Hs' & _) & Hb' & Hp' & _).
  cbn [initial keys_of bypass_patterns by_pattern by_severity app] in *.
  split; [congruence|]. split; [congruence|]. rewrite Hp', Hs'. split.
  - intros Hnd p Hin. rewrite Hp.
    destruct (initial_index_get catalog []) as [_ Hget]. cbn zeta in Hget.
    rewrite (Hget p Hin). cbn [bind app]. f_equal. rewrite <- flat_map_if.
    apply flat_map_ext. intros a. now apply filed_under_unique.
  - assert (Hsev : forall n, In n bypass_keys ->
      Py.dict_get (by_severity r0) n =
      Ok (map ident_of
            (filter (fun a => (is_flagged catalog (text_of a) &&
                               String.eqb n (worst_of catalog (text_of a)))%bool) l))).
    { intros n Hn. rewrite Hs.
      replace (Py.dict_get [("High", []); ("Medium", []); ("Low", [])] n)
        with (Ok (@nil string) : result (list string))
        by (destruct Hn as [<-|[<-|[<-|[]]]]; reflexivity).
      cbn [bind app]. f_equal. rewrite <- flat_map_if. apply flat_map_ext. intros a.
      rewrite Hitem. unfold findings_in. rewrite highest_of_hits. reflexivity. }
    rewrite !Hsev by (simpl; tauto).
    repeat split; do 2 f_equal; apply filter_ext; intros a.
    + apply flagged_and_high.
    + apply flagged_and_medium.
    + apply flagged_and_low.
Qed.

Lemma validation_content self rules res :
  analyze_validation_rules self (Py.List_ rules) = Ok res ->
  (res0 <- Py.for_each
             (loop_body (validation_rule_patterns self) rule_formula_text rule_api_name
                rule_item) rules
             (initial rules_keys (validation_rule_patterns self) (Py.len rules)) ;;
   finish res0 "validation") = Ok res.
Proof.
  unfold analyze_validation_rules. destruct (_ || _)%bool; [discriminate|].
  cbn [Py.items]. now rewrite (for_each_ext _ _ _ (analyze_rule_body self)).
Qed.

Lemma trigger_content self triggers res :
  analyze_apex_triggers self (Py.List_ triggers) = Ok res ->
  (res0 <- Py.for_each
             (loop_body (apex_trigger_patterns self) trigger_content_text
                trigger_name_text trigger_item) triggers
             (initial triggers_keys (apex_trigger_patterns self) (Py.len triggers)) ;;
   finish res0 "trigger") = Ok res.
Proof.
  unfold analyze_apex_triggers. destruct (_ || _)%bool; [discriminate|].
  cbn [Py.items]. now rewrite (for_each_ext _ _ _ (analyze_trigger_body self)).
Qed.

Lemma rule_item_severity r fs :
  highest_severity (rule_item r fs) = determine_highest_severity fs.
Proof. reflexivity. Qed.

Lemma trigger_item_severity t fs :
  highest_severity (trigger_item t fs) = determine_highest_severity fs.
Proof. reflexivity. Qed.

(** X6. The list [bypass_patterns] of an analysis holds one entry for
    each record that some pattern of the catalog matches, in the order
    of the input, and none for the others. The entry of a record carries
    its findings in the order of the catalog and, as its highest
    severity, the worst severity among them. This holds for validation
    rules and for triggers. *)
Theorem flagged_records_in_input_order (self : BypassPatternAnalyzer)
    (rules : list validation_rule) (triggers : list trigger) :
  rules <> [] -> Py.len rules <= Num.maxsize ->
  triggers <> [] -> Py.len triggers <= Num.maxsize ->
  (exists res,
     analyze_validation_rules self (Py.List_ rules) = Ok res /\
     bypass_patterns res =
       map (rule_entry self) (filter (rule_is is_flagged self) rules)) /\
  (exists res,
     analyze_apex_triggers self (Py.List_ triggers) = Ok res /\
     bypass_patterns res =
       map (trigger_entry self) (filter (trigger_is is_flagged self) triggers)).
Proof.
  intros Hr Hrmax Ht Htmax. split.
  - destruct (validation_analysis self rules Hr Hrmax) as (res & s & Hres & _).
    exists res. split; [exact Hres|].
    apply validation_content, analysis_content in Hres; [|exact rule_item_severity].
    tauto.
  - destruct (trigger_analysis self triggers Ht Htmax) as (res & s & Hres & _).
    exists res. split; [exact Hres|].
    apply trigger_content, analysis_content in Hres; [|exact trigger_item_severity].
    tauto.
Qed.

Lemma flagged_records_in_input_order_witness :
  (exists res,
     analyze_validation_rules init (Py.List_ sample_rules) = Ok res /\
     bypass_patterns res =
       map (rule_entry init) (filter (rule_is is_flagged init) sample_rules)) /\
  (exists res,
     analyze_apex_triggers init (Py.List_ sample_triggers) = Ok res /\
     bypass_patterns res =
       map (trigger_entry init) (filter (trigger_is is_flagged init) sample_triggers)).
Proof.
  apply (flagged_records_in_input_order init sample_rules sample_triggers).
  - discriminate.
  - vm_compute. discriminate.
  - discriminate.
  - vm_compute. discriminate.
Defined.

(** X7. When the names of a catalog are distinct, the pattern index of
    an analysis lists under the name of each pattern the identifiers of
    the records that this pattern matches, in the order of the input;
    a pattern that matches nothing keeps the empty list. This holds for
    validation rules and for triggers. *)
Theorem pattern_index_lists_matches (self : BypassPatternAnalyzer)
    (rules : list validation_rule) (triggers : list trigger) :
  NoDup (map name (validation_rule_patterns self)) ->
  NoDup (map name (apex_trigger_patterns self)) ->
  rules <> [] -> Py.len rules <= Num.maxsize ->
  triggers <> [] -> Py.len triggers <= Num.maxsize ->
  (exists res,
     analyze_validation_rules self (Py.List_ rules) = Ok res /\
     forall p, In p (validation_rule_patterns self) ->
       Py.dict_get (by_pattern res) (name p) =
         Ok (map rule_api_name
               (filter (fun r => is_hit (rule_formula_text r) p) rules))) /\
  (exists res,
     analyze_apex_triggers self (Py.List_ triggers) = Ok res /\
     forall p, In p (apex_trigger_patterns self) ->
       Py.dict_get (by_pattern res) (name p) =
         Ok (map trigger_name_text
               (filter (fun t => is_hit (trigger_content_text t) p) triggers))).
Proof.
  intros Hnr Hnt Hr Hrmax Ht Htmax. split.
  - destruct (validation_analysis self rules Hr Hrmax) as (res & s & Hres & _).
    exists res. split; [exact Hres|].
    apply validation_content, analysis_content in Hres; [|exact rule_item_severity].
    destruct Hres as (_ & _ & H & _). now apply H.
  - destruct (trigger_analysis self triggers Ht Htmax) as (res & s & Hres & _).
    exists res. split; [exact Hres|].
    apply trigger_content, analysis_content in Hres; [|exact trigger_item_severity].
    destruct Hres as (_ & _ & H & _). now apply H.
Qed.

Lemma pattern_index_lists_matches_witness :
  (exists res,
     analyze_validation_rules init (Py.List_ sample_rules) = Ok res /\
     forall p, In p (validation_rule_patterns init) ->
       Py.dict_get (by_pattern res) (name p) =
         Ok (map rule_api_name
               (filter (fun r => is_hit (rule_formula_text r) p) sample_rules))) /\
  (exists res,
     analyze_apex_triggers init (Py.List_ sample_triggers) = Ok res /\
     forall p, In p (apex_trigger_patterns init) ->
       Py.dict_get (by_pattern res) (name p) =
         Ok (map trigger_name_text
               (filter (fun t => is_hit (trigger_content_text t) p) sample_triggers))).
Proof.
  apply (pattern_index_lists_matches init sample_rules sample_triggers).
  - repeat constructor; simpl; intuition discriminate.
  - repeat constructor; simpl; intuition discriminate.
  - discriminate.
  - vm_compute. discriminate.
  - discriminate.
  - vm_compute. discriminate.
Defined.

Lemma flagged_partition {A} catalog (text_of : A -> string) l :
  count (fun a => is_flagged catalog (text_of a)) l =
  count (fun a => is_high catalog (text_of a)) l +
  count (fun a => is_medium catalog (text_of a)) l +
  count (fun a => is_low catalog (text_of a)) l.
Proof.
  induction l as [|a l IH]; [reflexivity|]. rewrite !count_cons, IH.
  unfold is_low, one_if.
  pose proof (high_is_flagged catalog (text_of a)) as Hh.
  pose proof (medium_is_flagged catalog (text_of a)) as Hm.
  assert (Hx : is_high catalog (text_of a) = true -> is_medium catalog (text_of a) = false).
  { unfold is_medium. now intros ->. }
  destruct (is_high catalog (text_of a)).
  - rewrite Hh, Hx by reflexivity. cbn [negb andb]. lia.
  - destruct (is_medium catalog (text_of a)).
    + rewrite Hm by reflexivity. cbn [negb andb]. lia.
    + destruct (is_flagged catalog (text_of a)); cbn [negb andb]; lia.
Qed.

Lemma len_map_filter {A B} (g : A -> B) (c : A -> bool) l :
  Py.len (map g (filter c l)) = count c l.
Proof. unfold count, Py.len. now rewrite length_map. Qed.

(** X8. The severity index of an analysis lists under [High] the
    identifiers of the records matched by a pattern of severity High,
    under [Medium] those matched by a pattern of severity Medium and by
    none of severity High, and under [Low] the other flagged records,
    each in the order of the input. Every flagged record is in exactly
    one of the three lists: their lengths add up to the count of
    flagged records. This holds for validation rules and for
    triggers. *)
Theorem severity_index_lists_worst (self : BypassPatternAnalyzer)
    (rules : list validation_rule) (triggers : list trigger) :
  rules <> [] -> Py.len rules <= Num.maxsize ->
  triggers <> [] -> Py.len triggers <= Num.maxsize ->
  (exists res high medium low,
     analyze_validation_rules self (Py.List_ rules) = Ok res /\
     Py.dict_get (by_severity res) "High" = Ok high /\
     Py.dict_get (by_severity res) "Medium" = Ok medium /\
     Py.dict_get (by_severity res) "Low" = Ok low /\
     high = map rule_api_name (filter (rule_is is_high self) rules) /\
     medium = map rule_api_name (filter (rule_is is_medium self) rules) /\
     low = map rule_api_name (filter (rule_is is_low self) rules) /\
     with_bypass res = Py.len high + Py.len medium + Py.len low) /\
  (exists res high medium low,
     analyze_apex_triggers self (Py.List_ triggers) = Ok res /\
     Py.dict_get (by_severity res) "High" = Ok high /\
     Py.dict_get (by_severity res) "Medium" = Ok medium /\
     Py.dict_get (by_severity res) "Low" = Ok low /\
     high = map trigger_name_text (filter (trigger_is is_high self) triggers) /\
     medium = map trigger_name_text (filter (trigger_is is_medium self) triggers) /\
     low = map trigger_name_text (filter (trigger_is is_low self) triggers) /\
     with_bypass res = Py.len high + Py.len medium + Py.len low).
Proof.
  intros Hr Hrmax Ht Htmax. split.
  - destruct (validation_analysis self rules Hr Hrmax) as (res & s & Hres & Ha).
    destruct Ha as [_ _ _ _ Hw _ _ _ _].
    pose proof (analysis_content _ _ _ _ _ _ _ _ rule_item_severity
                  (validation_content _ _ _ Hres)) as Hc.
    destruct Hc as (_ & _ & _ & Hh & Hm & Hl).
    exists res. do 3 eexists. split; [exact Hres|].
    split; [exact Hh|]. split; [exact Hm|]. split; [exact Hl|].
    repeat split. rewrite !len_map_filter, Hw. apply flagged_partition.
  - destruct (trigger_analysis self triggers Ht Htmax) as (res & s & Hres & Ha).
    destruct Ha as [_ _ _ _ Hw _ _ _ _].
    pose proof (analysis_content _ _ _ _ _ _ _ _ trigger_item_severity
                  (trigger_content _ _ _ Hres)) as Hc.
    destruct Hc as (_ & _ & _ & Hh & Hm & Hl).
    exists res. do 3 eexists. split; [exact Hres|].
    split; [exact Hh|]. split; [exact Hm|]. split; [exact Hl|].
    repeat split. rewrite !len_map_filter, Hw. apply flagged_partition.
Qed.

Lemma severity_index_lists_worst_witness :
  (exists res high medium low,
     analyze_validation_rules init (Py.List_ sample_rules) = Ok res /\
     Py.dict_get (by_severity res) "High" = Ok high /\
     Py.dict_get (by_severity res) "Medium" = Ok medium /\
     Py.dict_get (by_severity res) "Low" = Ok low /\
     high = map rule_api_name (filter (rule_is is_high init) sample_rules) /\
     medium = map rule_api_name (filter (rule_is is_medium init) sample_rules) /\
     low = map rule_api_name (filter (rule_is is_low init) sample_rules) /\
     with_bypass res = Py.len high + Py.len medium + Py.len low) /\
  (exists res high medium low,
     analyze_apex_triggers init (Py.List_ sample_triggers) = Ok res /\
     Py.dict_get (by_severity res) "High" = Ok high /\
     Py.dict_get (by_severity res) "Medium" = Ok medium /\
     Py.dict_get (by_severity res) "Low" = Ok low /\
     high = map trigger_name_text (filter (trigger_is is_high init) sample_triggers) /\
     medium = map trigger_name_text (filter (trigger_is is_medium init) sample_triggers) /\
     low = map trigger_name_text (filter (trigger_is is_low init) sample_triggers) /\
     with_bypass res = Py.len high + Py.len medium + Py.len low).
Proof.
  apply (severity_index_lists_worst init sample_rules sample_triggers).
  - discriminate.
  - vm_compute. discriminate.
  - discriminate.
  - vm_compute. discriminate.
Defined.

Lemma clean_percentage (n : Z) :
  0 < n ->
  (if n >? 0 then
     ratio <- Num.truediv (Num.Int 0) (Num.Int n) ;;
     scaled <- Num.mul ratio (Num.Int 100) ;;
     Num.round scaled
   else Ok 0) = Ok 0 /\
  security_score_formula 0 n 0 0 = Ok 100.
Proof.
  intros Hn. destruct n as [|p|p]; try lia. split; reflexivity.
Qed.

Lemma clean_analysis {A} catalog k (text_of ident_of : A -> string) item_of l ct res s :
  (forall a fs, highest_severity (item_of a fs) = determine_highest_severity fs) ->
  (res0 <- Py.for_each (loop_body catalog text_of ident_of item_of) l
             (initial k catalog (Py.len l)) ;;
   finish res0 ct) = Ok res ->
  analysed catalog text_of l res s ->
  l <> [] ->
  (forall a, In a l -> is_flagged catalog (text_of a) = false) ->
  bypass_patterns res = [] /\ with_bypass res = 0 /\
  bypass_percentage res = Some 0 /\ security_score res = Some 100.
Proof.
  intros Hitem Hres [Hs _ Hf Ht Hw _ _ _ _] Hne Hclean.
  destruct (count_none _ l Hclean) as [Hnil Hzero].
  assert (Hpos : 0 < Py.len l).
  { destruct l; [contradiction|]. rewrite len_cons. pose proof (len_nonneg l). lia. }
  destruct (clean_percentage _ Hpos) as [Hp Hscore].
  pose proof (analysis_content _ _ _ _ _ _ _ _ Hitem Hres) as (_ & Hb & _).
  rewrite Hnil in Hb. split; [exact Hb|]. rewrite Hzero in Hw. split; [exact Hw|].
  split.
  - apply bind_ok in Hres as (r0 & _ & Hfin).
    apply finish_content in Hfin as ((_ & _ & Ht0 & Hw0) & _ & _ & (p & Hp0 & Hbp) & _).
    rewrite <- Ht0, <- Hw0, Ht, Hw, Hp in Hp0. congruence.
  - pose proof (count_le (fun a => is_high catalog (text_of a))
                  (fun a => is_flagged catalog (text_of a)) l
                  (fun a => high_is_flagged catalog (text_of a))) as Hh.
    pose proof (count_le (fun a => is_medium catalog (text_of a))
                  (fun a => is_flagged catalog (text_of a)) l
                  (fun a => medium_is_flagged catalog (text_of a))) as Hm.
    pose proof (count_bounds (fun a => is_high catalog (text_of a)) l) as Hh0.
    pose proof (count_bounds (fun a => is_medium catalog (text_of a)) l) as Hm0.
    replace (count (fun a => is_high catalog (text_of a)) l) with 0 in Hf by lia.
    replace (count (fun a => is_medium catalog (text_of a)) l) with 0 in Hf by lia.
    rewrite Hzero, Hscore in Hf. congruence.
Qed.

(** X9. An input in which no pattern matches any record is scored
    100: the analysis returns no entry, a count of flagged records of
    0, a bypass percentage of 0 and a security score of 100. This holds
    for validation rules and for triggers. *)
Theorem clean_input_scores_100 (self : BypassPatternAnalyzer)
    (rules : list validation_rule) (triggers : list trigger) :
  rules <> [] -> Py.len rules <= Num.maxsize ->
  (forall r, In r rules -> rule_is is_flagged self r = false) ->
  triggers <> [] -> Py.len triggers <= Num.maxsize ->
  (forall t, In t triggers -> trigger_is is_flagged self t = false) ->
  (exists res,
     analyze_validation_rules self (Py.List_ rules) = Ok res /\
     bypass_patterns res = [] /\ with_bypass res = 0 /\
     bypass_percentage res = Some 0 /\ security_score res = Some 100) /\
  (exists res,
     analyze_apex_triggers self (Py.List_ triggers) = Ok res /\
     bypass_patterns res = [] /\ with_bypass res = 0 /\
     bypass_percentage res = Some 0 /\ security_score res = Some 100).
Proof.
  intros Hr Hrmax Hrc Ht Htmax Htc. split.
  - destruct (validation_analysis self rules Hr Hrmax) as (res & s & Hres & Ha).
    exists res. split; [exact Hres|].
    exact (clean_analysis _ _ _ _ _ _ _ _ _ rule_item_severity
             (validation_content _ _ _ Hres) Ha Hr Hrc).
  - destruct (trigger_analysis self triggers Ht Htmax) as (res & s & Hres & Ha).
    exists res. split; [exact Hres|].
    exact (clean_analysis _ _ _ _ _ _ _ _ _ trigger_item_severity
             (trigger_content _ _ _ Hres) Ha Ht Htc).
Qed.

Lemma clean_input_scores_100_witness :
  (exists res,
     analyze_validation_rules init (Py.List_ clean_rules) = Ok res /\
     bypass_patterns res = [] /\ with_bypass res = 0 /\
     bypass_percentage res = Some 0 /\ security_score res = Some 100) /\
  (exists res,
     analyze_apex_triggers init (Py.List_ clean_triggers) = Ok res /\
     bypass_patterns res = [] /\ with_bypass res = 0 /\
     bypass_percentage res = Some 0 /\ security_score res = Some 100).
Proof.
  apply (clean_input_scores_100 init clean_rules clean_triggers).
  - discriminate.
  - vm_compute. discriminate.
  - intros r [<-|[<-|[]]]; vm_compute; reflexivity.
  - discriminate.
  - vm_compute. discriminate.
  - intros t [<-|[]]; vm_compute; reflexivity.
Defined.

Lemma existsb_false {A} (p : A -> bool) l x :
  existsb p l = false -> In x l -> p x = false.
Proof.
  intros H Hin. destruct (p x) eqn:E; [|reflexivity].
  rewrite <- H. symmetry. apply existsb_exists. eauto.
Qed.

Lemma rank_range s : 0 <= severity_rank s <= 3.
Proof.
  unfold severity_rank.
  destruct (String.eqb s "High"), (String.eqb s "Medium"), (String.eqb s "Low"); lia.
Qed.

Lemma highest_severity_bounds (fs : list finding) :
  In (determine_highest_severity fs) bypass_keys /\
  (forall f, In f fs ->
     severity_rank (determine_highest_severity fs) <=
     severity_rank (finding_severity f)) /\
  (fs <> [] -> (forall f, In f fs -> In (finding_severity f) bypass_keys) ->
   exists f, In f fs /\ finding_severity f = determine_highest_severity fs).
Proof.
  unfold determine_highest_severity, any_finding.
  destruct (existsb (fun p => String.eqb (finding_severity p) "High") fs) eqn:Eh.
  - split; [simpl; tauto|]. split.
    + intros f _. pose proof (rank_range (finding_severity f)). cbn. lia.
    + intros _ _. apply existsb_exists in Eh as (f & Hin & E).
      apply String.eqb_eq in E. eauto.
  - assert (Hh : forall f, In f fs -> finding_severity f <> "High").
    { intros f Hin E. apply (existsb_false _ _ f Eh) in Hin.
      rewrite E in Hin. discriminate. }
    destruct (existsb (fun p => String.eqb (finding_severity p) "Medium") fs) eqn:Em.
    + split; [simpl; tauto|]. split.
      * intros f Hin. pose proof (rank_range (finding_severity f)).
        pose proof (rank_high (finding_severity f)) as [H0 _]. specialize (Hh f Hin).
        change (severity_rank "Medium") with 1.
        destruct (Z.eq_dec (severity_rank (finding_severity f)) 0); [tauto|lia].
      * intros _ _. apply existsb_exists in Em as (f & Hin & E).
        apply String.eqb_eq in E. eauto.
    + assert (Hm : forall f, In f fs -> finding_severity f <> "Medium").
      { intros f Hin E. apply (existsb_false _ _ f Em) in Hin.
        rewrite E in Hin. discriminate. }
      split; [simpl; tauto|]. split.
      * intros f Hin. pose proof (rank_range (finding_severity f)).
        pose proof (rank_high (finding_severity f)) as [H0 _].
        pose proof (rank_medium (finding_severity f)) as [H1 _].
        specialize (Hh f Hin). specialize (Hm f Hin).
        change (severity_rank "Low") with 2.
        destruct (Z.eq_dec (severity_rank (finding_severity f)) 0); [tauto|].
        destruct (Z.eq_dec (severity_rank (finding_severity f)) 1); [tauto|lia].
      * intros Hne Hall. destruct fs as [|f fs]; [contradiction|].
        exists f. split; [now left|].
        destruct (Hall f (or_introl eq_refl)) as [E|[E|[E|[]]]]; [| |now symmetry].
        -- contradiction (Hh f); [now left|now symmetry].
        -- contradiction (Hm f); [now left|now symmetry].
Qed.

Lemma highest_severity_cases (fs : list finding) :
  (determine_highest_severity fs = "High" <->
   exists f, In f fs /\ finding_severity f = "High") /\
  (determine_highest_severity fs = "Medium" <->
   (forall f, In f fs -> finding_severity f <> "High") /\
   exists f, In f fs /\ finding_severity f = "Medium") /\
  (determine_highest_severity fs = "Low" <->
   forall f, In f fs ->
     finding_severity f <> "High" /\ finding_severity f <> "Medium").
Proof.
  unfold determine_highest_severity, any_finding.
  destruct (existsb (fun p => String.eqb (finding_severity p) "High") fs) eqn:Eh.
  - apply existsb_exists in Eh as (f & Hin & E). apply String.eqb_eq in E.
    split; [split; eauto|]. split; split.
    + discriminate.
    + intros (Hno & _). contradiction (Hno f Hin).
    + discriminate.
    + intros Hno. destruct (Hno f Hin) as [Hno' _]. contradiction.
  - assert (Hh : forall f, In f fs -> finding_severity f <> "High").
    { intros f Hin E. apply (existsb_false _ _ f Eh) in Hin.
      rewrite E in Hin. discriminate. }
    destruct (existsb (fun p => String.eqb (finding_severity p) "Medium") fs) eqn:Em.
    + apply existsb_exists in Em as (f & Hin & E). apply String.eqb_eq in E.
      split; [split; [discriminate|]|].
      { intros (g & Hg & Eg). contradiction (Hh g Hg). }
      split; split.
      * intros _. split; [exact Hh|eauto].
      * reflexivity.
      * discriminate.
      * intros Hno. destruct (Hno f Hin) as [_ Hno']. contradiction.
    + assert (Hm : forall f, In f fs -> finding_severity f <> "Medium").
      { intros f Hin E. apply (existsb_false _ _ f Em) in Hin.
        rewrite E in Hin. discriminate. }
      split; [split; [discriminate|]|].
      { intros (g & Hg & Eg). contradiction (Hh g Hg). }
      split; split.
      * discriminate.
      * intros (_ & g & Hg & Eg). contradiction (Hm g Hg).
      * intros _ f Hin. split; [now apply Hh|now apply Hm].
      * reflexivity.
Qed.

(** X10. [determine_highest_severity] returns High exactly when some
    finding has the severity High; Medium exactly when none has High
    and some finding has Medium; and Low in every other case, so for
    the empty list and when the findings carry only other severity
    texts: any other text counts as Low. The result is thus one of
    High, Medium and Low, and no finding of the list is worse than it
    (High before Medium before Low before any other text). When every
    finding has one of the three severities and the list is not empty,
    the result is the severity of one of the findings. *)
Theorem highest_severity_is_worst (fs : list finding) :
  (determine_highest_severity fs = "High" <->
   exists f, In f fs /\ finding_severity f = "High") /\
  (determine_highest_severity fs = "Medium" <->
   (forall f, In f fs -> finding_severity f <> "High") /\
   exists f, In f fs /\ finding_severity f = "Medium") /\
  (determine_highest_severity fs = "Low" <->
   forall f, In f fs ->
     finding_severity f <> "High" /\ finding_severity f <> "Medium") /\
  In (determine_highest_severity fs) bypass_keys /\
  (forall f, In f fs ->
     severity_rank (determine_highest_severity fs) <=
     severity_rank (finding_severity f)) /\
  (fs <> [] -> (forall f, In f fs -> In (finding_severity f) bypass_keys) ->
   exists f, In f fs /\ finding_severity f = determine_highest_severity fs).
Proof.
  destruct (highest_severity_cases fs) as (Hh & Hm & Hl).
  destruct (highest_severity_bounds fs) as (Hin & Hrank & Hsome).
  split; [exact Hh|]. split; [exact Hm|]. split; [exact Hl|].
  split; [exact Hin|]. split; [exact Hrank|exact Hsome].
Qed.

Lemma highest_severity_is_worst_witness :
  (exists f, In f sample_findings /\
     finding_severity f = determine_highest_severity sample_findings) /\
  determine_highest_severity [unrated_finding] = "Low" /\
  determine_highest_severity [] = "Low".
Proof.
  split; [|split].
  - destruct (highest_severity_is_worst sample_findings) as (_ & _ & _ & _ & _ & H).
    apply H; [discriminate|].
    intros f Hin. repeat (destruct Hin as [<-|Hin]; [simpl; tauto|]). destruct Hin.
  - destruct (highest_severity_is_worst [unrated_finding]) as (_ & _ & H & _).
    apply H. intros f [<-|[]]. split; discriminate.
  - destruct (highest_severity_is_worst []) as (_ & _ & H & _).
    apply H. intros f [].
Defined.

Lemma same_counts_sym r1 r2 : same_counts r1 r2 -> same_counts r2 r1.
Proof. unfold same_counts. intuition congruence. Qed.

Lemma analysis_score {A} catalog k (text_of ident_of : A -> string) item_of l ct res :
  (res0 <- Py.for_each (loop_body catalog text_of ident_of item_of) l
             (initial k catalog (Py.len l)) ;;
   finish res0 ct) = Ok res ->
  keys_of res = k /\
  exists s, security_score res = Some s /\ calculate_security_score res ct = Ok s.
Proof.
  intros H. apply bind_ok in H as (r0 & Hloop & Hfin).
  apply loop_content in Hloop as (Hk & _).
  apply finish_content in Hfin as (Hsame & _ & _ & _ & (r & s & Hr & Hs & Hss)).
  split; [destruct Hsame as [-> _]; exact Hk|].
  exists s. split; [exact Hss|].
  rewrite (score_of_same_counts res r0 ct Hsame).
  now rewrite <- (score_of_same_counts r r0 ct Hr).
Qed.

(** X11. The score stored in a result is the one
    [calculate_security_score] gives again for that result with its own
    component type. With the other component type the call raises
    [KeyError]: for the result of a trigger analysis this is what the
    default argument, validation, does. *)
Theorem score_is_recomputable (self : BypassPatternAnalyzer)
    (rules : list validation_rule) (triggers : list trigger) :
  rules <> [] -> Py.len rules <= Num.maxsize ->
  triggers <> [] -> Py.len triggers <= Num.maxsize ->
  (exists res s,
     analyze_validation_rules self (Py.List_ rules) = Ok res /\
     security_score res = Some s /\
     calculate_security_score res "validation" = Ok s /\
     calculate_security_score res "trigger" = Raise (KeyError "triggers_with_bypass")) /\
  (exists res s,
     analyze_apex_triggers self (Py.List_ triggers) = Ok res /\
     security_score res = Some s /\
     calculate_security_score res "trigger" = Ok s /\
     calculate_security_score res "validation" = Raise (KeyError "rules_with_bypass")).
Proof.
  intros Hr Hrmax Ht Htmax. split.
  - destruct (validation_analysis self rules Hr Hrmax) as (res & _ & Hres & _).
    destruct (analysis_score _ _ _ _ _ _ _ _ (validation_content _ _ _ Hres))
      as (Hk & s & Hs & Hc).
    exists res, s. repeat split; try assumption.
    unfold calculate_security_score, counts_for. now rewrite Hk.
  - destruct (trigger_analysis self triggers Ht Htmax) as (res & _ & Hres & _).
    destruct (analysis_score _ _ _ _ _ _ _ _ (trigger_content _ _ _ Hres))
      as (Hk & s & Hs & Hc).
    exists res, s. repeat split; try assumption.
    unfold calculate_security_score, counts_for. now rewrite Hk.
Qed.

Lemma score_is_recomputable_witness :
  (exists res s,
     analyze_validation_rules init (Py.List_ sample_rules) = Ok res /\
     security_score res = Some s /\
     calculate_security_score res "validation" = Ok s /\
     calculate_security_score res "trigger" = Raise (KeyError "triggers_with_bypass")) /\
  (exists res s,
     analyze_apex_triggers init (Py.List_ sample_triggers) = Ok res /\
     security_score res = Some s /\
     calculate_security_score res "trigger" = Ok s /\
     calculate_security_score res "validation" = Raise (KeyError "rules_with_bypass")).
Proof.
  apply (score_is_recomputable init sample_rules sample_triggers).
  - discriminate.
  - vm_compute. discriminate.
  - discriminate.
  - vm_compute. discriminate.
Defined.

Lemma some_filtered {A B} (g : A -> B) (c : A -> bool) l :
  (Py.len (map g (filter c l)) >? 0) = existsb c l.
Proof.
  induction l as [|a l IH]; cbn [filter existsb]; [reflexivity|].
  destruct (c a); cbn [map orb]; [|exact IH].
  rewrite len_cons. pose proof (len_nonneg (map g (filter c l))).
  apply Z.gtb_lt. lia.
Qed.

Lemma analysis_percentage {A} catalog k (text_of ident_of : A -> string) item_of l ct res :
  (res0 <- Py.for_each (loop_body catalog text_of ident_of item_of) l
             (initial k catalog (Py.len l)) ;;
   finish res0 ct) = Ok res ->
  exists p, bypass_percentage res = Some p.
Proof.
  intros H. apply bind_ok in H as (r0 & _ & Hfin).
  apply finish_content in Hfin as (_ & _ & _ & (p & _ & Hp) & _). eauto.
Qed.

Lemma validation_recommendations self rules res :
  analyze_validation_rules self (Py.List_ rules) = Ok res ->
  exists p,
    bypass_percentage res = Some p /\
    generate_general_recommendations res "validation" =
      Ok (validation_advice (existsb (rule_is is_high self) rules) p) /\
    generate_general_recommendations res "trigger" =
      Raise (KeyError "triggers_by_severity").
Proof.
  intros Hres. apply validation_content in Hres.
  destruct (analysis_percentage _ _ _ _ _ _ _ _ Hres) as [p Hp].
  pose proof (analysis_content _ _ _ _ _ _ _ _ rule_item_severity Hres)
    as (Hk & _ & _ & Hh & _).
  exists p. split; [exact Hp|].
  unfold generate_general_recommendations, validation_advice.
  cbn [String.eqb Ascii.eqb Bool.eqb andb]. rewrite Hk, Hh, Hp. cbn [bind Py.get].
  rewrite some_filtered. split; [|reflexivity].
  destruct (existsb _ rules), (p >? 50); reflexivity.
Qed.

Lemma trigger_recommendations self triggers res :
  analyze_apex_triggers self (Py.List_ triggers) = Ok res ->
  generate_general_recommendations res "trigger" =
    Ok (trigger_advice (existsb (trigger_is is_high self) triggers)) /\
  generate_general_recommendations res "validation" =
    Raise (KeyError "rules_by_severity").
Proof.
  intros Hres. apply trigger_content in Hres.
  pose proof (analysis_content _ _ _ _ _ _ _ _ trigger_item_severity Hres)
    as (Hk & _ & _ & Hh & _).
  unfold generate_general_recommendations, trigger_advice.
  cbn [String.eqb Ascii.eqb Bool.eqb andb]. rewrite Hk, Hh. cbn [bind].
  rewrite some_filtered. split; [|reflexivity].
  destruct (existsb _ triggers); reflexivity.
Qed.

(** X12. The general recommendations for an analysis always start
    with the three standing ones. For validation rules, the advice to
    refactor at once follows exactly when some rule is matched by a
    pattern of severity High, and the advice to review the strategy
    exactly when the bypass percentage of the result is above 50. For
    triggers, the advice to refactor at once follows exactly when some
    trigger is matched by a pattern of severity High, and the advice to
    use a handler framework always comes last. With the component type
    of the other analysis the call raises [KeyError]. *)
Theorem general_recommendations_of_analysis (self : BypassPatternAnalyzer)
    (rules : list validation_rule) (triggers : list trigger) :
  rules <> [] -> Py.len rules <= Num.maxsize ->
  triggers <> [] -> Py.len triggers <= Num.maxsize ->
  (exists res p,
     analyze_validation_rules self (Py.List_ rules) = Ok res /\
     bypass_percentage res = Some p /\
     generate_general_recommendations res "validation" =
       Ok (validation_advice (existsb (rule_is is_high self) rules) p) /\
     generate_general_recommendations res "trigger" =
       Raise (KeyError "triggers_by_severity")) /\
  (exists res,
     analyze_apex_triggers self (Py.List_ triggers) = Ok res /\
     generate_general_recommendations res "trigger" =
       Ok (trigger_advice (existsb (trigger_is is_high self) triggers)) /\
     generate_general_recommendations res "validation" =
       Raise (KeyError "rules_by_severity")).
Proof.
  intros Hr Hrmax Ht Htmax. split.
  - destruct (validation_analysis self rules Hr Hrmax) as (res & s & Hres & _).
    destruct (validation_recommendations self rules res Hres) as (p & H).
    exists res, p. split; [exact Hres|exact H].
  - destruct (trigger_analysis self triggers Ht Htmax) as (res & s & Hres & _).
    exists res. split; [exact Hres|]. now apply trigger_recommendations.
Qed.

Lemma general_recommendations_of_analysis_witness :
  (exists res p,
     analyze_validation_rules init (Py.List_ sample_rules) = Ok res /\
     bypass_percentage res = Some p /\
     generate_general_recommendations res "validation" =
       Ok (validation_advice (existsb (rule_is is_high init) sample_rules) p) /\
     generate_general_recommendations res "trigger" =
       Raise (KeyError "triggers_by_severity")) /\
  (exists res,
     analyze_apex_triggers init (Py.List_ sample_triggers) = Ok res /\
     generate_general_recommendations res "trigger" =
       Ok (trigger_advice (existsb (trigger_is is_high init) sample_triggers)) /\
     generate_general_recommendations res "validation" =
       Raise (KeyError "rules_by_severity")).
Proof.
  apply (general_recommendations_of_analysis init sample_rules sample_triggers).
  - discriminate.
  - vm_compute. discriminate.
  - discriminate.
  - vm_compute. discriminate.
Defined.

Lemma same_key_eq a b : same_key a b = true -> a = b.
Proof.
  destruct a as [x s], b as [y t]. unfold same_key. cbn [fst snd]. intros H.
  apply andb_prop in H as [Hx Hs]. apply Z.eqb_eq in Hx. apply String.eqb_eq in Hs.
  congruence.
Qed.

Lemma key_lt_irrefl a : key_lt a a = false.
Proof.
  unfold key_lt. rewrite Z.eqb_refl. unfold String.ltb.
  now rewrite string_compare_refl.
Qed.

Lemma insert_by_filter {A} (key : A -> Z * string) k x l :
  filter (fun y => same_key (key y) k) (insert_by key x l) =
  filter (fun y => same_key (key y) k) (x :: l).
Proof.
  induction l as [|y l IH]; cbn [insert_by]; [reflexivity|].
  destruct (key_lt (key y) (key x)) eqn:E; [|reflexivity].
  cbn [filter] in *. rewrite IH.
  destruct (same_key (key x) k) eqn:Ex, (same_key (key y) k) eqn:Ey; try reflexivity.
  apply same_key_eq in Ex, Ey. rewrite Ex, Ey, key_lt_irrefl in E. discriminate.
Qed.

Lemma sorted_filter {A} (key : A -> Z * string) k l :
  filter (fun y => same_key (key y) k) (sorted key l) =
  filter (fun y => same_key (key y) k) l.
Proof.
  induction l as [|x l IH]; [reflexivity|].
  change (sorted key (x :: l)) with (insert_by key x (sorted key l)).
  rewrite insert_by_filter. cbn [filter]. now rewrite IH.
Qed.

Lemma sorted_fixed l :
  StronglySorted in_order l -> sorted severity_order l = l.
Proof.
  induction 1 as [|x l Hs IH Hf]; [reflexivity|].
  change (sorted severity_order (x :: l))
    with (insert_by severity_order x (sorted severity_order l)).
  rewrite IH. destruct l as [|y l]; [reflexivity|]. cbn [insert_by].
  inversion Hf as [|? ? Hxy _]; subst. apply key_not_lt in Hxy. now rewrite Hxy.
Qed.

(** X13. The refactoring queue is made by a stable sort: the entries
    that share a sort key (the rank of the highest severity and the
    identifier) stand in the queue in the order in which they stand in
    [bypass_patterns]. *)
Theorem priorities_are_stable (res : results) (component_type : string)
    (k : Z * string) :
  filter (fun it => same_key (severity_order it) k)
    (generate_refactoring_priorities res component_type) =
  filter (fun it => same_key (severity_order it) k) (bypass_patterns res).
Proof. unfold generate_refactoring_priorities. apply sorted_filter. Qed.

(** X14. Prioritising twice changes nothing: a result whose
    [bypass_patterns] is a refactoring queue gets that same list back,
    whatever component type is named. *)
Theorem priorities_are_idempotent (res res' : results) (component_type again : string) :
  bypass_patterns res' = generate_refactoring_priorities res component_type ->
  generate_refactoring_priorities res' again = bypass_patterns res'.
Proof.
  unfold generate_refactoring_priorities. intros ->. apply sorted_fixed, sorted_sorted.
Qed.

Lemma priorities_are_idempotent_witness :
  generate_refactoring_priorities
    (with_queue sample_results
       (generate_refactoring_priorities sample_results "validation")) "trigger" =
  generate_refactoring_priorities sample_results "validation".
Proof.
  apply (priorities_are_idempotent sample_results
           (with_queue sample_results
              (generate_refactoring_priorities sample_results "validation"))
           "validation" "trigger").
  reflexivity.
Defined.

End IndexFacts.

(** ** The comprehensive report *)

Section ReportingFacts.
Import Report.

Lemma mentions_in xs x : mentions xs x = true <-> In x xs.
Proof.
  unfold mentions. rewrite existsb_exists. split.
  - intros (y & Hy & E). apply String.eqb_eq in E. now subst.
  - intros H. exists x. split; [assumption|apply String.eqb_refl].
Qed.

Lemma fromkeys_keys xs : forall (d : Py.dict unit),
  NoDup (map fst d) ->
  let d' := fold_left (fun d x => Py.dict_set d x tt) xs d in
  NoDup (map fst d') /\
  (forall s, In s (map fst d') <-> In s (map fst d) \/ In s xs) /\
  (NoDup (map fst d ++ xs) -> map fst d' = (map fst d ++ xs)%list).
Proof.
  induction xs as [|x xs IH]; intros d Hnd; cbn [fold_left].
  - cbn zeta. rewrite app_nil_r. repeat split; auto. simpl; tauto.
  - assert (Hk : map fst (Py.dict_set d x tt) =
                 if mentions (map fst d) x then map fst d else (map fst d ++ [x])%list).
    { destruct (mentions (map fst d) x) eqn:E.
      - apply dict_set_keys. now apply mentions_in.
      - apply dict_set_keys_new. intros H. apply mentions_in in H. congruence. }
    assert (Hnd1 : NoDup (map fst (Py.dict_set d x tt))).
    { rewrite Hk. destruct (mentions (map fst d) x) eqn:E; [assumption|].
      apply NoDup_app; [assumption|repeat constructor; simpl; tauto|].
      intros y Hy [<-|[]]. apply mentions_in in Hy. congruence. }
    destruct (IH _ Hnd1) as (H1 & H2 & H3). cbn zeta in *. split; [exact H1|]. split.
    + intros s. rewrite H2, Hk. cbn [In].
      destruct (mentions (map fst d) x) eqn:E.
      * apply mentions_in in E. split; [tauto|]. intros [H|[<-|H]]; tauto.
      * rewrite in_app_iff. cbn [In]. tauto.
    + intros Hall. destruct (mentions (map fst d) x) eqn:E.
      * apply mentions_in in E. apply NoDup_remove_2 in Hall.
        contradiction Hall. apply in_or_app. now left.
      * rewrite H3; rewrite Hk; rewrite <- app_assoc; [reflexivity|exact Hall].
Qed.

Lemma filter_twice {A} (f g : A -> bool) l :
  filter f (filter g l) = filter (fun x => (g x && f x)%bool) l.
Proof.
  induction l as [|x l IH]; cbn [filter]; [reflexivity|].
  destruct (g x); cbn [filter andb]; [destruct (f x)|]; now rewrite IH.
Qed.

Lemma mentions_one y z : mentions [y] z = String.eqb z y.
Proof. unfold mentions. cbn [existsb]. now rewrite orb_false_r. Qed.

Lemma unique_after ys : forall (d : Py.dict unit),
  NoDup (map fst d) ->
  map fst (fold_left (fun d x => Py.dict_set d x tt) ys d) =
  (map fst d ++ filter (fun y => negb (mentions (map fst d) y)) (Py.unique ys))%list.
Proof.
  unfold Py.unique, Py.fromkeys.
  induction ys as [|y ys IH]; intros d Hnd; cbn [fold_left].
  - cbn [map filter]. now rewrite app_nil_r.
  - assert (Hk : map fst (Py.dict_set d y tt) =
                 if mentions (map fst d) y then map fst d else (map fst d ++ [y])%list).
    { destruct (mentions (map fst d) y) eqn:E.
      - apply dict_set_keys. now apply mentions_in.
      - apply dict_set_keys_new. intros H. apply mentions_in in H. congruence. }
    assert (Hnd1 : NoDup (map fst (Py.dict_set d y tt))).
    { rewrite Hk. destruct (mentions (map fst d) y) eqn:E; [assumption|].
      apply NoDup_app; [assumption|repeat constructor; simpl; tauto|].
      intros z Hz [<-|[]]. apply mentions_in in Hz. congruence. }
    rewrite (IH _ Hnd1), Hk.
    change (Py.dict_set [] y tt) with [(y, tt)].
    rewrite (IH [(y, tt)]) by (repeat constructor; simpl; tauto).
    cbn [map fst app filter]. destruct (mentions (map fst d) y) eqn:E; cbn [negb].
    + f_equal. rewrite filter_twice. apply filter_ext. intros z.
      rewrite mentions_one. destruct (String.eqb_spec z y) as [->|]; [|reflexivity].
      now rewrite E.
    + rewrite <- app_assoc. cbn [app]. do 2 f_equal. rewrite filter_twice.
      apply filter_ext. intros z. unfold mentions at 1. rewrite existsb_app.
      fold (mentions (map fst d) z). fold (mentions [y] z).
      rewrite negb_orb. apply andb_comm.
Qed.

Lemma unique_facts xs :
  NoDup (Py.unique xs) /\
  (forall s, In s (Py.unique xs) <-> In s xs) /\
  (NoDup xs -> Py.unique xs = xs).
Proof.
  unfold Py.unique, Py.fromkeys.
  destruct (fromkeys_keys xs [] (NoDup_nil _)) as (H1 & H2 & H3). cbn zeta in *.
  split; [exact H1|]. split; [|exact H3].
  intros s. rewrite H2. simpl. tauto.
Qed.

Lemma unique_app xs ys :
  Py.unique (xs ++ ys) =
  (Py.unique xs ++ filter (fun y => negb (mentions xs y)) (Py.unique ys))%list.
Proof.
  destruct (unique_facts xs) as (Hnd & Hin & _).
  unfold Py.unique at 1. unfold Py.fromkeys. rewrite fold_left_app.
  rewrite unique_after by exact Hnd. fold (Py.fromkeys xs). fold (Py.unique xs).
  f_equal. apply filter_ext. intros z. f_equal.
  destruct (mentions xs z) eqn:E.
  - apply mentions_in. apply Hin. now apply mentions_in.
  - destruct (mentions (Py.unique xs) z) eqn:E'; [|reflexivity].
    apply mentions_in, Hin, mentions_in in E'. congruence.
Qed.

Lemma recommendations_unfold a :
  generate_recommendations a =
  Py.unique (supplied_recommendations a ++ standing_recommendations).
Proof.
  unfold generate_recommendations, supplied_recommendations, extend.
  destruct (naming_conventions_summary a) as [[[r|] t]|],
           (validation_rules_recommendations a) as [v|],
           (triggers_recommendations a) as [g|];
    cbn [summary_recommendations Py.get app]; rewrite ?app_nil_r, <- ?app_assoc;
    reflexivity.
Qed.

(** X15. The recommendations of a report never repeat one: the list
    returned holds exactly the recommendations handed in with the
    analyses and the three standing ones, each once. What the naming
    summary recommends comes first, then what is new in the validation
    rule recommendations, then what is new in the trigger
    recommendations, then the standing ones not yet named; each part
    keeps its order. A list without repetition is returned as it is. *)
Theorem report_recommendations_are_unique (a : report_analyses) :
  let supplied := supplied_recommendations a in
  let out := generate_recommendations a in
  NoDup out /\
  (forall s, In s out <-> In s supplied \/ In s standing_recommendations) /\
  (NoDup (supplied ++ standing_recommendations) ->
   out = (supplied ++ standing_recommendations)%list) /\
  (forall first rest, (supplied ++ standing_recommendations)%list = (first ++ rest)%list ->
   out = (Py.unique first ++
          filter (fun s => negb (mentions first s)) (Py.unique rest))%list).
Proof.
  cbn zeta. rewrite recommendations_unfold.
  destruct (unique_facts (supplied_recommendations a ++ standing_recommendations))
    as (H1 & H2 & H3).
  split; [exact H1|]. split; [|split; [exact H3|]].
  - intros s. rewrite H2. apply in_app_iff.
  - intros first rest ->. apply unique_app.
Qed.

Lemma report_recommendations_are_unique_witness :
  generate_recommendations sample_analyses =
  (supplied_recommendations sample_analyses ++ standing_recommendations)%list.
Proof.
  destruct (report_recommendations_are_unique sample_analyses) as (_ & _ & H & _).
  apply H. vm_compute. repeat constructor; simpl; intuition discriminate.
Defined.

Lemma overall_score_value (a : analyses) :
  scores_in_range a -> twice_weight a <> 0 ->
  exists r,
    calculate_overall_score a = Ok r /\
    score r = round_ratio (twice_weighted_sum a) (twice_weight a) /\
    rating r = band (score r) /\
    components r = Some {|
      naming_conventions_score := naming_score a;
      validation_rules_score := validation_score a;
      triggers_score := triggers_score_of a |}.
Proof.
  intros (Hn & Hv & Ht).
  unfold calculate_overall_score, twice_weight, twice_weighted_sum.
  destruct a as [[n|] [v|] [t|]];
    cbn [naming_conventions validation_rules triggers present app is_present
         naming_score validation_score triggers_score_of] in *;
    try set (sn := Py.get (Naming.compliance_percentage n) 0) in *;
    try set (sv := Py.get (Bypass.security_score v) 0) in *;
    try set (st := Py.get (Bypass.security_score t) 0) in *; intros Hw.
  - rewrite sum_four, products_three by assumption. cbn [bind].
    rewrite (average_then _ _ _ _ (average_four (2 * sn + 3 * sv + 3 * st) ltac:(lia))).
    eexists; split; [reflexivity|]. cbn [score rating components]. rewrite band_rating.
    repeat split.
  - rewrite sum_two_and_half, products_naming_one by assumption. cbn [bind].
    rewrite (average_then _ _ _ _ (average_two_and_half (2 * sn + 3 * sv) ltac:(lia))).
    eexists; split; [reflexivity|]. cbn [score rating components]. rewrite band_rating.
    repeat split; try (f_equal; lia).
  - rewrite sum_two_and_half, products_naming_one by assumption. cbn [bind].
    rewrite (average_then _ _ _ _ (average_two_and_half (2 * sn + 3 * st) ltac:(lia))).
    eexists; split; [reflexivity|]. cbn [score rating components]. rewrite band_rating.
    repeat split; try (f_equal; lia).
  - rewrite sum_one, products_naming. cbn [bind].
    rewrite (average_then _ _ _ _ (average_int sn Hn)).
    eexists; split; [reflexivity|]. cbn [score rating components]. rewrite band_rating.
    repeat split. rewrite <- (round_ratio_int sn) at 1. f_equal; lia.
  - rewrite sum_three, products_two by assumption. cbn [bind].
    rewrite (average_then _ _ _ _ (average_three (3 * sv + 3 * st) ltac:(lia))).
    eexists; split; [reflexivity|]. cbn [score rating components]. rewrite band_rating.
    repeat split; try (f_equal; lia).
  - rewrite sum_one_and_half, products_one by assumption. cbn [bind].
    rewrite (average_then _ _ _ _ (average_one_and_half (3 * sv) ltac:(lia))).
    eexists; split; [reflexivity|]. cbn [score rating components]. rewrite band_rating.
    repeat split; try (f_equal; lia).
  - rewrite sum_one_and_half, products_one by assumption. cbn [bind].
    rewrite (average_then _ _ _ _ (average_one_and_half (3 * st) ltac:(lia))).
    eexists; split; [reflexivity|]. cbn [score rating components]. rewrite band_rating.
    repeat split; try (f_equal; lia).
  - contradiction Hw. reflexivity.
Qed.

Lemma round_ratio_between a b lo hi :
  0 < b -> lo * b <= a <= hi * b -> lo <= round_ratio a b <= hi.
Proof.
  intros Hb [Hlo Hhi]. unfold round_ratio.
  pose proof (Z.div_mod a b ltac:(lia)) as Hdm.
  pose proof (Z.mod_pos_bound a b Hb) as Hm.
  assert (Hq : lo <= a / b) by (apply Z.div_le_lower_bound; lia).
  assert (Hq' : a / b <= hi) by (apply Z.div_le_upper_bound; lia).
  assert (Hup : 0 < a mod b -> a / b + 1 <= hi).
  { intros Hr. destruct (Z.eq_dec (a / b) hi) as [E|]; [|lia].
    rewrite E in Hdm. nia. }
  destruct (2 * (a mod b) ?= b) eqn:E.
  - apply Z.compare_eq in E. destruct (Z.even (a / b)); lia.
  - lia.
  - apply Z.compare_gt_iff in E. lia.
Qed.

(** X16. When at least one analysis is given and every score is
    between 0 and 100, the overall score lies between the lowest and
    the highest of the scores given, and its rating is that of its
    band. A report of a single analysis therefore carries the score of
    that analysis. *)
Theorem overall_score_between_components (a : analyses) (lo hi : Z) :
  scores_in_range a -> twice_weight a <> 0 ->
  (naming_conventions a <> None -> lo <= naming_score a <= hi) ->
  (validation_rules a <> None -> lo <= validation_score a <= hi) ->
  (triggers a <> None -> lo <= triggers_score_of a <= hi) ->
  exists r,
    calculate_overall_score a = Ok r /\
    lo <= score r <= hi /\ rating r = band (score r).
Proof.
  intros Hr Hw Hn Hv Ht.
  destruct (overall_score_value a Hr Hw) as (r & Hres & Hs & Hb & _).
  exists r. split; [exact Hres|]. split; [|exact Hb]. rewrite Hs.
  unfold twice_weight, twice_weighted_sum, naming_score, validation_score,
    triggers_score_of in *.
  destruct a as [[n|] [v|] [t|]];
    cbn [naming_conventions validation_rules triggers is_present] in *;
    try (contradiction Hw; reflexivity);
    try specialize (Hn ltac:(discriminate));
    try specialize (Hv ltac:(discriminate));
    try specialize (Ht ltac:(discriminate));
    apply round_ratio_between; lia.
Qed.

Lemma overall_score_between_components_witness :
  exists r,
    calculate_overall_score validation_only_40 = Ok r /\
    40 <= score r <= 40 /\ rating r = band (score r).
Proof.
  apply (overall_score_between_components validation_only_40 40 40).
  - unfold scores_in_range. vm_compute. intuition discriminate.
  - vm_compute. discriminate.
  - intros H. contradiction H. reflexivity.
  - intros _. vm_compute. intuition discriminate.
  - intros H. contradiction H. reflexivity.
Defined.

Lemma risks_counted (a : report_analyses) :
  let r := count_all_risks (results_of a) in
  critical r = risk_total a "critical" "High" /\
  medium r = risk_total a "medium" "Medium" /\
  low r = risk_total a "low" "Low".
Proof.
  unfold count_all_risks, risk_total, bucket_size.
  destruct (naming_conventions (results_of a)), (validation_rules (results_of a)),
    (triggers (results_of a)); cbn [count_risks critical medium low]; lia.
Qed.

Lemma bucket_size_nonneg {V} (d : Py.dict (list V)) k : 0 <= bucket_size d k.
Proof. apply len_nonneg. Qed.

Lemma risk_total_nonneg a k1 k2 : 0 <= risk_total a k1 k2.
Proof.
  unfold risk_total.
  destruct (naming_conventions (results_of a)) as [n|],
    (validation_rules (results_of a)) as [v|], (triggers (results_of a)) as [t|];
    try pose proof (bucket_size_nonneg (Naming.by_severity n) k1);
    try pose proof (bucket_size_nonneg (severity_index Bypass.rules_keys v) k2);
    try pose proof (bucket_size_nonneg (severity_index Bypass.triggers_keys t) k2); lia.
Qed.

Lemma share_returns c t :
  0 <= c <= t -> 0 < t ->
  exists x,
    (ratio <- Num.truediv (Num.Int c) (Num.Int t) ;; Num.mul ratio (Num.Int 100)) = Ok x.
Proof.
  intros Hc Ht. destruct (int_truediv_bounded c t Hc Ht) as (f & Hf & _).
  cbn [Num.truediv]. rewrite Hf. cbn [bind Num.mul Num.to_float].
  rewrite float_of_int_100. cbn [bind]. eauto.
Qed.

Lemma share_of_none t : 0 < t -> share_above_20 0 t = false.
Proof. intros Ht. destruct t; try lia. reflexivity. Qed.

Lemma share_of_fifth c t :
  1 <= c <= 5 -> c <= t -> t < 5 * c -> share_above_20 c t = true.
Proof.
  intros Hc Ht Ht'.
  pose (f := fun c t : Z =>
    if ((1 <=? c) && (c <=? t) && (t <? 5 * c))%bool then share_above_20 c t else true).
  assert (H : f c t = true).
  { apply (upto_forall2 f 5 24); [vm_compute; reflexivity|lia|lia]. }
  unfold f in H.
  replace (1 <=? c) with true in H by (symmetry; apply Z.leb_le; lia).
  replace (c <=? t) with true in H by (symmetry; apply Z.leb_le; lia).
  replace (t <? 5 * c) with true in H by (symmetry; apply Z.ltb_lt; lia).
  exact H.
Qed.

Lemma assess_cases (r : risks) :
  0 <= critical r -> 0 <= medium r -> 0 <= low r ->
  let total_issues := critical r + medium r + low r in
  exists text,
    assess r = Ok text /\
    text =
      if ((critical r >? 5) ||
          (if total_issues >? 0 then share_above_20 (critical r) total_issues
           else false))%bool
      then critical_attention
      else if ((critical r >? 0) || (medium r >? 10))%bool then moderate_risk
      else low_risk.
Proof.
  intros Hc Hm Hl. cbn zeta. unfold assess, share_above_20.
  destruct (critical r + medium r + low r >? 0) eqn:E.
  - apply Z.gtb_lt in E.
    destruct (share_returns (critical r) (critical r + medium r + low r)) as [x Hx];
      [lia|lia|].
    rewrite Hx. cbn [bind]. eexists; split; reflexivity.
  - cbn [bind]. eexists; split; reflexivity.
Qed.

Lemma gtb_le a b : (a >? b) = false <-> a <= b.
Proof. rewrite Z.gtb_ltb, Z.ltb_ge. reflexivity. Qed.

(** X17. [generate_executive_summary] never raises. Its three risk
    counts are the sums, over the analyses given, of the lengths of the
    severity buckets (critical with High, medium with Medium, low with
    Low), and it lists one key finding for each analysis given. The
    assessment is low risk exactly when no finding is critical and at
    most ten are medium; it is critical attention whenever more than
    five findings are critical or more than a fifth of all findings
    are; with no critical finding and more than ten medium ones it is
    moderate risk. *)
Theorem executive_summary_assessment (a : report_analyses) :
  exists s,
    generate_executive_summary a = Ok s /\
    let r := risks_identified s in
    let total_issues := critical r + medium r + low r in
    critical r = risk_total a "critical" "High" /\
    medium r = risk_total a "medium" "Medium" /\
    low r = risk_total a "low" "Low" /\
    List.length (key_findings s) = analyses_given a /\
    (overall_assessment s = low_risk <-> critical r = 0 /\ medium r <= 10) /\
    (5 < critical r \/ total_issues < 5 * critical r ->
     overall_assessment s = critical_attention) /\
    (critical r = 0 -> 10 < medium r -> overall_assessment s = moderate_risk).
Proof.
  unfold generate_executive_summary. cbn zeta.
  destruct (risks_counted a) as (Hc & Hm & Hl). cbn zeta in Hc, Hm, Hl.
  pose proof (risk_total_nonneg a "critical" "High") as Hc0.
  pose proof (risk_total_nonneg a "medium" "Medium") as Hm0.
  pose proof (risk_total_nonneg a "low" "Low") as Hl0.
  set (r := count_all_risks (results_of a)) in *.
  destruct (assess_cases r) as (text & Ha & Ht); [lia|lia|lia|]. cbn zeta in Ht.
  rewrite Ha. cbn [bind]. eexists; split; [reflexivity|].
  cbn [risks_identified key_findings overall_assessment].
  split; [exact Hc|]. split; [exact Hm|]. split; [exact Hl|]. split.
  { unfold add_key_findings, analyses_given.
    destruct (naming_conventions (results_of a)), (validation_rules (results_of a)),
      (triggers (results_of a)); reflexivity. }
  rewrite <- Hc, <- Hm, <- Hl in *. clear Hc Hm Hl. subst text.
  set (c := critical r) in *. set (m := medium r) in *. set (l := low r) in *.
  split; [split|split].
  - intros H.
    destruct ((c >? 5) || _)%bool; [discriminate H|].
    destruct ((c >? 0) || (m >? 10))%bool eqn:E; [discriminate H|].
    apply orb_false_elim in E as [E1 E2].
    apply gtb_le in E1. apply gtb_le in E2. lia.
  - intros [Hz Hten].
    replace (c >? 5) with false by (symmetry; apply gtb_le; lia).
    replace (c >? 0) with false by (symmetry; apply gtb_le; lia).
    replace (m >? 10) with false by (symmetry; apply gtb_le; lia).
    cbn [orb]. rewrite Hz. destruct (0 + m + l >? 0) eqn:E; [|reflexivity].
    apply Z.gtb_lt in E. now rewrite share_of_none.
  - intros [H|H].
    + replace (c >? 5) with true by (symmetry; apply Z.gtb_lt; lia). reflexivity.
    + destruct (c >? 5) eqn:E5; [reflexivity|]. apply gtb_le in E5.
      replace (c + m + l >? 0) with true by (symmetry; apply Z.gtb_lt; lia).
      rewrite share_of_fifth by lia. reflexivity.
  - intros Hz Hten.
    replace (c >? 5) with false by (symmetry; apply gtb_le; lia).
    replace (m >? 10) with true by (symmetry; apply Z.gtb_lt; lia).
    rewrite orb_true_r. cbn [orb]. rewrite Hz.
    replace (0 + m + l >? 0) with true by (symmetry; apply Z.gtb_lt; lia).
    now rewrite share_of_none by lia.
Qed.

Lemma executive_summary_assessment_witness :
  exists s,
    generate_executive_summary sample_analyses = Ok s /\
    overall_assessment s = low_risk.
Proof.
  destruct (executive_summary_assessment sample_analyses)
    as (s & Hs & Hc & Hm & _ & _ & Hlow & _).
  exists s. split; [exact Hs|]. apply Hlow. rewrite Hc, Hm. vm_compute.
  split; [reflexivity|discriminate].
Defined.

Lemma executive_summary_total (a : report_analyses) :
  exists s, generate_executive_summary a = Ok s.
Proof.
  unfold generate_executive_summary. cbn zeta.
  destruct (risks_counted a) as (Hc & Hm & Hl). cbn zeta in Hc, Hm, Hl.
  pose proof (risk_total_nonneg a "critical" "High") as Hc0.
  pose proof (risk_total_nonneg a "medium" "Medium") as Hm0.
  pose proof (risk_total_nonneg a "low" "Low") as Hl0.
  destruct (assess_cases (count_all_risks (results_of a))) as (text & Ha & _);
    [lia|lia|lia|].
  rewrite Ha. cbn [bind]. eauto.
Qed.

Lemma band_below_90 s : s < 90 -> band s <> "Excellent".
Proof.
  intros H. unfold band.
  replace (90 <=? s) with false by (symmetry; apply Z.leb_gt; lia).
  destruct (75 <=? s), (60 <=? s), (40 <=? s); discriminate.
Qed.

Lemma rule_rows self rules :
  map row_component
    (map (pattern_row_of Bypass.item_apiName) (map (rule_entry self) rules)) =
  map Bypass.rule_api_name rules.
Proof. rewrite !map_map. reflexivity. Qed.

Lemma trigger_rows self triggers_ :
  map row_component
    (map (pattern_row_of Bypass.item_name) (map (trigger_entry self) triggers_)) =
  map Bypass.trigger_name_text triggers_.
Proof. rewrite !map_map. reflexivity. Qed.

(** X18. From non-empty lists of fields, validation rules and
    triggers, the three analyses with their summary, queues and
    recommendations always yield a comprehensive report. Its detailed
    findings name every field, in the order of the input, and every
    flagged rule and trigger, in the order of the input; its
    refactoring priorities are the first five of each queue. Since no
    field complies, the naming component is 0, so the overall score is
    three eighths of the sum of the two security scores, rounded: it is
    at most 75 and the rating is never Excellent. The recommendations
    hold no repetition and include the three standing ones. *)
Theorem full_report_of_inputs (self : Bypass.BypassPatternAnalyzer)
    (fields : list Naming.field) (rules : list Bypass.validation_rule)
    (triggers_ : list Bypass.trigger) :
  fields <> [] ->
  rules <> [] -> Py.len rules <= Num.maxsize ->
  triggers_ <> [] -> Py.len triggers_ <= Num.maxsize ->
  exists rep nf vf tf cs,
    full_report self fields rules triggers_ = Ok rep /\
    report_detailed_findings rep = {|
      naming_conventions_findings := Some nf;
      validation_rules_findings := Some vf;
      triggers_findings := Some tf |} /\
    findings_compliance_percentage nf = 0 /\
    map row_field (findings_violations nf) = map Naming.api_name_of fields /\
    map row_component (findings_patterns vf) =
      map Bypass.rule_api_name (filter (rule_is is_flagged self) rules) /\
    findings_refactoring_priorities vf =
      firstn 5 (Bypass.sorted Bypass.severity_order
                  (map (rule_entry self) (filter (rule_is is_flagged self) rules))) /\
    map row_component (findings_patterns tf) =
      map Bypass.trigger_name_text (filter (trigger_is is_flagged self) triggers_) /\
    findings_refactoring_priorities tf =
      firstn 5 (Bypass.sorted Bypass.severity_order
                  (map (trigger_entry self)
                     (filter (trigger_is is_flagged self) triggers_))) /\
    components (report_overall_score rep) = Some cs /\
    naming_conventions_score cs = 0 /\
    validation_rules_score cs = findings_security_score vf /\
    triggers_score cs = findings_security_score tf /\
    score (report_overall_score rep) =
      round_ratio (3 * findings_security_score vf + 3 * findings_security_score tf) 8 /\
    score (report_overall_score rep) <= 75 /\
    rating (report_overall_score rep) <> "Excellent" /\
    NoDup (report_recommendations rep) /\
    (forall s, In s standing_recommendations -> In s (report_recommendations rep)).
Proof.
  intros Hf Hr Hrmax Ht Htmax. unfold full_report.
  destruct (fields_analysis fields Hf) as (nres & Hn & _ & _ & _ & Hnp).
  destruct (init_summary fields nres Hf Hn) as (sm & Hsm & _).
  destruct (validation_analysis self rules Hr Hrmax) as (vres & sv & Hv & Hva).
  destruct (validation_recommendations self rules vres Hv) as (p & _ & Hvr & _).
  destruct (trigger_analysis self triggers_ Ht Htmax) as (tres & st & Htr & Hta).
  destruct (trigger_recommendations self triggers_ tres Htr) as (Htrr & _).
  rewrite Hn. cbn [bind]. rewrite Hsm. cbn [bind]. rewrite Hv. cbn [bind].
  rewrite Hvr. cbn [bind]. rewrite Htr. cbn [bind]. rewrite Htrr. cbn [bind].
  set (a := {| results_of := _ |}).
  destruct (executive_summary_total a) as [es Hes].
  destruct Hva as [Hvs Hvrange _ _ _ _ _ _ _]. destruct Hta as [Hts Htrange _ _ _ _ _ _ _].
  assert (Hrange : scores_in_range (results_of a)).
  { unfold scores_in_range, naming_score, validation_score, triggers_score_of.
    cbn [results_of a naming_conventions validation_rules triggers].
    rewrite Hnp, Hvs, Hts. cbn [Py.get]. lia. }
  destruct (overall_score_value (results_of a) Hrange) as (ov & Hov & Hscore & Hband & Hcomp);
    [cbn; discriminate|].
  unfold generate_comprehensive_report. rewrite Hes. cbn [bind]. rewrite Hov. cbn [bind].
  pose proof (analysis_content _ _ _ _ _ _ _ _ rule_item_severity
                (validation_content _ _ _ Hv)) as (_ & Hvb & _).
  pose proof (analysis_content _ _ _ _ _ _ _ _ trigger_item_severity
                (trigger_content _ _ _ Htr)) as (_ & Htb & _).
  do 5 eexists. split; [reflexivity|].
  cbn [report_detailed_findings report_overall_score report_recommendations
       results_of a naming_conventions validation_rules triggers
       naming_conventions_summary validation_rules_refactoring_priorities
       triggers_refactoring_priorities].
  split; [reflexivity|].
  cbn [findings_compliance_percentage findings_violations findings_patterns
       findings_refactoring_priorities findings_security_score bypass_findings_of Py.get].
  assert (Hsc : score ov = round_ratio (3 * sv + 3 * st) 8).
  { rewrite Hscore. unfold twice_weighted_sum, twice_weight, naming_score,
      validation_score, triggers_score_of.
    cbn [results_of a naming_conventions validation_rules triggers is_present].
    rewrite Hnp, Hvs, Hts. cbn [Py.get]. f_equal. }
  assert (Hle : score ov <= 75).
  { rewrite Hsc. apply (round_ratio_between _ 8 0 75); lia. }
  rewrite Hnp, Hvs, Hts, Hcomp. cbn [Py.get].
  split; [reflexivity|]. split.
  { rewrite map_map. cbn [violation_row_of row_field].
    apply (reported_names fields). now apply analysis_reports. }
  unfold Bypass.generate_refactoring_priorities. rewrite Hvb, Htb.
  split; [apply rule_rows|]. split; [reflexivity|].
  split; [apply trigger_rows|]. split; [reflexivity|].
  split; [reflexivity|].
  unfold naming_score, validation_score, triggers_score_of.
  cbn [results_of a naming_conventions validation_rules triggers
       naming_conventions_score validation_rules_score triggers_score].
  rewrite Hnp, Hvs, Hts. cbn [Py.get].
  split; [reflexivity|]. split; [reflexivity|]. split; [reflexivity|].
  split; [exact Hsc|]. split; [exact Hle|].
  split; [rewrite Hband; apply band_below_90; lia|].
  rewrite recommendations_unfold.
  destruct (unique_facts (supplied_recommendations a ++ standing_recommendations))
    as (H1 & H2 & _).
  split; [exact H1|]. intros s Hs. apply H2, in_or_app. now right.
Qed.

Lemma full_report_of_inputs_witness :
  exists rep nf vf tf cs,
    full_report Bypass.init sample_fields sample_rules sample_triggers = Ok rep /\
    report_detailed_findings rep = {|
      naming_conventions_findings := Some nf;
      validation_rules_findings := Some vf;
      triggers_findings := Some tf |} /\
    findings_compliance_percentage nf = 0 /\
    map row_field (findings_violations nf) = map Naming.api_name_of sample_fields /\
    map row_component (findings_patterns vf) =
      map Bypass.rule_api_name (filter (rule_is is_flagged Bypass.init) sample_rules) /\
    findings_refactoring_priorities vf =
      firstn 5 (Bypass.sorted Bypass.severity_order
                  (map (rule_entry Bypass.init)
                     (filter (rule_is is_flagged Bypass.init) sample_rules))) /\
    map row_component (findings_patterns tf) =
      map Bypass.trigger_name_text
        (filter (trigger_is is_flagged Bypass.init) sample_triggers) /\
    findings_refactoring_priorities tf =
      firstn 5 (Bypass.sorted Bypass.severity_order
                  (map (trigger_entry Bypass.init)
                     (filter (trigger_is is_flagged Bypass.init) sample_triggers))) /\
    components (report_overall_score rep) = Some cs /\
    naming_conventions_score cs = 0 /\
    validation_rules_score cs = findings_security_score vf /\
    triggers_score cs = findings_security_score tf /\
    score (report_overall_score rep) =
      round_ratio (3 * findings_security_score vf + 3 * findings_security_score tf) 8 /\
    score (report_overall_score rep) <= 75 /\
    rating (report_overall_score rep) <> "Excellent" /\
    NoDup (report_recommendations rep) /\
    (forall s, In s standing_recommendations -> In s (report_recommendations rep)).
Proof.
  apply (full_report_of_inputs Bypass.init sample_fields sample_rules sample_triggers).
  - discriminate.
  - discriminate.
  - vm_compute. discriminate.
  - discriminate.
  - vm_compute. discriminate.
Defined.

(** X19. A report that includes the naming analysis is held down by
    it: with the catalog of [__init__] the naming component is always
    0, so with both bypass analyses the overall score is at most 75,
    with one of them at most 60, and with the naming analysis alone it
    is 0 with the rating Critical. The rating is never Excellent. *)
Theorem naming_caps_overall_score (fields : list Naming.field)
    (validation trigger : option Bypass.results) :
  fields <> [] ->
  (forall v, validation = Some v -> 0 <= Py.get (Bypass.security_score v) 0 <= 100) ->
  (forall t, trigger = Some t -> 0 <= Py.get (Bypass.security_score t) 0 <= 100) ->
  exists res r,
    Naming.analyze_fields Naming.init (Py.List_ fields) = Ok res /\
    calculate_overall_score {|
      naming_conventions := Some res;
      validation_rules := validation;
      triggers := trigger |} = Ok r /\
    score r <= 75 /\ rating r <> "Excellent" /\
    (validation = None \/ trigger = None -> score r <= 60) /\
    (validation = None -> trigger = None -> score r = 0 /\ rating r = "Critical").
Proof.
  intros Hf Hv Ht.
  destruct (fields_analysis fields Hf) as (res & Hres & _ & _ & _ & Hp).
  set (a := {| naming_conventions := Some res; validation_rules := validation;
               triggers := trigger |}).
  assert (Hrange : scores_in_range a).
  { unfold scores_in_range, naming_score, validation_score, triggers_score_of.
    cbn [a naming_conventions validation_rules triggers]. rewrite Hp. cbn [Py.get].
    split; [lia|]. split.
    - destruct validation as [v|]; [now apply Hv|lia].
    - destruct trigger as [t|]; [now apply Ht|lia]. }
  destruct (overall_score_value a Hrange) as (r & Hr & Hs & Hb & _).
  { unfold twice_weight. cbn [a naming_conventions validation_rules triggers is_present].
    destruct validation, trigger; discriminate. }
  exists res, r. split; [exact Hres|]. split; [exact Hr|].
  destruct Hrange as (_ & Hsv & Hst).
  unfold twice_weighted_sum, twice_weight, naming_score in Hs.
  cbn [a naming_conventions validation_rules triggers is_present] in Hs.
  rewrite Hp in Hs. cbn [Py.get] in Hs.
  unfold validation_score, triggers_score_of in *.
  cbn [a validation_rules triggers] in *.
  destruct validation as [v|], trigger as [t|]; cbn [is_present] in Hs.
  - assert (Hle : 0 <= score r <= 75) by (rewrite Hs; apply round_ratio_between; lia).
    split; [lia|]. split; [rewrite Hb; apply band_below_90; lia|].
    split; [intros [H|H]; discriminate H|intros H; discriminate H].
  - assert (Hle : 0 <= score r <= 60) by (rewrite Hs; apply round_ratio_between; lia).
    split; [lia|]. split; [rewrite Hb; apply band_below_90; lia|].
    split; [intros _; lia|intros H; discriminate H].
  - assert (Hle : 0 <= score r <= 60) by (rewrite Hs; apply round_ratio_between; lia).
    split; [lia|]. split; [rewrite Hb; apply band_below_90; lia|].
    split; [intros _; lia|intros _ H; discriminate H].
  - assert (Hz : score r = 0) by (rewrite Hs; reflexivity).
    split; [lia|]. split; [rewrite Hb; apply band_below_90; lia|].
    split; [lia|]. intros _ _. split; [exact Hz|]. rewrite Hb, Hz. reflexivity.
Qed.

Lemma naming_caps_overall_score_witness :
  exists res r,
    Naming.analyze_fields Naming.init (Py.List_ sample_fields) = Ok res /\
    calculate_overall_score {|
      naming_conventions := Some res;
      validation_rules := validation_rules validation_only_40;
      triggers := None |} = Ok r /\
    score r <= 75 /\ rating r <> "Excellent" /\
    (validation_rules validation_only_40 = None \/ @None Bypass.results = None ->
     score r <= 60) /\
    (validation_rules validation_only_40 = None -> @None Bypass.results = None ->
     score r = 0 /\ rating r = "Critical").
Proof.
  apply (naming_caps_overall_score sample_fields
           (validation_rules validation_only_40) None).
  - discriminate.
  - intros v [= <-]. vm_compute. intuition discriminate.
  - intros t H. discriminate H.
Defined.

End ReportingFacts.
